(** * EEX DataLayer: a shallow embedding of [eex/datalayer.py]

    The development follows the Python class [DataLayer]: the registry of
    functional forms, the term-parameter store with its uid allocation, the
    per-property index of unique atom values, and the two atom entry points
    [add_atoms] / [get_atoms].

    Python objects are embedded as follows.
    - A dict whose iteration order is observable (the loop with [break] over
      [self._terms[order].items()], the loop over [APC_DICT.items()]) is an
      insertion-ordered association list, [pydict].  A dict that is only
      looked up is a [gmap].  A Python [set] is a [gset].
    - A method is a function in the monad [M]: it takes the object state and
      returns a result or a raised exception together with the state as the
      method left it (an exception does not roll mutations back).
    - NumPy, pandas, the table store ([filelayer]), [units] and the static
      catalogs ([metadata]) are collaborators; they are interfaces (type
      classes) and every theorem holds for all their implementations.  *)

From Stdlib Require Import ZArith QArith Qabs String Ascii List.
From stdpp Require Import base option list gmap strings fin_maps fin_sets pretty sorting.

Set Warnings "-clear-no-such-hyp".

Local Open Scope string_scope.
Local Open Scope Z_scope.
Local Open Scope list_scope.

(** ** Python exceptions and results *)

Inductive exn : Type :=
  | KeyError (msg : string)
  | TypeError (msg : string)
  | ValueError (msg : string)
  | Exception_ (msg : string)
  | AssertionError.

Inductive Result (A : Type) : Type :=
  | Ok (a : A)
  | Raise (e : exn).
Arguments Ok {A} a.
Arguments Raise {A} e.

Definition is_Ok {A} (r : Result A) : bool :=
  match r with Ok _ => true | Raise _ => false end.

(** ** Insertion-ordered dictionaries *)

Module PyDict.
Section PyDict.
Context {K A : Type} `{EqDecision K}.

Definition t := list (K * A).

Definition keys (d : t) : list K := d.*1.

Fixpoint get (k : K) (d : t) : option A :=
  match d with
  | [] => None
  | (k', v) :: d' => if decide (k' = k) then Some v else get k d'
  end.

Definition mem (k : K) (d : t) : bool := bool_decide (k ∈ keys d).

(** [d[k] = v]: an existing key keeps its position, a new key goes last. *)
Fixpoint set (k : K) (v : A) (d : t) : t :=
  match d with
  | [] => [(k, v)]
  | (k', v') :: d' =>
      if decide (k' = k) then (k, v) :: d' else (k', v') :: set k v d'
  end.

Lemma get_None k d : get k d = None ↔ k ∉ keys d.
Proof.
  induction d as [|[k' v] d IH]; simpl.
  - split; [intros _; apply not_elem_of_nil | done].
  - case_decide as E.
    + subst. split; [done | intros H; exfalso; apply H; left].
    + rewrite IH, not_elem_of_cons. split; [auto | intros [_ ?]; done].
Qed.

Lemma get_Some_elem k v d : get k d = Some v → (k, v) ∈ d.
Proof.
  induction d as [|[k' v'] d IH]; simpl; [done|].
  case_decide as E.
  - intros [= ->]. subst. left.
  - intros H. right. auto.
Qed.

Lemma set_fresh k v d : k ∉ keys d → set k v d = d ++ [(k, v)].
Proof.
  induction d as [|[k' v'] d IH]; simpl; [done|].
  rewrite not_elem_of_cons. intros [Hne Hnin].
  case_decide; [congruence|]. by rewrite IH.
Qed.

Lemma get_set_eq k v d : get k (set k v d) = Some v.
Proof.
  induction d as [|[k' v'] d IH]; simpl.
  - by rewrite decide_True.
  - case_decide as E; simpl.
    + by rewrite decide_True.
    + by rewrite decide_False.
Qed.

Lemma get_set_ne k k' v d : k ≠ k' → get k' (set k v d) = get k' d.
Proof.
  intros Hne. induction d as [|[k0 v0] d IH]; simpl.
  - by rewrite decide_False.
  - case_decide as E; simpl.
    + subst k0. by rewrite !decide_False.
    + case_decide; [done | apply IH].
Qed.
Lemma get_NoDup k v d : NoDup (keys d) → (k, v) ∈ d → get k d = Some v.
Proof.
  induction d as [|[k' v'] d IH]; simpl; [by intros _ ?%elem_of_nil|].
  intros [Hk' Hnd]%NoDup_cons [[= -> ->]|Hin]%elem_of_cons.
  - by rewrite decide_True.
  - rewrite decide_False; [by apply IH|]. intros ->. apply Hk'.
    apply list_elem_of_fmap. by exists (k, v).
Qed.
End PyDict.
Arguments t : clear implicits.
End PyDict.

(** ** Python values that the data layer only passes around *)

(** The [order] argument is an [int] (2, 3, ...) or a name ("bonds"). *)
Inductive py_order : Type :=
  | OInt (z : Z)
  | OStr (s : string).

Definition str_order (o : py_order) : string :=
  match o with
  | OInt z => pretty z
  | OStr s => s
  end.

(** The [uid] keyword when it is not [None]: an [int], or an object of
    another type (whose type name is all the code reads of it). *)
Inductive py_uid : Type :=
  | UidInt (z : Z)
  | UidOther (type_name : string).

(** The unit-map keyword of the atom entry points: [None], a [dict], or
    anything else. *)
Inductive py_utype (U : Type) : Type :=
  | UtNone
  | UtDict (d : PyDict.t string U)
  | UtOther.
Arguments UtNone {U}.
Arguments UtDict {U} d.
Arguments UtOther {U}.

(** ** [str.lower] and [str.upper] on ASCII text *)

Definition ascii_lower (c : ascii) : ascii :=
  let n := nat_of_ascii c in
  if (65 <=? n)%nat && (n <=? 90)%nat then ascii_of_nat (n + 32) else c.

Definition ascii_upper (c : ascii) : ascii :=
  let n := nat_of_ascii c in
  if (97 <=? n)%nat && (n <=? 122)%nat then ascii_of_nat (n - 32) else c.

Fixpoint lower (s : string) : string :=
  match s with
  | EmptyString => EmptyString
  | String c s' => String (ascii_lower c) (lower s')
  end.

Fixpoint upper (s : string) : string :=
  match s with
  | EmptyString => EmptyString
  | String c s' => String (ascii_upper c) (upper s')
  end.

(** [repr] of a name and [str] of a list of names, as they appear in a
    message: ['a'] and [['a', 'b']]. *)
Definition py_repr (s : string) : string := "'" +:+ s +:+ "'".

Fixpoint py_join (sep : string) (l : list string) : string :=
  match l with
  | [] => ""
  | [x] => x
  | x :: l' => x +:+ sep +:+ py_join sep l'
  end.

Definition py_str_list (l : list string) : string :=
  "[" +:+ py_join ", " (py_repr <$> l) +:+ "]".

(** ** [in], [str.replace] and [str] of a set of names *)

Fixpoint is_prefix (p s : string) : bool :=
  match p, s with
  | EmptyString, _ => true
  | String a p', String b s' => bool_decide (a = b) && is_prefix p' s'
  | String _ _, EmptyString => false
  end.

(** [sub in s]. *)
Fixpoint py_contains (sub s : string) : bool :=
  is_prefix sub s ||
  match s with
  | EmptyString => false
  | String _ s' => py_contains sub s'
  end.

Fixpoint drop_chars (n : nat) (s : string) : string :=
  match n, s with
  | O, _ => s
  | S n', String _ s' => drop_chars n' s'
  | S _, EmptyString => EmptyString
  end.

(** [s.replace(old, "")] for a non-empty [old]: the occurrences are
    removed from left to right and do not overlap. The fuel is the length
    of [s], which bounds the number of steps. *)
Fixpoint remove_all_fuel (fuel : nat) (old s : string) : string :=
  match fuel with
  | O => s
  | S fuel' =>
      if is_prefix old s then
        remove_all_fuel fuel' old (drop_chars (String.length old) s)
      else
        match s with
        | EmptyString => EmptyString
        | String c s' => String c (remove_all_fuel fuel' old s')
        end
  end.

Definition py_remove_all (old s : string) : string :=
  remove_all_fuel (S (String.length s)) old s.

(** [str(set_of_names)]. *)
Definition py_str_set (l : list string) : string :=
  match l with
  | [] => "set()"
  | _ => "{" +:+ py_join ", " (py_repr <$> l) +:+ "}"
  end.

(** ** [range] and [min] *)

Definition py_range (n : Z) : list Z := seqZ 0 n.

Definition py_min (l : list Z) : Result Z :=
  match l with
  | [] => Raise (ValueError "min() arg is an empty sequence")
  | x :: l' => Ok (foldr Z.min x l')
  end.

Lemma size_list_to_set_le (l : list Z) :
  (size (list_to_set l : gset Z) ≤ length l)%nat.
Proof.
  induction l as [|x l IH].
  - rewrite list_to_set_nil, size_empty. simpl. lia.
  - rewrite list_to_set_cons, size_union_alt, size_singleton. simpl.
    pose proof (subseteq_size (list_to_set l ∖ {[x]}) (list_to_set l : gset Z)) as Hle.
    assert (size (list_to_set l ∖ {[x]} : gset Z) ≤ size (list_to_set l : gset Z))%nat
      by (apply Hle; set_solver).
    lia.
Qed.

Lemma foldr_min_le (x : Z) (l : list Z) :
  foldr Z.min x l ≤ x ∧ Forall (λ y, foldr Z.min x l ≤ y) l.
Proof.
  induction l as [|y l [IH1 IH2]]; simpl.
  - split; [lia | constructor].
  - split; [lia|]. constructor; [lia|].
    eapply Forall_impl; [exact IH2|]. simpl. intros; lia.
Qed.

Lemma foldr_min_elem (x : Z) (l : list Z) : foldr Z.min x l ∈ x :: l.
Proof.
  induction l as [|y l IH]; simpl.
  - left.
  - destruct (Z.min_spec y (foldr Z.min x l)) as [[_ ->]|[_ ->]].
    + right; left.
    + apply elem_of_cons in IH as [->|IH]; [left | right; right; done].
Qed.

Lemma py_min_spec (l : list Z) :
  l ≠ [] → ∃ m, py_min l = Ok m ∧ m ∈ l ∧ ∀ y, y ∈ l → m ≤ y.
Proof.
  destruct l as [|x l]; [done|]. intros _. exists (foldr Z.min x l).
  split; [done|]. split; [apply foldr_min_elem|].
  intros y [->|Hy]%elem_of_cons.
  - apply foldr_min_le.
  - destruct (foldr_min_le x l) as [_ Hall].
    rewrite Forall_forall in Hall. by apply Hall.
Qed.

Lemma append_assoc (a b c : string) : (a +:+ b) +:+ c = a +:+ (b +:+ c).
Proof.
  induction a as [|x a IH]; [done|].
  change (String x ((a +:+ b) +:+ c) = String x (a +:+ b +:+ c)). by rewrite IH.
Qed.

Lemma append_nil_r (a : string) : a +:+ "" = a.
Proof.
  induction a as [|x a IH]; [done|].
  change (String x (a +:+ "") = String x a). by rewrite IH.
Qed.

Lemma ascii_lower_upper (c : ascii) : ascii_lower (ascii_upper c) = ascii_lower c.
Proof. by destruct c as [[] [] [] [] [] [] [] []]. Qed.

Lemma lower_upper (s : string) : lower (upper s) = lower s.
Proof.
  induction s as [|c s IH]; simpl; [done|].
  by rewrite ascii_lower_upper, IH.
Qed.

(** Every name of a list is spelled out in the rendering of the list. *)
Lemma py_join_mentions (sep x : string) (l : list string) :
  x ∈ l → ∃ pre post, py_join sep l = pre +:+ x +:+ post.
Proof.
  induction l as [|y l IH]; [by intros ?%elem_of_nil|].
  intros [->|Hx]%elem_of_cons.
  - destruct l as [|z l].
    + exists "", "". by rewrite append_nil_r.
    + exists "", (sep +:+ py_join sep (z :: l)). done.
  - destruct (IH Hx) as (pre & post & E). destruct l as [|z l]; [by apply elem_of_nil in Hx|].
    exists (y +:+ sep +:+ pre), post.
    change (py_join sep (y :: z :: l)) with (y +:+ sep +:+ py_join sep (z :: l)).
    by rewrite E, !append_assoc.
Qed.

Lemma py_str_list_mentions (x : string) (l : list string) :
  x ∈ l → ∃ pre post, py_str_list l = pre +:+ py_repr x +:+ post.
Proof.
  intros Hx. destruct (py_join_mentions ", " (py_repr x) (py_repr <$> l))
    as (pre & post & E).
  { apply list_elem_of_fmap. by exists x. }
  exists ("[" +:+ pre), (post +:+ "]"). unfold py_str_list.
  by rewrite E, !append_assoc.
Qed.

(** ** Collaborators

    Everything below is parameterised by the modules the data layer imports
    but does not define. *)

Section DataLayer.

(** Opaque Python objects (unit specifications, descriptions, ...). *)
Context {PyObj : Type}.

(** Scalars of a term-parameter vector and NumPy's [np.allclose] on two
    vectors; the first argument is the stored vector, the second the new
    one, as at the two call sites. It raises ([ValueError]) when the two
    shapes do not broadcast. *)
Context {V : Type} (allclose : list V → list V → Result bool).

(** Keys of the unique-value index of an atom property: what
    [df.groupby(cols)] yields as [gb_idx]. *)
Context {K : Type} `{Countable K}.

(** pandas tables, and the backend of [filelayer] that keeps them. *)
Context {DataFrame Store : Type}.

(** A functional form is a dict with string keys
    ("form", "parameters", "units", "description"). *)
Definition Form : Type := gmap string PyObj.

(** [term_parameters : {list, tuple, dict}]. *)
Inductive term_params : Type :=
  | TPList (l : list V)
  | TPDict (d : PyDict.t string V).

(** [metadata.sanitize_term_order_name], [metadata.get_term_metadata(order,
    "forms", name)], [metadata.validate_functional_form_dict] and
    [metadata.validate_term_dict]. *)
Context (sanitize_term_order_name : py_order → Result py_order)
        (get_term_metadata_forms : py_order → string → Result Form)
        (validate_functional_form_dict : string → Form → Result bool)
        (validate_term_dict : string → Form → term_params → Result (list V)).

(** ** The state of a [DataLayer] object *)

(** [self._atom_metadata[property_name]]. *)
Record param_dict : Type := mk_param_dict {
  counter : Z;
  uvals : gmap K Z;
  inv_uvals : gmap Z K
}.

(** A stored term: [params] after [params.insert(0, term_name)]; the first
    component is [v[0]], the second is [v[1:]]. *)
Definition term_entry : Type := string * list V.

Record DataLayer : Type := mk_DataLayer {
  store : Store;
  _functional_forms : gmap Z (gmap string Form);
  _terms : gmap Z (PyDict.t Z term_entry);
  _atom_metadata : gmap string param_dict
}.

Definition set_store (s : Store) (dl : DataLayer) : DataLayer :=
  mk_DataLayer s (_functional_forms dl) (_terms dl) (_atom_metadata dl).
Definition set_functional_forms (f : gmap Z (gmap string Form)) (dl : DataLayer) : DataLayer :=
  mk_DataLayer (store dl) f (_terms dl) (_atom_metadata dl).
Definition set_terms (t : gmap Z (PyDict.t Z term_entry)) (dl : DataLayer) : DataLayer :=
  mk_DataLayer (store dl) (_functional_forms dl) t (_atom_metadata dl).
Definition set_atom_metadata (a : gmap string param_dict) (dl : DataLayer) : DataLayer :=
  mk_DataLayer (store dl) (_functional_forms dl) (_terms dl) a.

(** [__init__], given the store the backend built. *)
Definition orders : list Z := [2; 3; 4; 5; 6; 7].

Definition init (s : Store) : DataLayer :=
  mk_DataLayer s
    (list_to_map ((λ o, (o, ∅)) <$> orders))
    (list_to_map ((λ o, (o, [])) <$> orders))
    ∅.

(** ** The method monad *)

Definition M (A : Type) : Type := DataLayer → Result A * DataLayer.

Definition ret {A} (a : A) : M A := λ dl, (Ok a, dl).
Definition raise {A} (e : exn) : M A := λ dl, (Raise e, dl).
Definition bind {A B} (m : M A) (f : A → M B) : M B :=
  λ dl, match m dl with
        | (Ok a, dl') => f a dl'
        | (Raise e, dl') => (Raise e, dl')
        end.
Definition get : M DataLayer := λ dl, (Ok dl, dl).
Definition modify (f : DataLayer → DataLayer) : M () := λ dl, (Ok (), f dl).
(** The outcome of a call that does not touch the object. *)
Definition lift {A} (r : Result A) : M A := λ dl, (r, dl).
(** [if c: raise e]. *)
Definition raise_if (c : bool) (e : exn) : M () :=
  if c then raise e else ret ().
(** [d[k]] for a key-value lookup [o]: Python raises [KeyError(k)]. *)
Definition subscript {A} (o : option A) (key : string) : M A :=
  match o with
  | Some a => ret a
  | None => raise (KeyError key)
  end.

Notation "x ← m ; k" := (bind m (λ x, k))
  (at level 20, m at level 100, k at level 200, only parsing).
Notation "m ;; k" := (bind m (λ _, k))
  (at level 100, k at level 200, right associativity, only parsing).

(** [self._functional_forms[order]] and [self._terms[order]]: the keys are
    the integers 2..7, so a name that was not turned into an integer is not
    a key. *)
Definition at_order {A} (order : py_order) (d : gmap Z A) : option A :=
  match order with
  | OInt z => d !! z
  | OStr _ => None
  end.

Definition order_in {A} (order : py_order) (d : gmap Z A) : bool :=
  bool_decide (is_Some (at_order order d)).

(** ** Term functions: [add_parameters] *)

(** Truth value of the [utype] keyword of [add_parameters]: [None] and an
    empty container are false. *)
Definition truthy {A} (utype : option (list A)) : bool :=
  match utype with
  | None | Some [] => false
  | Some (_ :: _) => true
  end.

(** [(v[0] == term_name) and np.allclose(v[1:], params)]: [and] does not
    evaluate its second operand when the names differ; when they agree,
    an exception of [np.allclose] is the exception of the test. *)
Definition entry_matches (term_name : string) (params : list V) (v : term_entry)
    : Result bool :=
  if bool_decide (v.1 = term_name) then allclose v.2 params else Ok false.

(** The search loop
    [for k, v in self._terms[order].items():
         if (v[0] == term_name) and np.allclose(v[1:], params): found_key = k; break]:
    the entries are tested in the order they were stored, up to the first
    that matches; an exception of a test ends the loop and the call. *)
Fixpoint find_key (term_name : string) (params : list V)
    (items : PyDict.t Z term_entry) : Result (option Z) :=
  match items with
  | [] => Ok None
  | (k, v) :: items' =>
      match entry_matches term_name params v with
      | Ok true => Ok (Some k)
      | Ok false => find_key term_name params items'
      | Raise e => Raise e
      end
  end.

(** "Find the lowest number that we can add it at." *)
Definition new_key (terms : PyDict.t Z term_entry) : Result Z :=
  if bool_decide (length terms = 0%nat) then Ok 0
  else
    let possible_values : gset Z := list_to_set (py_range (Z.of_nat (length terms) + 1)) in
    py_min (elements (possible_values ∖ list_to_set (PyDict.keys terms))).

Definition msg_order_key (user_order : py_order) : string :=
  "DataLayer:register_functional_forms: Did not understand order key '"
    +:+ str_order user_order +:+ "'.".
Definition msg_not_registered (term_name : string) : string :=
  "DataLayer:register_functional_forms: Term name '"
    +:+ term_name +:+ "' has not been registered.".
Definition msg_units_nyi : string :=
  "DataLayer:register_functional_forms: Units are not yet supported, contact @dgasmith.".
Definition msg_uid_type (type_name : string) : string :=
  "DataLayer:register_functional_forms: uid keyword must be of type int, found type '"
    +:+ type_name +:+ "'.".
Definition msg_uid_conflict : string :=
  "DataLayer:register_functional_forms: uid already exists, but does not much current parameters.".

(** [self._terms[order][key] = params] after [params.insert(0, term_name)]. *)
Definition store_term (o : Z) (key : Z) (term_name : string) (params : list V)
    (terms : PyDict.t Z term_entry) : M () :=
  modify (λ dl, set_terms (<[o := PyDict.set key (term_name, params) terms]> (_terms dl)) dl).

Definition order_key (order : py_order) : Z :=
  match order with OInt z => z | OStr _ => 0 end.

Definition add_parameters (order : py_order) (term_name : string)
    (term_parameters : term_params) (uid : option py_uid)
    (utype : option (list PyObj)) : M Z :=
  let user_order := order in
  order ← lift (sanitize_term_order_name order);
  (* Validate term add *)
  dl ← get;
  raise_if (negb (order_in order (_functional_forms dl)))
    (KeyError (msg_order_key user_order));;
  forms ← subscript (at_order order (_functional_forms dl)) (str_order order);
  raise_if (negb (bool_decide (is_Some (forms !! term_name))))
    (KeyError (msg_not_registered term_name));;
  raise_if (truthy utype) (TypeError msg_units_nyi);;
  (* Obtain the parameters *)
  mdata ← subscript (forms !! term_name) term_name;
  params ← lift (validate_term_dict term_name mdata term_parameters);
  (* First we check if we already have it *)
  terms ← subscript (at_order order (_terms dl)) (str_order order);
  found_key ← lift (find_key term_name params terms);
  (* Figure out what actually to do *)
  match uid with
  | None =>
      match found_key with
      | Some k => ret k
      | None =>
          (* We have a new parameter! *)
          new_key ← lift (new_key terms);
          store_term (order_key order) new_key term_name params terms;;
          ret new_key
      end
  | Some (UidOther type_name) => raise (TypeError (msg_uid_type type_name))
  | Some (UidInt uid) =>
      (* If we exist this could get dangerous *)
      match PyDict.get uid terms with
      | Some old_param =>
          match_ ← lift (entry_matches term_name params old_param);
          if match_ then ret uid
          else raise (KeyError msg_uid_conflict)
      | None =>
          store_term (order_key order) uid term_name params terms;;
          ret uid
      end
  end.

(** ** Term functions: [register_functional_forms] *)

Definition msg_form_or_units : string :=
  "DataLayer:register_functional_forms: Must either pass in form (external form) or units (internal form).".
Definition msg_no_builtin (user_order : py_order) (name : string) : string :=
  "DataLayer:register_functional_forms: Could not find built in form of order `"
    +:+ str_order user_order +:+ "` and name `" +:+ name.
Definition msg_already_registered (name : string) : string :=
  "DataLayer:register_functional_forms: Key '" +:+ name +:+ "' has already been registered.".

(** [try: form = metadata.get_term_metadata(order, "forms", name)
    except KeyError: raise KeyError(...)]: only a [KeyError] is replaced. *)
Definition builtin_form (user_order order : py_order) (name : string) : Result Form :=
  match get_term_metadata_forms order name with
  | Ok form => Ok form
  | Raise (KeyError _) => Raise (KeyError (msg_no_builtin user_order name))
  | Raise e => Raise e
  end.

(** [assert c]. *)
Definition py_assert (c : Result bool) : M () :=
  b ← lift c; raise_if (negb b) AssertionError.

Definition register_functional_forms (order : py_order) (name : string)
    (form : option Form) (utype : option PyObj) : M () :=
  let user_order := order in
  order ← lift (sanitize_term_order_name order);
  dl ← get;
  raise_if (negb (order_in order (_functional_forms dl)))
    (KeyError (msg_order_key user_order));;
  form ←
    match form, utype with
    | None, None => raise (KeyError msg_form_or_units)
    | None, Some utype =>
        (* We are using an internal form *)
        form ← lift (builtin_form user_order order name);
        ret (<["units" := utype]> form)
    | Some form, _ =>
        (* We are using an external form *)
        forms ← subscript (at_order order (_functional_forms dl)) (str_order order);
        raise_if (bool_decide (is_Some (forms !! name)))
          (KeyError (msg_already_registered name));;
        ret form
    end;
  py_assert (validate_functional_form_dict name form);;
  (* Make sure the data is valid and add *)
  forms ← subscript (at_order order (_functional_forms dl)) (str_order order);
  modify (set_functional_forms
            (<[order_key order := <[name := form]> forms]> (_functional_forms dl))).

(** ** Atom functions: the collaborators *)

(** An entry of [metadata.atom_metadata]. *)
Record field_data : Type := mk_field_data {
  required_columns : list string;
  dtype_is_float : bool;          (* [field_data["dtype"] == float] *)
  tol : PyObj;
  unique : bool;
  fd_units : option PyObj;        (* [field_data["units"]] *)
  fd_utype : PyObj                (* [field_data["utype"]] *)
}.

(** [metadata.atom_metadata] and [APC_DICT = metadata.atom_property_to_column]. *)
Context (atom_metadata : gmap string field_data)
        (APC_DICT : PyDict.t string (list string)).

(** [units.conversion_factor]. *)
Context {Scale : Type} (conversion_factor : PyObj → PyObj → Result Scale).

(** A scalar written into a result column: an id, the float [0.0], or an
    indexed value. *)
Inductive cell : Type :=
  | CInt (z : Z)
  | CZero
  | CKey (k : K).

(** The pandas operations the data layer uses. [groupby_values] is
    [df.groupby(cols)] on a table of values, [groupby_ids] the same on a
    table of ids; both yield the groups in the order pandas iterates them. *)
Context {Index : Type}
        (df_columns : DataFrame → list string)
        (df_set_index : DataFrame → string → DataFrame)
        (df_index_name : DataFrame → option string)
        (df_index : DataFrame → Index)
        (df_getitem : DataFrame → list string → Result DataFrame)
        (df_mul : DataFrame → Scale → Result DataFrame)
        (df_round : DataFrame → PyObj → Result DataFrame)
        (pd_DataFrame : Index → DataFrame)
        (df_setitem : DataFrame → string → cell → DataFrame)
        (df_loc_setitem : DataFrame → Index → string → cell → Result DataFrame)
        (groupby_values : DataFrame → list string → Result (list (K * DataFrame)))
        (groupby_ids : DataFrame → list string → Result (list (Z * DataFrame)))
        (df_imul : DataFrame → list string → Scale → Result DataFrame)
        (pd_concat : list DataFrame → Result DataFrame).

(** [self.store.add_table] and [self.store.read_table]. *)
Context (store_add_table : Store → string → DataFrame → Result () * Store)
        (store_read_table : Store → string → Result DataFrame * Store).

Definition add_table (table_name : string) (df : DataFrame) : M () :=
  λ dl, let '(r, s) := store_add_table (store dl) table_name df in (r, set_store s dl).

Definition read_table (table_name : string) : M DataFrame :=
  λ dl, let '(r, s) := store_read_table (store dl) table_name in (r, set_store s dl).

(** [metadata.atom_metadata[property_name]]. *)
Definition get_field_data (property_name : string) : M field_data :=
  subscript (atom_metadata !! property_name) property_name.

(** ** Atom functions: the index of unique values *)

Definition new_param_dict : param_dict := mk_param_dict (-1) ∅ ∅.

Definition _check_atoms_dict (property_name : string) : M bool :=
  dl ← get;
  if bool_decide (is_Some (_atom_metadata dl !! property_name)) then ret false
  else
    field_data ← get_field_data property_name;
    modify (λ dl, set_atom_metadata
                    (<[property_name := new_param_dict]> (_atom_metadata dl)) dl);;
    ret true.

(** The body of the loop of [_find_unqiue_atom_values] up to
    [uidx = param_dict["uvals"][gb_idx]]: "Update dictionary if necessary",
    then "Grab the unique". The result is the dictionary after the update
    and the lookup. *)
Definition update_param_dict (gb_idx : K) (pd : param_dict) : param_dict :=
  if bool_decide (is_Some (uvals pd !! gb_idx)) then pd
  else
    let counter' := counter pd + 1 in
    mk_param_dict counter'
      (<[gb_idx := counter']> (uvals pd))
      (<[counter' := gb_idx]> (inv_uvals pd)).

Definition grab_unique (gb_idx : K) (pd : param_dict) : option Z :=
  uvals pd !! gb_idx.

(** [self._atom_metadata[property_name]], the dictionary the loop mutates
    in place. *)
Definition get_param_dict (property_name : string) : M param_dict :=
  dl ← get; subscript (_atom_metadata dl !! property_name) property_name.

Definition put_param_dict (property_name : string) (pd : param_dict) : M () :=
  modify (λ dl, set_atom_metadata (<[property_name := pd]> (_atom_metadata dl)) dl).

Fixpoint find_unique_loop (property_name : string)
    (groups : list (K * DataFrame)) (ret_df : DataFrame) : M DataFrame :=
  match groups with
  | [] => ret ret_df
  | (gb_idx, udf) :: groups' =>
      pd ← get_param_dict property_name;
      let pd := update_param_dict gb_idx pd in
      put_param_dict property_name pd;;
      uidx ← subscript (grab_unique gb_idx pd) "gb_idx";
      ret_df ← lift (df_loc_setitem ret_df (df_index udf) property_name (CInt uidx));
      find_unique_loop property_name groups' ret_df
  end.

Definition _find_unqiue_atom_values (df : DataFrame) (property_name : string) : M DataFrame :=
  field_data ← get_field_data property_name;
  _ ← get_param_dict property_name;
  let cols := required_columns field_data in
  df ← (if dtype_is_float field_data then
          df ← lift (df_getitem df cols); lift (df_round df (tol field_data))
        else ret df);
  let ret_df := df_setitem (pd_DataFrame (df_index df)) property_name (CInt 0) in
  groups ← lift (groupby_values df cols);
  find_unique_loop property_name groups ret_df.

Fixpoint build_loop (property_name : string) (pd : param_dict)
    (groups : list (Z * DataFrame)) (ret_df : DataFrame) : M DataFrame :=
  match groups with
  | [] => ret ret_df
  | (gb_idx, udf) :: groups' =>
      v ← subscript (inv_uvals pd !! gb_idx) (pretty gb_idx);
      ret_df ← lift (df_loc_setitem ret_df (df_index udf) property_name (CKey v));
      build_loop property_name pd groups' ret_df
  end.

Definition _build_atom_values (df : DataFrame) (property_name : string) : M DataFrame :=
  field_data ← get_field_data property_name;
  param_dict ← get_param_dict property_name;
  let cols := required_columns field_data in
  let ret_df := df_setitem (pd_DataFrame (df_index df)) property_name CZero in
  groups ← lift (groupby_ids df cols);
  build_loop property_name param_dict groups ret_df.

(** ** Atom functions: tables *)

Definition _store_atom_table (table_name : string) (df : DataFrame)
    (property_name : string) (by_value : bool) (utype : option PyObj) : M () :=
  _check_atoms_dict property_name;;
  field_data ← get_field_data property_name;
  (* Figure out unit scaling factors *)
  df ← match by_value, fd_units field_data, utype with
       | true, Some _, Some utype =>
           scale_factor ← lift (conversion_factor utype (fd_utype field_data));
           df ← lift (df_getitem df (required_columns field_data));
           lift (df_mul df scale_factor)
       | _, _, _ => ret df
       end;
  tmp_df ← (if by_value && negb (unique field_data) then
              _find_unqiue_atom_values df property_name
            else
              cols ← subscript (PyDict.get property_name APC_DICT) property_name;
              lift (df_getitem df cols));
  add_table table_name tmp_df.

Definition _get_atom_table (table_name property_name : string)
    (by_value : bool) (utype : option PyObj) : M DataFrame :=
  tmp ← read_table table_name;
  unique_prop ← (if by_value then
                   fd ← get_field_data property_name; ret (unique fd)
                 else ret true);
  tmp ← (if by_value && negb unique_prop then
           _build_atom_values tmp property_name
         else ret tmp);
  (* Figure out unit scaling factors *)
  field_data ← get_field_data property_name;
  match by_value, fd_units field_data, utype with
  | true, Some _, Some utype =>
      scale_factor ← lift (conversion_factor (fd_utype field_data) utype);
      lift (df_imul tmp (required_columns field_data) scale_factor)
  | _, _, _ => ret tmp
  end.

(** [{k.lower(): v for k, v in utype.items()}], with the two other cases
    of the keyword. *)
Definition lower_keys (d : PyDict.t string PyObj) : PyDict.t string PyObj :=
  foldl (λ acc kv, PyDict.set (lower kv.1) kv.2 acc) [] d.

Definition normalise_utype (utype : py_utype PyObj) : M (PyDict.t string PyObj) :=
  match utype with
  | UtNone => ret []
  | UtDict d => ret (lower_keys d)
  | UtOther => raise (TypeError "utype type not understood")
  end.

(** [set(v) <= set_cols]. *)
Definition columns_present (v : list string) (set_cols : gset string) : bool :=
  bool_decide ((list_to_set v : gset string) ⊆ set_cols).

(** ** Atom functions: [add_atoms] *)

(** The first argument of [add_atoms]: a [DataFrame], or an object of
    another type. *)
Inductive atom_input : Type :=
  | AtomFrame (df : DataFrame)
  | AtomOther (type_repr : string).

Definition index : string := "atom_index".

Definition msg_not_understood (type_repr : string) : string :=
  "DataLayer:add_atoms: Data type '" +:+ type_repr +:+ "' not understood.".
Definition msg_index_name (name : option string) : string :=
  "DataLayer:add_atoms: DF index must be the `atom_index` not '"
    +:+ default "None" name +:+ "'.".
(** The message ends with [str(atom_df.columns)] on a line of its own,
    indented by eleven spaces. *)
Definition msg_no_key_matched (columns : list string) : string :=
  "DataLayer:add_atom: No data was added as no key was matched from input columns:"
    +:+ String (ascii_of_nat 10) "           "
    +:+ "Index(" +:+ py_str_list columns +:+ ", dtype='object')".

(** "Try to add all possible properties": the loop over
    [APC_DICT.items()], returning [found_one]. *)
Fixpoint add_atoms_loop (items : PyDict.t string (list string))
    (atom_df : DataFrame) (set_cols : gset string) (by_value : bool)
    (utype : PyDict.t string PyObj) (found_one : bool) : M bool :=
  match items with
  | [] => ret found_one
  | (k, v) :: items' =>
      if columns_present v set_cols then
        let uval := PyDict.get k utype in
        _store_atom_table k atom_df k by_value uval;;
        add_atoms_loop items' atom_df set_cols by_value utype true
      else add_atoms_loop items' atom_df set_cols by_value utype found_one
  end.

Definition add_atoms (atom_df : atom_input) (by_value : bool)
    (utype : py_utype PyObj) : M bool :=
  (* Validate DataFrame *)
  atom_df ← match atom_df with
            | AtomFrame df => ret df
            | AtomOther t => raise (KeyError (msg_not_understood t))
            end;
  let atom_df := if bool_decide (index ∈ df_columns atom_df)
                 then df_set_index atom_df index else atom_df in
  raise_if (negb (bool_decide (df_index_name atom_df = Some index)))
    (KeyError (msg_index_name (df_index_name atom_df)));;
  utype ← normalise_utype utype;
  (* Try to add all possible properties *)
  let set_cols : gset string := list_to_set (df_columns atom_df) in
  found_one ← add_atoms_loop APC_DICT atom_df set_cols by_value utype false;
  raise_if (negb found_one)
    (Exception_ (msg_no_key_matched (df_columns atom_df)));;
  ret true.

(** ** Atom functions: [get_atoms] *)

(** [properties : {list, str}]. *)
Inductive properties_arg : Type :=
  | PropList (l : list string)
  | PropOne (s : string).

Definition msg_not_recognized (invalid_props : list string) : string :=
  "DataLayer:add_atoms: Property name(s) '"
    +:+ py_str_list invalid_props +:+ "' not recognized.".

Fixpoint get_atoms_loop (properties : list string) (by_value : bool)
    (utype : PyDict.t string PyObj) (df_data : list DataFrame) : M (list DataFrame) :=
  match properties with
  | [] => ret df_data
  | prop :: properties' =>
      let uval := PyDict.get prop utype in
      tmp ← _get_atom_table prop prop by_value uval;
      get_atoms_loop properties' by_value utype (df_data ++ [tmp])
  end.

Definition get_atoms (properties : properties_arg) (by_value : bool)
    (utype : py_utype PyObj) : M DataFrame :=
  let valid_properties := PyDict.keys APC_DICT in
  let properties := match properties with
                    | PropList l => l
                    | PropOne s => [s]
                    end in
  let properties := lower <$> properties in
  let requested : gset string := list_to_set properties in
  let valid : gset string := list_to_set valid_properties in
  raise_if (negb (bool_decide (requested ⊆ valid)))
    (KeyError (msg_not_recognized (elements (requested ∖ valid))));;
  utype ← normalise_utype utype;
  df_data ← get_atoms_loop properties by_value utype [];
  lift (pd_concat df_data).

(** ** Term functions: connectivity tables *)

(** [metadata.get_term_metadata(order, "index_columns")]. *)
Context (get_term_metadata_index_columns : py_order → Result (list string)).

Definition msg_add_terms_order (order : py_order) : string :=
  "DataLayer:add_terms: Did not understand order key '" +:+ str_order order +:+ "'.".
Definition msg_missing_columns (not_found : list string) (order : py_order) : string :=
  "DataLayer:add_terms: Missing required columns '" +:+ py_str_set not_found
    +:+ "' for order " +:+ str_order order.
Definition msg_nyi_terms : string := "NYI: Add terms by *not* term_index".

(** ["term" + str(order)]. *)
Definition term_table (order : py_order) : string := "term" +:+ str_order order.

Definition add_terms (order : py_order) (df : DataFrame) : M () :=
  order ← lift (sanitize_term_order_name order);
  dl ← get;
  raise_if (negb (order_in order (_functional_forms dl)))
    (KeyError (msg_add_terms_order order));;
  req_cols ← lift (get_term_metadata_index_columns order);
  let not_found : gset string :=
    list_to_set req_cols ∖ list_to_set (df_columns df) in
  raise_if (negb (bool_decide (elements not_found = [])))
    (KeyError (msg_missing_columns (elements not_found) order));;
  df ← (if bool_decide ("term_index" ∈ df_columns df)
        then lift (df_getitem df (req_cols ++ ["term_index"]))
        else raise (Exception_ msg_nyi_terms));
  add_table (term_table order) df.

Definition read_terms (order : py_order) : M DataFrame :=
  order ← lift (sanitize_term_order_name order);
  dl ← get;
  raise_if (negb (order_in order (_functional_forms dl)))
    (KeyError (msg_add_terms_order order));;
  read_table (term_table order).

Definition add_bonds (bonds : DataFrame) : M bool :=
  add_terms (OStr "bonds") bonds;; ret true.

Definition get_bonds : M DataFrame := read_terms (OStr "bonds").

Definition add_angles (angles : DataFrame) : M () := add_terms (OStr "angles") angles.

Definition get_angles : M DataFrame := read_terms (OStr "angles").

Definition add_dihedrals (dihedrals : DataFrame) : M () :=
  add_terms (OStr "dihedrals") dihedrals.

Definition get_dihedrals : M DataFrame := read_terms (OStr "dihedrals").

(** ** Other quantities and the table listings *)

(** [self.store.list_tables()]. *)
Context (store_list_tables : Store → Result (list string) * Store).

Definition list_store_tables : M (list string) :=
  λ dl, let '(r, s) := store_list_tables (store dl) in (r, set_store s dl).

Definition add_other (key : string) (df : DataFrame) : M bool :=
  let key := "other_" +:+ key in
  add_table key df;; ret true.

Fixpoint get_other_loop (keys : list string) (tmp_data : list DataFrame)
    : M (list DataFrame) :=
  match keys with
  | [] => ret tmp_data
  | k :: keys' =>
      let k := "other_" +:+ k in
      tmp ← read_table k;
      get_other_loop keys' (tmp_data ++ [tmp])
  end.

Definition get_other (key : properties_arg) : M DataFrame :=
  let key := match key with
             | PropList l => l
             | PropOne s => [s]
             end in
  tmp_data ← get_other_loop key [];
  lift (pd_concat tmp_data).

Definition list_tables : M (list string) :=
  tables ← list_store_tables;
  ret (filter (λ x, py_contains "other" x = false) tables).

Definition list_other_tables : M (list string) :=
  tables ← list_store_tables;
  ret (py_remove_all "other_" <$> filter (λ x, py_contains "other" x = true) tables).

(** * Properties *)

(** ** Running a method *)

Lemma bind_Ok {A B} (m : M A) (f : A → M B) dl a dl' :
  m dl = (Ok a, dl') → bind m f dl = f a dl'.
Proof. unfold bind. by intros ->. Qed.

Lemma bind_Raise {A B} (m : M A) (f : A → M B) dl e dl' :
  m dl = (Raise e, dl') → bind m f dl = (Raise e, dl').
Proof. unfold bind. by intros ->. Qed.

Lemma bind_lift_Ok {A B} (r : Result A) (f : A → M B) dl a :
  r = Ok a → bind (lift r) f dl = f a dl.
Proof. by intros ->. Qed.

Lemma bind_subscript_Some {A B} (o : option A) key (f : A → M B) dl a :
  o = Some a → bind (subscript o key) f dl = f a dl.
Proof. by intros ->. Qed.

Lemma bind_raise_if_false {B} (c : bool) e (f : () → M B) dl :
  c = false → bind (raise_if c e) f dl = f () dl.
Proof. by intros ->. Qed.

Lemma bind_raise_if_true {B} (c : bool) e (f : () → M B) dl :
  c = true → bind (raise_if c e) f dl = (Raise e, dl).
Proof. by intros ->. Qed.

Lemma bind_get {B} (f : DataLayer → M B) dl : bind get f dl = f dl dl.
Proof. done. Qed.

(** ** The smallest unused uid *)

(** [new_key] returns, and what it returns is the least natural number
    that is not a key. *)
Lemma new_key_spec (terms : PyDict.t Z term_entry) :
  ∃ k, new_key terms = Ok k ∧ (0 ≤ k) ∧ (k ∉ PyDict.keys terms)
       ∧ (∀ j, 0 ≤ j < k → j ∈ PyDict.keys terms).
Proof.
  unfold new_key. case_bool_decide as Hlen.
  - exists 0. destruct terms; [|done].
    split; [done|]. split; [lia|]. split; [apply not_elem_of_nil | lia].
  - set (n := Z.of_nat (length terms)).
    set (P := list_to_set (py_range (n + 1)) : gset Z).
    set (U := list_to_set (PyDict.keys terms) : gset Z).
    assert (HP : ∀ j, j ∈ P ↔ 0 ≤ j < n + 1).
    { intros j. unfold P, py_range. rewrite elem_of_list_to_set, elem_of_seqZ. lia. }
    assert (Hne : elements (P ∖ U) ≠ []).
    { intros Hnil. apply elements_empty_inv in Hnil.
      assert (Hsub : P ⊆ U).
      { intros x Hx. destruct (decide (x ∈ U)) as [|Hx']; [done|]. exfalso.
        apply (not_elem_of_empty (C:=gset Z) x). rewrite <- Hnil.
        by apply elem_of_difference. }
      apply subseteq_size in Hsub.
      assert (size P = Z.to_nat (n + 1)) as HsP.
      { unfold P, py_range. rewrite size_list_to_set by apply NoDup_seqZ.
        by rewrite length_seqZ. }
      pose proof (size_list_to_set_le (PyDict.keys terms)) as HsU.
      unfold PyDict.keys in HsU. rewrite length_fmap in HsU.
      fold (PyDict.keys terms) in HsU. fold U in HsU. lia. }
    destruct (py_min_spec _ Hne) as (m & -> & Hm & Hmin).
    exists m. split; [done|].
    apply elem_of_elements, elem_of_difference in Hm as [HmP HmU].
    apply HP in HmP. unfold U in HmU. rewrite elem_of_list_to_set in HmU.
    split; [lia|]. split; [done|].
    intros j Hj. destruct (decide (j ∈ PyDict.keys terms)) as [|Hnin]; [done|].
    assert (j ∈ elements (P ∖ U)) as Hin.
    { apply elem_of_elements, elem_of_difference. split.
      - apply HP. lia.
      - unfold U. by rewrite elem_of_list_to_set. }
    apply Hmin in Hin. lia.
Qed.

(** ** [add_parameters]: what a call does once it is accepted *)

Lemma order_in_Some {A} (o : Z) (d : gmap Z A) a :
  d !! o = Some a → negb (order_in (OInt o) d) = false.
Proof.
  intros Hd. unfold order_in. simpl. rewrite Hd.
  by rewrite bool_decide_eq_true_2.
Qed.

Lemma registered_Some (forms : gmap string Form) name mdata :
  forms !! name = Some mdata →
  negb (bool_decide (is_Some (forms !! name))) = false.
Proof. intros ->. by rewrite bool_decide_eq_true_2. Qed.

Lemma find_key_None term_name params (terms : PyDict.t Z term_entry) :
  find_key term_name params terms = Ok None
  ↔ Forall (λ kv, entry_matches term_name params kv.2 = Ok false) terms.
Proof.
  induction terms as [|[k v] terms IH]; simpl.
  - split; [constructor | done].
  - destruct (entry_matches term_name params v) as [[|]|e] eqn:E.
    + split; [done | intros HF; inversion HF; simpl in *; congruence].
    + rewrite IH. split; [by constructor | by inversion 1].
    + split; [done | intros HF; inversion HF; simpl in *; congruence].
Qed.

(** The search returns the first entry that matches: the tests of the
    entries before it returned false, and the entries after it were not
    tested. *)
Lemma find_key_Some term_name params (terms : PyDict.t Z term_entry) k :
  find_key term_name params terms = Ok (Some k)
  ↔ ∃ before v after,
      terms = before ++ (k, v) :: after
      ∧ entry_matches term_name params v = Ok true
      ∧ Forall (λ kv, entry_matches term_name params kv.2 = Ok false) before.
Proof.
  split.
  - induction terms as [|[k' v] terms IH]; simpl; [done|].
    destruct (entry_matches term_name params v) as [[|]|e] eqn:E; [| |done].
    + intros [= ->]. by exists [], v, terms.
    + intros Hk. destruct (IH Hk) as (before & v' & after & -> & Hm & Hb).
      exists ((k', v) :: before), v', after. repeat split; try done.
      by constructor.
  - intros (before & v & after & -> & Hv & Hb).
    induction Hb as [|[k' v'] before Hv' _ IH]; simpl.
    + by rewrite Hv.
    + simpl in Hv'. by rewrite Hv'.
Qed.

Lemma find_key_app_fresh term_name params (terms : PyDict.t Z term_entry) k v :
  find_key term_name params terms = Ok None →
  entry_matches term_name params v = Ok true →
  find_key term_name params (terms ++ [(k, v)]) = Ok (Some k).
Proof.
  intros Hnone%find_key_None Hv. apply find_key_Some.
  by exists terms, v, [].
Qed.

(** An exception of the search is the exception of the first test that
    raises, the tests before it having returned false. *)
Lemma find_key_Raise term_name params (terms : PyDict.t Z term_entry) e :
  find_key term_name params terms = Raise e
  ↔ ∃ before kv after,
      terms = before ++ kv :: after
      ∧ entry_matches term_name params kv.2 = Raise e
      ∧ Forall (λ kv, entry_matches term_name params kv.2 = Ok false) before.
Proof.
  split.
  - induction terms as [|[k' v] terms IH]; simpl; [done|].
    destruct (entry_matches term_name params v) as [[|]|e'] eqn:E; [done| |].
    + intros Hk. destruct (IH Hk) as (before & kv & after & -> & Hm & Hb).
      exists ((k', v) :: before), kv, after. repeat split; try done.
      by constructor.
    + intros [= ->]. by exists [], (k', v), terms.
  - intros (before & kv & after & -> & Hv & Hb).
    induction Hb as [|[k' v'] before Hv' _ IH]; simpl.
    + destruct kv as [k v]. simpl in Hv. by rewrite Hv.
    + simpl in Hv'. by rewrite Hv'.
Qed.

(** The hypotheses under which a call is accepted: the order is one of the
    registry, the form is registered for it, no unit override is given,
    the parameters validate, and the order has a term table. *)
Section Accepted.
Variables (order : py_order) (o : Z) (term_name : string)
          (term_parameters : term_params) (utype : option (list PyObj))
          (dl : DataLayer) (forms : gmap string Form) (mdata : Form)
          (params : list V) (terms : PyDict.t Z term_entry).
Hypotheses
  (Horder : sanitize_term_order_name order = Ok (OInt o))
  (Hforms : _functional_forms dl !! o = Some forms)
  (Hname : forms !! term_name = Some mdata)
  (Hutype : truthy utype = false)
  (Hvalid : validate_term_dict term_name mdata term_parameters = Ok params)
  (Hterms : _terms dl !! o = Some terms).

Definition with_term (key : Z) : DataLayer :=
  set_terms (<[o := terms ++ [(key, (term_name, params))]]> (_terms dl)) dl.

Lemma add_parameters_accepted (uid : option py_uid) :
  add_parameters order term_name term_parameters uid utype dl =
  match find_key term_name params terms with
  | Raise e => (Raise e, dl)
  | Ok found_key =>
      match uid with
      | None =>
          match found_key with
          | Some k => (Ok k, dl)
          | None =>
              match new_key terms with
              | Ok k => (Ok k, set_terms (<[o := PyDict.set k (term_name, params) terms]> (_terms dl)) dl)
              | Raise e => (Raise e, dl)
              end
          end
      | Some (UidOther type_name) => (Raise (TypeError (msg_uid_type type_name)), dl)
      | Some (UidInt uid) =>
          match PyDict.get uid terms with
          | Some old_param =>
              match entry_matches term_name params old_param with
              | Ok true => (Ok uid, dl)
              | Ok false => (Raise (KeyError msg_uid_conflict), dl)
              | Raise e => (Raise e, dl)
              end
          | None => (Ok uid, set_terms (<[o := PyDict.set uid (term_name, params) terms]> (_terms dl)) dl)
          end
      end
  end.
Proof.
  unfold add_parameters.
  rewrite (bind_lift_Ok _ _ _ _ Horder), bind_get.
  rewrite bind_raise_if_false by (by eapply order_in_Some).
  rewrite (bind_subscript_Some _ _ _ _ _ Hforms).
  rewrite bind_raise_if_false by (by eapply registered_Some).
  rewrite (bind_raise_if_false _ _ _ _ Hutype).
  rewrite (bind_subscript_Some _ _ _ _ _ Hname).
  rewrite (bind_lift_Ok _ _ _ _ Hvalid).
  rewrite (bind_subscript_Some _ _ _ _ _ Hterms).
  destruct (find_key term_name params terms) as [found_key|e] eqn:Hfound; [|done].
  rewrite (bind_lift_Ok _ _ _ _ eq_refl).
  destruct uid as [[uid'|type_name]|].
  - destruct (PyDict.get uid' terms) as [old|]; [|done].
    unfold bind, lift. by destruct (entry_matches term_name params old) as [[|]|].
  - done.
  - destruct found_key; [done|].
    unfold bind, lift. by destruct (new_key terms).
Qed.

End Accepted.

Lemma new_key_fresh_set term_name params (terms : PyDict.t Z term_entry) :
  ∃ k, new_key terms = Ok k
       ∧ PyDict.set k (term_name, params) terms = terms ++ [(k, (term_name, params))]
       ∧ (0 ≤ k) ∧ (k ∉ PyDict.keys terms)
       ∧ (∀ j, 0 ≤ j < k → j ∈ PyDict.keys terms).
Proof.
  destruct (new_key_spec terms) as (k & Hk & H0 & Hfresh & Hleast).
  exists k. repeat split; try done. by apply PyDict.set_fresh.
Qed.

(** C2. A call of [add_parameters] without a uid that is accepted, and
    whose parameters match no entry of the order (same form name and
    parameters close to the stored ones), stores the new entry last under
    the least natural number that is not yet a uid of the order, and
    returns that number. *)
Theorem add_parameters_auto_uid_smallest_unused
    order o term_name term_parameters utype dl forms mdata params terms :
  sanitize_term_order_name order = Ok (OInt o) →
  _functional_forms dl !! o = Some forms →
  forms !! term_name = Some mdata →
  truthy utype = false →
  validate_term_dict term_name mdata term_parameters = Ok params →
  _terms dl !! o = Some terms →
  Forall (λ kv, entry_matches term_name params kv.2 = Ok false) terms →
  ∃ uid,
    add_parameters order term_name term_parameters None utype dl
      = (Ok uid, with_term o term_name dl params terms uid)
    ∧ (0 ≤ uid) ∧ (uid ∉ PyDict.keys terms)
    ∧ (∀ j, 0 ≤ j < uid → j ∈ PyDict.keys terms).
Proof.
  intros Horder Hforms Hname Hutype Hvalid Hterms Hnew.
  rewrite (add_parameters_accepted _ _ _ _ _ _ _ _ _ _
             Horder Hforms Hname Hutype Hvalid Hterms).
  apply find_key_None in Hnew. rewrite Hnew.
  destruct (new_key_fresh_set term_name params terms)
    as (k & -> & -> & H0 & Hfresh & Hleast).
  by exists k.
Qed.

(** Whatever the uid is, an exception of the search loop, which runs
    before the uid is looked at, is the exception of the call, and nothing
    is stored. *)
Lemma add_parameters_search_raises
    order o term_name term_parameters uid utype dl forms mdata params terms e :
  sanitize_term_order_name order = Ok (OInt o) →
  _functional_forms dl !! o = Some forms →
  forms !! term_name = Some mdata →
  truthy utype = false →
  validate_term_dict term_name mdata term_parameters = Ok params →
  _terms dl !! o = Some terms →
  find_key term_name params terms = Raise e →
  add_parameters order term_name term_parameters uid utype dl = (Raise e, dl).
Proof.
  intros Horder Hforms Hname Hutype Hvalid Hterms Hsearch.
  rewrite (add_parameters_accepted _ _ _ _ _ _ _ _ _ _
             Horder Hforms Hname Hutype Hvalid Hterms).
  by rewrite Hsearch.
Qed.

(** C3. An accepted call of [add_parameters] with an integer uid, whose
    search loop over the stored entries (it runs before the uid is looked
    at) ends without an exception, whatever it found:
    when the uid is not in use the entry is stored under it, whatever the
    other entries are; when it is in use and the stored form name or
    parameters differ, the call raises the uid-conflict [KeyError] and
    changes nothing; when they agree, the call returns the uid and changes
    nothing. *)
Theorem add_parameters_explicit_uid
    order o term_name term_parameters utype dl forms mdata params terms found
    (uid : Z) :
  sanitize_term_order_name order = Ok (OInt o) →
  _functional_forms dl !! o = Some forms →
  forms !! term_name = Some mdata →
  truthy utype = false →
  validate_term_dict term_name mdata term_parameters = Ok params →
  _terms dl !! o = Some terms →
  find_key term_name params terms = Ok found →
  let call := add_parameters order term_name term_parameters
                (Some (UidInt uid)) utype dl in
  (uid ∉ PyDict.keys terms →
     call = (Ok uid, with_term o term_name dl params terms uid))
  ∧ (∀ old, PyDict.get uid terms = Some old →
       old.1 ≠ term_name ∨ allclose old.2 params = Ok false →
       call = (Raise (KeyError msg_uid_conflict), dl))
  ∧ (∀ old, PyDict.get uid terms = Some old →
       old.1 = term_name ∧ allclose old.2 params = Ok true →
       call = (Ok uid, dl)).
Proof.
  intros Horder Hforms Hname Hutype Hvalid Hterms Hsearch call. subst call.
  rewrite (add_parameters_accepted _ _ _ _ _ _ _ _ _ _
             Horder Hforms Hname Hutype Hvalid Hterms), Hsearch.
  split; [|split].
  - intros Hfree. pose proof Hfree as Hget. apply PyDict.get_None in Hget.
    rewrite Hget. unfold with_term. by rewrite PyDict.set_fresh.
  - intros old -> Hdiff.
    assert (entry_matches term_name params old = Ok false) as ->; [|done].
    unfold entry_matches. destruct Hdiff as [Hne| ->].
    + by rewrite bool_decide_eq_false_2.
    + by case_bool_decide.
  - intros old -> [Heq Hclose].
    assert (entry_matches term_name params old = Ok true) as ->; [|done].
    unfold entry_matches. by rewrite bool_decide_eq_true_2, Hclose.
Qed.

(** C6. When the order is known and the form is registered for it, a call
    of [add_parameters] with a non-empty unit override raises the
    "Units are not yet supported" [TypeError], whatever the parameters and
    the uid are, and leaves the object as it was. *)
Theorem add_parameters_units_not_supported
    order o term_name term_parameters uid utype dl forms mdata :
  sanitize_term_order_name order = Ok (OInt o) →
  _functional_forms dl !! o = Some forms →
  forms !! term_name = Some mdata →
  truthy utype = true →
  add_parameters order term_name term_parameters uid utype dl
    = (Raise (TypeError msg_units_nyi), dl).
Proof.
  intros Horder Hforms Hname Hutype. unfold add_parameters.
  rewrite (bind_lift_Ok _ _ _ _ Horder), bind_get.
  rewrite bind_raise_if_false by (by eapply order_in_Some).
  rewrite (bind_subscript_Some _ _ _ _ _ Hforms).
  rewrite bind_raise_if_false by (by eapply registered_Some).
  by rewrite (bind_raise_if_true _ _ _ _ Hutype).
Qed.

Lemma find_key_Some_Exists term_name params (terms : PyDict.t Z term_entry) found :
  find_key term_name params terms = Ok found →
  is_Some found
  ↔ Exists (λ kv, entry_matches term_name params kv.2 = Ok true) terms.
Proof.
  intros Hfound. destruct found as [k|].
  - split; [intros _ | by eauto].
    apply find_key_Some in Hfound as (before & v & after & -> & Hv & _).
    apply Exists_app. right. by left.
  - split; [by intros [? ?]|]. intros HE. apply find_key_None in Hfound.
    apply Exists_exists in HE as (kv & Hin & Hm).
    rewrite Forall_forall in Hfound. specialize (Hfound kv Hin). congruence.
Qed.

(** C1, as the code has it. Two accepted calls of [add_parameters] in a
    row, without a uid and with the same parameters, which are close to
    themselves, the search loop of the first call ending without an
    exception: both return the same uid and the second changes nothing.
    If no entry of the order matched the parameters before the first call,
    the order has exactly one entry more afterwards; if one did, it has as
    many entries as before. *)
Theorem add_parameters_twice
    order o term_name term_parameters utype dl forms mdata params terms found :
  sanitize_term_order_name order = Ok (OInt o) →
  _functional_forms dl !! o = Some forms →
  forms !! term_name = Some mdata →
  truthy utype = false →
  validate_term_dict term_name mdata term_parameters = Ok params →
  _terms dl !! o = Some terms →
  allclose params params = Ok true →
  find_key term_name params terms = Ok found →
  ∃ uid dl1 terms1,
    add_parameters order term_name term_parameters None utype dl = (Ok uid, dl1)
    ∧ add_parameters order term_name term_parameters None utype dl1 = (Ok uid, dl1)
    ∧ _terms dl1 !! o = Some terms1
    ∧ (Forall (λ kv, entry_matches term_name params kv.2 = Ok false) terms →
         length terms1 = S (length terms))
    ∧ (Exists (λ kv, entry_matches term_name params kv.2 = Ok true) terms →
         length terms1 = length terms).
Proof.
  intros Horder Hforms Hname Hutype Hvalid Hterms Hrefl Hfound.
  rewrite (add_parameters_accepted _ _ _ _ _ _ _ _ _ _
             Horder Hforms Hname Hutype Hvalid Hterms), Hfound.
  destruct found as [k|].
  - (* an entry matched: nothing is stored *)
    exists k, dl, terms.
    rewrite (add_parameters_accepted _ _ _ _ _ _ _ _ _ _
               Horder Hforms Hname Hutype Hvalid Hterms), Hfound.
    repeat split; try done.
    intros Hnone. apply find_key_None in Hnone. congruence.
  - (* a new entry goes last, and the second call finds it *)
    destruct (new_key_fresh_set term_name params terms)
      as (k & -> & -> & _ & Hfresh & _).
    set (terms1 := terms ++ [(k, (term_name, params))]).
    set (dl1 := set_terms (<[o := terms1]> (_terms dl)) dl).
    assert (_terms dl1 !! o = Some terms1) as Hterms1
      by apply lookup_insert_eq.
    exists k, dl1, terms1.
    rewrite (add_parameters_accepted order o term_name term_parameters utype
               dl1 forms mdata params terms1
               Horder Hforms Hname Hutype Hvalid Hterms1).
    assert (find_key term_name params terms1 = Ok (Some k)) as ->.
    { apply find_key_app_fresh; [done|]. unfold entry_matches; simpl.
      by rewrite bool_decide_eq_true_2. }
    repeat split; try done.
    + intros _. unfold terms1. rewrite length_app. simpl. lia.
    + intros HE. apply (find_key_Some_Exists _ _ _ _ Hfound) in HE as [? ?]. congruence.
Qed.

(** ** [register_functional_forms]: registering a name again *)

(** C9, as the code has it. For a known order: registering an explicit
    form under a name that is already registered raises the
    "already been registered" [KeyError] and changes nothing; registering
    through the built-in path (no form, a unit map) makes no such check:
    whenever the catalog has the form and the validator accepts it, the
    call succeeds and the name is bound to the catalog's form with the
    given units, whether or not the name was registered before; and
    whenever the catalog has no form of that order and name (its lookup
    raises [KeyError]), the call raises the "Could not find built in
    form" [KeyError] and changes nothing, also for a registered name. *)
Theorem register_functional_forms_again order o name dl forms :
  sanitize_term_order_name order = Ok (OInt o) →
  _functional_forms dl !! o = Some forms →
  (∀ form utype,
     is_Some (forms !! name) →
     register_functional_forms order name (Some form) utype dl
       = (Raise (KeyError (msg_already_registered name)), dl))
  ∧ (∀ utype builtin,
       get_term_metadata_forms (OInt o) name = Ok builtin →
       validate_functional_form_dict name (<["units" := utype]> builtin) = Ok true →
       register_functional_forms order name None (Some utype) dl
         = (Ok (),
            set_functional_forms
              (<[o := <[name := <["units" := utype]> builtin]> forms]>
                 (_functional_forms dl)) dl))
  ∧ (∀ utype msg,
       get_term_metadata_forms (OInt o) name = Raise (KeyError msg) →
       register_functional_forms order name None (Some utype) dl
         = (Raise (KeyError (msg_no_builtin order name)), dl)).
Proof.
  intros Horder Hforms. split; [|split].
  - intros form utype Hreg. unfold register_functional_forms.
    rewrite (bind_lift_Ok _ _ _ _ Horder), bind_get.
    rewrite bind_raise_if_false by (by eapply order_in_Some).
    erewrite bind_Raise; [done|].
    rewrite (bind_subscript_Some _ _ _ _ _ Hforms).
    apply bind_raise_if_true. by rewrite bool_decide_eq_true_2.
  - intros utype builtin Hcat Hval. unfold register_functional_forms.
    rewrite (bind_lift_Ok _ _ _ _ Horder), bind_get.
    rewrite bind_raise_if_false by (by eapply order_in_Some).
    erewrite bind_Ok.
    2:{ erewrite bind_lift_Ok; [done|]. unfold builtin_form. by rewrite Hcat. }
    erewrite bind_Ok.
    2:{ unfold py_assert. by rewrite (bind_lift_Ok _ _ _ _ Hval). }
    by rewrite (bind_subscript_Some _ _ _ _ _ Hforms).
  - intros utype msg Hcat. unfold register_functional_forms.
    rewrite (bind_lift_Ok _ _ _ _ Horder), bind_get.
    rewrite bind_raise_if_false by (by eapply order_in_Some).
    erewrite bind_Raise; [done|].
    unfold bind, lift, builtin_form. by rewrite Hcat.
Qed.

(** ** The index of unique values *)

(** The dictionaries the data layer can hold for a property: the one
    [_check_atoms_dict] creates, and any it becomes by passes of the loop
    of [_find_unqiue_atom_values]. *)
Inductive indexed : param_dict → Prop :=
  | indexed_new : indexed new_param_dict
  | indexed_update gb_idx pd :
      indexed pd → indexed (update_param_dict gb_idx pd).

(** Both directions of the bidirectional dictionary agree, and the ids in
    use are exactly [0 .. counter]. *)
Record index_inv (pd : param_dict) : Prop := mk_index_inv {
  inv_of_uvals : ∀ v i, uvals pd !! v = Some i → inv_uvals pd !! i = Some v;
  uvals_of_inv : ∀ i v, inv_uvals pd !! i = Some v → uvals pd !! v = Some i;
  ids_bounded : ∀ i v, inv_uvals pd !! i = Some v → 0 ≤ i ≤ counter pd;
  ids_dense : ∀ i, 0 ≤ i ≤ counter pd → is_Some (inv_uvals pd !! i);
  counter_lower : -1 ≤ counter pd
}.

Lemma update_param_dict_known gb_idx pd i :
  uvals pd !! gb_idx = Some i → update_param_dict gb_idx pd = pd.
Proof.
  intros Hi. unfold update_param_dict.
  by rewrite bool_decide_eq_true_2 by (by rewrite Hi).
Qed.

Lemma update_param_dict_fresh gb_idx pd :
  uvals pd !! gb_idx = None →
  update_param_dict gb_idx pd =
    mk_param_dict (counter pd + 1)
      (<[gb_idx := counter pd + 1]> (uvals pd))
      (<[counter pd + 1 := gb_idx]> (inv_uvals pd)).
Proof.
  intros Hn. unfold update_param_dict.
  rewrite bool_decide_eq_false_2; [done|]. rewrite Hn. by intros [? ?].
Qed.

Lemma index_inv_new : index_inv new_param_dict.
Proof.
  split; simpl; intros; first [lia | by simplify_map_eq].
Qed.

Lemma index_inv_update gb_idx pd :
  index_inv pd → index_inv (update_param_dict gb_idx pd).
Proof.
  intros [Hiu Hui Hb Hd Hc].
  destruct (uvals pd !! gb_idx) as [i|] eqn:E.
  - rewrite (update_param_dict_known _ _ _ E). by split.
  - rewrite (update_param_dict_fresh _ _ E). split; simpl.
    + intros v i. rewrite lookup_insert. case_decide as Hv.
      * intros [= <-]. subst v. by rewrite lookup_insert_eq.
      * intros Hi. rewrite lookup_insert_ne; [by apply Hiu|].
        intros <-. apply Hiu, Hb in Hi. lia.
    + intros i v. rewrite lookup_insert. case_decide as Hi.
      * intros [= <-]. subst i. by rewrite lookup_insert_eq.
      * intros Hv. rewrite lookup_insert_ne; [by apply Hui|].
        intros <-. apply Hui in Hv. congruence.
    + intros i v. rewrite lookup_insert. case_decide as Hi.
      * intros _. subst i. lia.
      * intros Hv. apply Hb in Hv. lia.
    + intros i Hi. rewrite lookup_insert. case_decide; [by eauto|].
      apply Hd. lia.
    + lia.
Qed.

Lemma indexed_inv pd : indexed pd → index_inv pd.
Proof.
  induction 1; [apply index_inv_new | by apply index_inv_update].
Qed.

(** Every dictionary of the object is one the loop can have built. *)
Definition dl_indexed (dl : DataLayer) : Prop :=
  ∀ property_name pd,
    _atom_metadata dl !! property_name = Some pd → indexed pd.

Lemma init_indexed s : dl_indexed (init s).
Proof. intros p pd. unfold init; simpl. by rewrite lookup_empty. Qed.

(** A method keeps [P] when every run from a state in [P] ends in [P],
    whether it returns or raises. *)
Definition keeps {A} (P : DataLayer → Prop) (m : M A) : Prop :=
  ∀ dl r dl', P dl → m dl = (r, dl') → P dl'.

Lemma keeps_ret {A} P (a : A) : keeps P (ret a).
Proof. intros dl r dl' HP [= _ <-]. done. Qed.

Lemma keeps_raise {A} P e : keeps P (raise (A:=A) e).
Proof. intros dl r dl' HP [= _ <-]. done. Qed.

Lemma keeps_lift {A} P (x : Result A) : keeps P (lift x).
Proof. intros dl r dl' HP [= _ <-]. done. Qed.

Lemma keeps_get P : keeps P get.
Proof. intros dl r dl' HP [= _ <-]. done. Qed.

Lemma keeps_raise_if P c e : keeps P (raise_if c e).
Proof. destruct c; [apply keeps_raise | apply keeps_ret]. Qed.

Lemma keeps_subscript {A} P (o : option A) key : keeps P (subscript o key).
Proof. destruct o; [apply keeps_ret | apply keeps_raise]. Qed.

Lemma keeps_modify P f : (∀ dl, P dl → P (f dl)) → keeps P (modify f).
Proof. intros Hf dl r dl' HP [= _ <-]. auto. Qed.

Lemma keeps_bind {A B} P (m : M A) (f : A → M B) :
  keeps P m → (∀ a, keeps P (f a)) → keeps P (bind m f).
Proof.
  intros Hm Hf dl r dl' HP. unfold bind.
  destruct (m dl) as [[a|e] dl1] eqn:E.
  - intros Hrun. eapply Hf; [|exact Hrun]. eapply Hm; eauto.
  - intros [= _ <-]. eapply Hm; eauto.
Qed.

Create HintDb keeps.
#[local] Hint Resolve keeps_ret keeps_raise keeps_lift keeps_get
  keeps_raise_if keeps_subscript : keeps.

Lemma keeps_get_param_dict P p : keeps P (get_param_dict p).
Proof.
  unfold get_param_dict. apply keeps_bind; [apply keeps_get|].
  intros dl. apply keeps_subscript.
Qed.

Lemma dl_indexed_put p pd dl :
  indexed pd → dl_indexed dl →
  dl_indexed (set_atom_metadata (<[p := pd]> (_atom_metadata dl)) dl).
Proof.
  intros Hpd Hdl q pd'. simpl. rewrite lookup_insert. case_decide.
  - by intros [= <-].
  - apply Hdl.
Qed.

Lemma find_unique_loop_keeps_indexed p groups ret_df :
  keeps dl_indexed (find_unique_loop p groups ret_df).
Proof.
  revert ret_df. induction groups as [|[gb_idx udf] groups IH]; intros ret_df; simpl.
  - apply keeps_ret.
  - intros dl r dl' Hdl. unfold bind at 1. unfold get_param_dict at 1.
    rewrite bind_get.
    destruct (_atom_metadata dl !! p) as [pd|] eqn:Hpd; simpl.
    2:{ intros [= _ <-]. done. }
    unfold bind at 1. unfold put_param_dict, modify.
    set (dl1 := set_atom_metadata _ dl).
    assert (dl_indexed dl1) as Hdl1.
    { apply dl_indexed_put; [|done]. constructor. by eapply Hdl. }
    revert Hdl1. generalize dl1. clear dl1. intros dl1 Hdl1.
    apply keeps_bind; [apply keeps_subscript| |done].
    intros uidx. apply keeps_bind; [apply keeps_lift | intros; apply IH].
Qed.

(** C4. In a data layer whose dictionaries were built by the indexing
    loop, a value [v] that has an id [i] is what the inverse dictionary
    holds for [i]; and a further pass of the loop over [v] finds the same
    id, writes it to the rows of the group, and leaves the object as it
    was (no new entry, same counter). *)
Theorem unique_index_inverse_and_stable p pd v i udf ret_df dl :
  dl_indexed dl →
  _atom_metadata dl !! p = Some pd →
  uvals pd !! v = Some i →
  inv_uvals pd !! i = Some v
  ∧ find_unique_loop p [(v, udf)] ret_df dl
    = (df_loc_setitem ret_df (df_index udf) p (CInt i), dl).
Proof.
  intros Hdl Hpd Hv. split.
  - apply (inv_of_uvals pd); [|done]. apply indexed_inv. by eapply Hdl.
  - simpl. unfold bind at 1. unfold get_param_dict at 1. rewrite bind_get, Hpd.
    simpl. rewrite (update_param_dict_known _ _ _ Hv).
    unfold bind at 1. unfold put_param_dict, modify.
    rewrite insert_id by done.
    replace (set_atom_metadata (_atom_metadata dl) dl) with dl by (by destruct dl).
    unfold grab_unique. rewrite Hv. simpl. unfold bind, lift, ret.
    by destruct (df_loc_setitem _ _ _ _).
Qed.

(** One update of a dictionary: the counter does not decrease, a value
    keeps its id, and the only value that can get an id is the one
    the update is for, which gets the counter plus one. *)
Lemma update_param_dict_grows gb_idx pd :
  counter pd ≤ counter (update_param_dict gb_idx pd)
  ∧ (∀ w i, uvals pd !! w = Some i → uvals (update_param_dict gb_idx pd) !! w = Some i)
  ∧ (∀ w i, uvals pd !! w = None →
       uvals (update_param_dict gb_idx pd) !! w = Some i → counter pd < i).
Proof.
  destruct (uvals pd !! gb_idx) as [j|] eqn:E.
  - rewrite (update_param_dict_known _ _ _ E).
    split; [lia|]. split; [done | congruence].
  - rewrite (update_param_dict_fresh _ _ E). simpl. split; [lia|]. split.
    + intros w i Hw. rewrite lookup_insert_ne; [done | congruence].
    + intros w i Hw. rewrite lookup_insert. case_decide; [|congruence].
      intros [= <-]. lia.
Qed.

(** A dictionary seen from a later one: the counter has not decreased,
    every value has kept its id, and the values indexed since have ids
    above the old counter. *)
Definition grown (pd pd' : param_dict) : Prop :=
  counter pd ≤ counter pd'
  ∧ (∀ w i, uvals pd !! w = Some i → uvals pd' !! w = Some i)
  ∧ (∀ w i, uvals pd !! w = None → uvals pd' !! w = Some i → counter pd < i).

Lemma grown_refl pd : grown pd pd.
Proof. split; [lia|]. split; [done | congruence]. Qed.

Lemma grown_update gb_idx pd pd' :
  grown (update_param_dict gb_idx pd) pd' → grown pd pd'.
Proof.
  destruct (update_param_dict_grows gb_idx pd) as (Hc & Hkeep & Hnew).
  intros (Hc' & Hkeep' & Hnew'). split; [lia|]. split; [by auto|].
  intros w i Hw Hi.
  destruct (uvals (update_param_dict gb_idx pd) !! w) as [j|] eqn:E.
  - rewrite (Hkeep' _ _ E) in Hi. injection Hi as <-. by eapply Hnew.
  - specialize (Hnew' _ _ E Hi). lia.
Qed.

(** The loop of [_find_unqiue_atom_values], whether it runs to its end or
    an assignment to the result raises on the way: the dictionary of the
    property has grown, and the value of the first group has an id. *)
Lemma find_unique_loop_grows p groups ret_df dl pd r dl' :
  _atom_metadata dl !! p = Some pd →
  find_unique_loop p groups ret_df dl = (r, dl') →
  ∃ pd', _atom_metadata dl' !! p = Some pd' ∧ grown pd pd'
         ∧ match groups with
           | [] => True
           | (v, _) :: _ => uvals pd' !! v = uvals (update_param_dict v pd) !! v
           end.
Proof.
  revert ret_df dl pd.
  induction groups as [|[gb udf] groups IH]; intros ret_df dl pd Hpd; simpl.
  - intros [= _ <-]. exists pd. split; [done|]. split; [apply grown_refl | done].
  - unfold bind at 1. unfold get_param_dict at 1. rewrite bind_get, Hpd. simpl.
    unfold bind at 1. unfold put_param_dict, modify.
    set (pd1 := update_param_dict gb pd).
    set (dl1 := set_atom_metadata (<[p := pd1]> (_atom_metadata dl)) dl).
    assert (_atom_metadata dl1 !! p = Some pd1) as Hpd1 by apply lookup_insert_eq.
    destruct (uvals pd1 !! gb) as [i|] eqn:Hi.
    2:{ unfold grab_unique. rewrite Hi. simpl. intros [= _ <-].
        exists pd1. split; [done|]. split; [|done].
        apply (grown_update gb), grown_refl. }
    unfold grab_unique. rewrite Hi. simpl.
    unfold bind at 1, ret at 1. unfold bind at 1, lift at 1.
    destruct (df_loc_setitem ret_df (df_index udf) p (CInt i)) as [ret1|e].
    + intros Hrun. destruct (IH ret1 dl1 pd1 Hpd1 Hrun) as (pd' & Hpd' & Hg & _).
      exists pd'. split; [done|]. split; [by apply (grown_update gb)|].
      destruct Hg as (_ & Hkeep & _). by apply Hkeep.
    + intros [= _ <-]. exists pd1. split; [done|]. split; [|done].
      apply (grown_update gb), grown_refl.
Qed.

(** C5. A property gets its dictionary once: [_check_atoms_dict] creates
    it, with the counter at -1, when the property has none, and leaves the
    object alone when it has one. The value of the first group of the
    first pass of the loop of [_find_unqiue_atom_values] over a new
    dictionary gets id 0. In a dictionary the loop has built, the ids in
    use are 0 to the counter, the counter being the highest; a pass over a
    value that has no id gives it the counter plus one, which becomes the
    counter, and writes that id to the rows of the group; and over any
    pass, finished or interrupted by an exception, the counter does not
    decrease, every value keeps its id, and the values indexed in the pass
    have ids above the old counter. *)
Theorem unique_index_ids_sequential p fd dl :
  atom_metadata !! p = Some fd →
  dl_indexed dl →
  (_atom_metadata dl !! p = None →
     let dl0 := set_atom_metadata (<[p := new_param_dict]> (_atom_metadata dl)) dl in
     _check_atoms_dict p dl = (Ok true, dl0)
     ∧ ∀ v udf groups ret_df r dl',
         find_unique_loop p ((v, udf) :: groups) ret_df dl0 = (r, dl') →
         ∃ pd', _atom_metadata dl' !! p = Some pd' ∧ uvals pd' !! v = Some 0)
  ∧ (∀ pd, _atom_metadata dl !! p = Some pd →
       _check_atoms_dict p dl = (Ok false, dl)
       ∧ (∀ w i, uvals pd !! w = Some i → 0 ≤ i ≤ counter pd)
       ∧ (0 ≤ counter pd → ∃ w, uvals pd !! w = Some (counter pd))
       ∧ (∀ v udf ret_df, uvals pd !! v = None →
            ∃ pd',
              find_unique_loop p [(v, udf)] ret_df dl
              = (df_loc_setitem ret_df (df_index udf) p (CInt (counter pd + 1)),
                 set_atom_metadata (<[p := pd']> (_atom_metadata dl)) dl)
              ∧ counter pd' = counter pd + 1
              ∧ uvals pd' !! v = Some (counter pd + 1)
              ∧ inv_uvals pd' !! (counter pd + 1) = Some v)
       ∧ (∀ groups ret_df r dl',
            find_unique_loop p groups ret_df dl = (r, dl') →
            ∃ pd', _atom_metadata dl' !! p = Some pd'
                   ∧ counter pd ≤ counter pd'
                   ∧ (∀ w i, uvals pd !! w = Some i → uvals pd' !! w = Some i)
                   ∧ (∀ w i, uvals pd !! w = None → uvals pd' !! w = Some i →
                        counter pd < i))).
Proof.
  intros Hfd Hdl. split.
  - intros Hnone dl0. split.
    + unfold _check_atoms_dict. rewrite bind_get.
      rewrite bool_decide_eq_false_2 by (rewrite Hnone; by intros [? ?]).
      unfold get_field_data. by rewrite (bind_subscript_Some _ _ _ _ _ Hfd).
    + intros v udf groups ret_df r dl' Hrun.
      assert (_atom_metadata dl0 !! p = Some new_param_dict) as Hp
        by apply lookup_insert_eq.
      destruct (find_unique_loop_grows _ _ _ _ _ _ _ Hp Hrun) as (pd' & Hpd' & _ & Hv).
      exists pd'. split; [done|]. rewrite Hv.
      rewrite update_param_dict_fresh by done. simpl. by rewrite lookup_insert_eq.
  - intros pd Hpd.
    pose proof (indexed_inv pd (Hdl p pd Hpd)) as [Hiu Hui Hb Hd Hc].
    split; [|split; [|split; [|split]]].
    + unfold _check_atoms_dict. rewrite bind_get.
      by rewrite bool_decide_eq_true_2 by (by rewrite Hpd).
    + intros w i Hw. eapply Hb. by apply Hiu.
    + intros Hpos. destruct (Hd (counter pd)) as [w Hw]; [lia|].
      exists w. by apply Hui.
    + intros v udf ret_df Hv. exists (update_param_dict v pd).
      rewrite (update_param_dict_fresh _ _ Hv). simpl.
      rewrite !lookup_insert_eq. repeat split; try done.
      unfold bind at 1. unfold get_param_dict at 1. rewrite bind_get, Hpd. simpl.
      rewrite (update_param_dict_fresh _ _ Hv).
      unfold bind at 1. unfold put_param_dict, modify.
      unfold grab_unique. simpl. rewrite lookup_insert_eq. simpl.
      unfold bind, lift, ret. by destruct (df_loc_setitem _ _ _ _).
    + intros groups ret_df r dl' Hrun.
      destruct (find_unique_loop_grows _ _ _ _ _ _ _ Hpd Hrun)
        as (pd' & Hpd' & (Hcount & Hkeep & Hnew) & _).
      by exists pd'.
Qed.

(** ** The entry points keep the index well formed *)

Ltac keeps_step :=
  first
    [ apply keeps_ret | apply keeps_raise | apply keeps_lift | apply keeps_get
    | apply keeps_raise_if | apply keeps_subscript | apply keeps_get_param_dict
    | apply keeps_bind; [|intro]
    | match goal with
      | |- keeps _ (if ?c then _ else _) => destruct c
      | |- keeps _ (match ?x with _ => _ end) => destruct x
      end ].

Lemma keeps_add_table P table_name df :
  (∀ dl s, P dl → P (set_store s dl)) → keeps P (add_table table_name df).
Proof.
  intros HP dl r dl' Hdl. unfold add_table.
  destruct (store_add_table _ _ _) as [r' s]. intros [= _ <-]. by apply HP.
Qed.

Lemma keeps_read_table P table_name :
  (∀ dl s, P dl → P (set_store s dl)) → keeps P (read_table table_name).
Proof.
  intros HP dl r dl' Hdl. unfold read_table.
  destruct (store_read_table _ _) as [r' s]. intros [= _ <-]. by apply HP.
Qed.

Lemma dl_indexed_set_store dl s : dl_indexed dl → dl_indexed (set_store s dl).
Proof. done. Qed.

Lemma _check_atoms_dict_keeps_indexed p : keeps dl_indexed (_check_atoms_dict p).
Proof.
  unfold _check_atoms_dict, get_field_data. repeat keeps_step.
  apply keeps_modify. intros dl' Hdl'. apply dl_indexed_put; [constructor | done].
Qed.

Lemma _find_unqiue_atom_values_keeps_indexed df p :
  keeps dl_indexed (_find_unqiue_atom_values df p).
Proof.
  unfold _find_unqiue_atom_values, get_field_data. repeat keeps_step.
  apply find_unique_loop_keeps_indexed.
Qed.

Lemma _store_atom_table_keeps_indexed table_name df p by_value utype :
  keeps dl_indexed (_store_atom_table table_name df p by_value utype).
Proof.
  unfold _store_atom_table, get_field_data.
  apply keeps_bind; [apply _check_atoms_dict_keeps_indexed | intro].
  apply keeps_bind; [apply keeps_subscript | intro].
  apply keeps_bind; [repeat keeps_step | intro].
  apply keeps_bind.
  - destruct (by_value && negb _).
    + apply _find_unqiue_atom_values_keeps_indexed.
    + repeat keeps_step.
  - intro. apply keeps_add_table. intros. by apply dl_indexed_set_store.
Qed.

Lemma add_atoms_loop_keeps_indexed items atom_df set_cols by_value utype found_one :
  keeps dl_indexed (add_atoms_loop items atom_df set_cols by_value utype found_one).
Proof.
  revert found_one. induction items as [|[k v] items IH]; intros found_one; simpl.
  - apply keeps_ret.
  - destruct (columns_present v set_cols); [|apply IH].
    apply keeps_bind; [apply _store_atom_table_keeps_indexed | intro; apply IH].
Qed.

Lemma add_atoms_keeps_indexed atom_df by_value utype :
  keeps dl_indexed (add_atoms atom_df by_value utype).
Proof.
  unfold add_atoms, normalise_utype.
  apply keeps_bind; [repeat keeps_step | intro].
  apply keeps_bind; [apply keeps_raise_if | intro].
  apply keeps_bind; [repeat keeps_step | intro].
  apply keeps_bind; [apply add_atoms_loop_keeps_indexed | intro].
  repeat keeps_step.
Qed.

(** ** [add_atoms] *)

(** The table [add_atoms] works on once the index column is moved. *)
Definition indexed_frame (df : DataFrame) : DataFrame :=
  if bool_decide (index ∈ df_columns df) then df_set_index df index else df.

Lemma add_atoms_loop_no_match items atom_df set_cols by_value utype found_one dl :
  Forall (λ kv, columns_present kv.2 set_cols = false) items →
  add_atoms_loop items atom_df set_cols by_value utype found_one dl
    = (Ok found_one, dl).
Proof.
  induction items as [|[k v] items IH]; simpl; [done|].
  intros HF. inversion HF as [|? ? Hkv HF']; subst. simpl in Hkv.
  rewrite Hkv. by apply IH.
Qed.

Lemma add_atoms_loop_match items atom_df set_cols by_value utype found_one dl :
  (∀ k v dl1, (k, v) ∈ items → columns_present v set_cols = true →
     ∃ dl2, _store_atom_table k atom_df k by_value (PyDict.get k utype) dl1
            = (Ok (), dl2)) →
  ∃ dl',
    add_atoms_loop items atom_df set_cols by_value utype found_one dl
    = (Ok (found_one
           || existsb (λ kv, columns_present kv.2 set_cols) items), dl').
Proof.
  revert found_one dl. induction items as [|[k v] items IH]; intros found_one dl Hstore.
  - exists dl. simpl. by rewrite orb_false_r.
  - simpl. destruct (columns_present v set_cols) eqn:Hv.
    + destruct (Hstore k v dl) as [dl2 Hrun]; [left | done |].
      rewrite (bind_Ok _ _ _ _ _ Hrun).
      destruct (IH true dl2) as [dl' ->].
      { intros k' v' dl1 Hin. apply Hstore. by right. }
      exists dl'. by rewrite orb_true_r.
    + apply IH. intros k' v' dl1 Hin. apply Hstore. by right.
Qed.

(** ** [get_atoms] *)

Definition requested_names (properties : properties_arg) : list string :=
  lower <$> match properties with
            | PropList l => l
            | PropOne s => [s]
            end.

(** C8. When a requested name, lowercased, is not a key of the catalog,
    [get_atoms] raises one [KeyError] and leaves the object, its store
    included, as it was; the message spells out every requested name,
    lowercased, that is not in the catalog. *)
Theorem get_atoms_reports_all_unknown properties by_value utype dl :
  (∃ x, x ∈ requested_names properties ∧ x ∉ PyDict.keys APC_DICT) →
  ∃ msg,
    get_atoms properties by_value utype dl = (Raise (KeyError msg), dl)
    ∧ ∀ x, x ∈ requested_names properties → x ∉ PyDict.keys APC_DICT →
        ∃ pre post, msg = pre +:+ py_repr x +:+ post.
Proof.
  intros (x0 & Hx0 & Hbad0).
  set (requested := list_to_set (requested_names properties) : gset string).
  set (valid := list_to_set (PyDict.keys APC_DICT) : gset string).
  exists (msg_not_recognized (elements (requested ∖ valid))). split.
  - unfold get_atoms. fold (requested_names properties). fold requested valid.
    rewrite bind_raise_if_true; [done|].
    rewrite bool_decide_eq_false_2; [done|]. intros Hsub.
    apply Hbad0. apply (elem_of_list_to_set (C:=gset string)).
    apply Hsub. by apply elem_of_list_to_set.
  - intros x Hx Hbad.
    destruct (py_str_list_mentions x (elements (requested ∖ valid)))
      as (pre & post & E).
    { apply elem_of_elements, elem_of_difference. split.
      - by apply elem_of_list_to_set.
      - unfold valid. by rewrite elem_of_list_to_set. }
    exists ("DataLayer:add_atoms: Property name(s) '" +:+ pre),
           (post +:+ "' not recognized.").
    unfold msg_not_recognized. by rewrite E, !append_assoc.
Qed.

Lemma requested_names_upper l :
  requested_names (PropList (upper <$> l)) = requested_names (PropList l).
Proof.
  unfold requested_names. rewrite <- list_fmap_compose.
  apply list_fmap_ext. intros _ s _. apply lower_upper.
Qed.

(** C10. [get_atoms] reads the requested names lowercased: a request in
    uppercase is the same call as the request itself, and for a key [p]
    of the catalog that is written in lowercase the request [upper p]
    passes the check of the names and goes on to read the table of [p]. *)
Theorem get_atoms_case_insensitive by_value utype dl :
  (∀ l, get_atoms (PropList (upper <$> l)) by_value utype dl
        = get_atoms (PropList l) by_value utype dl)
  ∧ (∀ p, get_atoms (PropOne (upper p)) by_value utype dl
          = get_atoms (PropOne p) by_value utype dl)
  ∧ (∀ p, p ∈ PyDict.keys APC_DICT → lower p = p →
       get_atoms (PropOne (upper p)) by_value utype dl
       = bind (normalise_utype utype)
           (λ utype, bind (get_atoms_loop [p] by_value utype [])
                       (λ df_data, lift (pd_concat df_data))) dl).
Proof.
  split; [|split].
  - intros l. unfold get_atoms.
    change (lower <$> (upper <$> l)) with (requested_names (PropList (upper <$> l))).
    by rewrite requested_names_upper.
  - intros p. unfold get_atoms. simpl. by rewrite lower_upper.
  - intros p Hp Hlow. unfold get_atoms. simpl. rewrite lower_upper, Hlow.
    rewrite bind_raise_if_false; [done|].
    rewrite bool_decide_eq_true_2; [done|].
    intros x Hx. apply elem_of_list_to_set.
    apply elem_of_union in Hx as [Hx|Hx]; [|by apply not_elem_of_empty in Hx].
    by apply elem_of_singleton in Hx as ->.
Qed.

(** * Further properties of the term store *)

(** Every run of [add_parameters] either leaves the object as it was, or
    returns a uid that was not in use for the order and has appended one
    entry, the validated parameters under that uid, to the table of the
    order. So a call that raises changes nothing, entries are never
    overwritten or removed, and nothing but the table of the order is ever
    touched. *)
Theorem add_parameters_outcome order term_name term_parameters uid utype dl r dl' :
  add_parameters order term_name term_parameters uid utype dl = (r, dl') →
  dl' = dl
  ∨ ∃ o terms k forms mdata params,
      r = Ok k
      ∧ sanitize_term_order_name order = Ok (OInt o)
      ∧ _functional_forms dl !! o = Some forms
      ∧ forms !! term_name = Some mdata
      ∧ validate_term_dict term_name mdata term_parameters = Ok params
      ∧ _terms dl !! o = Some terms
      ∧ (k ∉ PyDict.keys terms)
      ∧ dl' = with_term o term_name dl params terms k.
Proof.
  intros Hrun.
  destruct (sanitize_term_order_name order) as [[o|name]|e] eqn:Horder.
  2,3: unfold add_parameters in Hrun; rewrite Horder in Hrun; simpl in Hrun.
  2:{ unfold bind, lift, get, raise_if, raise in Hrun. simpl in Hrun.
      left. by injection Hrun as _ <-. }
  2:{ unfold bind, lift in Hrun. left. by injection Hrun as _ <-. }
  destruct (_functional_forms dl !! o) as [forms|] eqn:Hforms.
  2:{ unfold add_parameters in Hrun. rewrite (bind_lift_Ok _ _ _ _ Horder), bind_get in Hrun.
      rewrite bind_raise_if_true in Hrun.
      - left. by injection Hrun as _ <-.
      - unfold order_in. simpl. rewrite Hforms.
        rewrite bool_decide_eq_false_2; [done | by intros [? ?]]. }
  destruct (forms !! term_name) as [mdata|] eqn:Hname.
  2:{ unfold add_parameters in Hrun. rewrite (bind_lift_Ok _ _ _ _ Horder), bind_get in Hrun.
      rewrite bind_raise_if_false in Hrun by (by eapply order_in_Some).
      rewrite (bind_subscript_Some _ _ _ _ _ Hforms) in Hrun.
      rewrite bind_raise_if_true in Hrun.
      - left. by injection Hrun as _ <-.
      - rewrite Hname. rewrite bool_decide_eq_false_2; [done | by intros [? ?]]. }
  destruct (truthy utype) eqn:Hutype.
  { unfold add_parameters in Hrun. rewrite (bind_lift_Ok _ _ _ _ Horder), bind_get in Hrun.
    rewrite bind_raise_if_false in Hrun by (by eapply order_in_Some).
    rewrite (bind_subscript_Some _ _ _ _ _ Hforms) in Hrun.
    rewrite bind_raise_if_false in Hrun by (by eapply registered_Some).
    rewrite (bind_raise_if_true _ _ _ _ Hutype) in Hrun.
    left. by injection Hrun as _ <-. }
  destruct (validate_term_dict term_name mdata term_parameters) as [params|e] eqn:Hvalid.
  2:{ unfold add_parameters in Hrun. rewrite (bind_lift_Ok _ _ _ _ Horder), bind_get in Hrun.
      rewrite bind_raise_if_false in Hrun by (by eapply order_in_Some).
      rewrite (bind_subscript_Some _ _ _ _ _ Hforms) in Hrun.
      rewrite bind_raise_if_false in Hrun by (by eapply registered_Some).
      rewrite (bind_raise_if_false _ _ _ _ Hutype) in Hrun.
      rewrite (bind_subscript_Some _ _ _ _ _ Hname) in Hrun.
      unfold bind, lift in Hrun. rewrite Hvalid in Hrun.
      left. by injection Hrun as _ <-. }
  destruct (_terms dl !! o) as [terms|] eqn:Hterms.
  2:{ unfold add_parameters in Hrun. rewrite (bind_lift_Ok _ _ _ _ Horder), bind_get in Hrun.
      rewrite bind_raise_if_false in Hrun by (by eapply order_in_Some).
      rewrite (bind_subscript_Some _ _ _ _ _ Hforms) in Hrun.
      rewrite bind_raise_if_false in Hrun by (by eapply registered_Some).
      rewrite (bind_raise_if_false _ _ _ _ Hutype) in Hrun.
      rewrite (bind_subscript_Some _ _ _ _ _ Hname) in Hrun.
      rewrite (bind_lift_Ok _ _ _ _ Hvalid) in Hrun.
      unfold bind, subscript, raise in Hrun. simpl in Hrun. rewrite Hterms in Hrun.
      left. by injection Hrun as _ <-. }
  rewrite (add_parameters_accepted _ _ _ _ _ _ _ _ _ _
             Horder Hforms Hname Hutype Hvalid Hterms) in Hrun.
  destruct (find_key term_name params terms) as [found_key|e];
    [|left; by injection Hrun as _ <-].
  destruct uid as [[uid|type_name]|].
  - destruct (PyDict.get uid terms) as [old|] eqn:Hget.
    + left. destruct (entry_matches term_name params old) as [[|]|];
        by injection Hrun as _ <-.
    + right. injection Hrun as <- <-.
      apply PyDict.get_None in Hget.
      exists o, terms, uid, forms, mdata, params.
      repeat split; try done. unfold with_term. by rewrite PyDict.set_fresh.
  - left. by injection Hrun as _ <-.
  - destruct found_key as [k|].
    + left. by injection Hrun as _ <-.
    + destruct (new_key_fresh_set term_name params terms)
        as (k & Hk & Hset & _ & Hfresh & _).
      rewrite Hk, Hset in Hrun. right. injection Hrun as <- <-.
      by exists o, terms, k, forms, mdata, params.
Qed.

Lemma init_forms_lookup s o :
  _functional_forms (init s) !! o = if bool_decide (o ∈ orders) then Some ∅ else None.
Proof.
  unfold init; simpl. case_bool_decide as Ho.
  - unfold orders in Ho.
    repeat (apply elem_of_cons in Ho as [->|Ho]; [reflexivity|]).
    by apply elem_of_nil in Ho.
  - assert (∀ x, x ∈ orders → x ≠ o) as Hne by (by intros x Hx ->).
    rewrite !lookup_insert_ne;
      [apply lookup_empty | apply Hne, (bool_decide_unpack _); reflexivity ..].
Qed.

(** On a new data layer no form is registered: [add_parameters] raises
    the "has not been registered" [KeyError] for the orders 2 to 7 and the
    "Did not understand order key" [KeyError], with the order as the
    caller wrote it, for any other integer; the unit override and the uid
    are not looked at, and the object stays new. *)
Theorem add_parameters_on_new_layer s order o term_name term_parameters uid utype :
  sanitize_term_order_name order = Ok (OInt o) →
  add_parameters order term_name term_parameters uid utype (init s)
  = (Raise (KeyError (if bool_decide (o ∈ orders)
                      then msg_not_registered term_name
                      else msg_order_key order)), init s).
Proof.
  intros Horder. unfold add_parameters.
  rewrite (bind_lift_Ok _ _ _ _ Horder), bind_get.
  pose proof (init_forms_lookup s o) as Hlookup. case_bool_decide as Ho.
  - rewrite bind_raise_if_false by (by eapply order_in_Some).
    rewrite (bind_subscript_Some _ _ _ _ _ Hlookup).
    rewrite bind_raise_if_true; [done|].
    rewrite lookup_empty. rewrite bool_decide_eq_false_2; [done | by intros [? ?]].
  - rewrite bind_raise_if_true; [done|].
    unfold order_in, at_order. rewrite Hlookup.
    rewrite bool_decide_eq_false_2; [done | by intros [? ?]].
Qed.

Lemma register_finish name o forms dl f r dl' :
  _functional_forms dl !! o = Some forms →
  bind (py_assert (validate_functional_form_dict name f))
    (λ _, bind (subscript (at_order (OInt o) (_functional_forms dl))
                  (str_order (OInt o)))
            (λ forms0, modify (set_functional_forms
               (<[order_key (OInt o) := <[name := f]> forms0]>
                  (_functional_forms dl))))) dl = (r, dl') →
  ((∃ e, r = Raise e) ∧ dl' = dl)
  ∨ (validate_functional_form_dict name f = Ok true ∧ r = Ok ()
     ∧ dl' = set_functional_forms
               (<[o := <[name := f]> forms]> (_functional_forms dl)) dl).
Proof.
  intros Hforms Hrun. unfold py_assert in Hrun.
  destruct (validate_functional_form_dict name f) as [[|]|e] eqn:Hval.
  - right. split; [done|].
    erewrite bind_Ok in Hrun by (by rewrite (bind_lift_Ok _ _ _ _ eq_refl)).
    rewrite (bind_subscript_Some _ _ _ _ _ Hforms) in Hrun.
    by injection Hrun as <- <-.
  - left. erewrite bind_Raise in Hrun by (by rewrite (bind_lift_Ok _ _ _ _ eq_refl)).
    injection Hrun as <- <-; eauto.
  - left. injection Hrun as <- <-; eauto.
Qed.

Lemma register_functional_forms_cases order name form utype dl r dl' :
  register_functional_forms order name form utype dl = (r, dl') →
  ((∃ e, r = Raise e) ∧ dl' = dl)
  ∨ ∃ o forms f,
      r = Ok ()
      ∧ sanitize_term_order_name order = Ok (OInt o)
      ∧ _functional_forms dl !! o = Some forms
      ∧ validate_functional_form_dict name f = Ok true
      ∧ ((form = Some f ∧ forms !! name = None)
         ∨ (∃ builtin u, form = None ∧ utype = Some u
              ∧ get_term_metadata_forms (OInt o) name = Ok builtin
              ∧ f = <["units" := u]> builtin))
      ∧ dl' = set_functional_forms
                (<[o := <[name := f]> forms]> (_functional_forms dl)) dl.
Proof.
  unfold register_functional_forms. intros Hrun.
  destruct (sanitize_term_order_name order) as [[o|oname]|e] eqn:Horder;
    [| left; injection Hrun as <- <-; eauto ..].
  rewrite bind_lift_Ok with (a := OInt o) in Hrun by done. rewrite bind_get in Hrun.
  destruct (_functional_forms dl !! o) as [forms|] eqn:Hforms.
  2:{ rewrite bind_raise_if_true in Hrun.
      - left. injection Hrun as <- <-; eauto.
      - unfold order_in, at_order. rewrite Hforms.
        rewrite bool_decide_eq_false_2; [done | by intros [? ?]]. }
  rewrite bind_raise_if_false in Hrun by (by eapply order_in_Some).
  destruct form as [f|].
  - destruct (forms !! name) as [old|] eqn:Hname.
    + left. erewrite bind_Raise in Hrun.
      2:{ rewrite (bind_subscript_Some _ _ _ _ _ Hforms).
          apply bind_raise_if_true. rewrite Hname. by rewrite bool_decide_eq_true_2. }
      injection Hrun as <- <-; eauto.
    + erewrite (bind_Ok _ _ _ f dl) in Hrun.
      2:{ rewrite (bind_subscript_Some _ _ _ _ _ Hforms).
          apply bind_raise_if_false. rewrite Hname.
          rewrite bool_decide_eq_false_2; [done | by intros [? ?]]. }
      destruct (register_finish _ _ _ _ _ _ _ Hforms Hrun) as [Hraise|(Hval & -> & ->)];
        [by left|].
      right. exists o, forms, f. repeat split; try done. by left.
  - destruct utype as [u|]; [|left; injection Hrun as <- <-; eauto].
    destruct (get_term_metadata_forms (OInt o) name) as [builtin|e] eqn:Hcat.
    + erewrite (bind_Ok _ _ _ (<["units" := u]> builtin) dl) in Hrun.
      2:{ erewrite bind_lift_Ok; [done|]. unfold builtin_form. by rewrite Hcat. }
      destruct (register_finish _ _ _ _ _ _ _ Hforms Hrun) as [Hraise|(Hval & -> & ->)];
        [by left|].
      right. exists o, forms, (<["units" := u]> builtin).
      repeat split; try done. right. by exists builtin, u.
    + left. unfold bind at 1 2 in Hrun. unfold lift, builtin_form in Hrun.
      rewrite Hcat in Hrun. destruct e; injection Hrun as <- <-; eauto.
Qed.

(** Every run of [register_functional_forms] either leaves the object as
    it was and raises, or returns and has bound the name, for the order, to a form
    the validator accepted: the explicit form, under a name that was not
    registered, or the catalog's form with the given units. *)
Theorem register_functional_forms_outcome order name form utype dl r dl' :
  register_functional_forms order name form utype dl = (r, dl') →
  ((∃ e, r = Raise e) ∧ dl' = dl)
  ∨ ∃ o forms f,
      r = Ok ()
      ∧ sanitize_term_order_name order = Ok (OInt o)
      ∧ _functional_forms dl !! o = Some forms
      ∧ validate_functional_form_dict name f = Ok true
      ∧ ((form = Some f ∧ forms !! name = None)
         ∨ (∃ builtin u, form = None ∧ utype = Some u
              ∧ get_term_metadata_forms (OInt o) name = Ok builtin
              ∧ f = <["units" := u]> builtin))
      ∧ dl' = set_functional_forms
                (<[o := <[name := f]> forms]> (_functional_forms dl)) dl.
Proof. apply register_functional_forms_cases. Qed.

(** A name that [register_functional_forms] registered can be used at
    once: the registry of the order holds the accepted form under the
    name, the term tables are as before, and [add_parameters] with
    parameters that validate against this form returns a uid (it does not
    raise), for the same spelling of the order, provided its search over
    the entries already stored ends without an exception: entries stored
    under an earlier registration of the name can have another number of
    parameters, on which [np.allclose] raises. *)
Theorem register_then_add_parameters order name form utype dl dl' :
  register_functional_forms order name form utype dl = (Ok (), dl') →
  ∃ o forms' f,
    sanitize_term_order_name order = Ok (OInt o)
    ∧ _functional_forms dl' !! o = Some forms'
    ∧ forms' !! name = Some f
    ∧ _terms dl' = _terms dl
    ∧ ∀ term_parameters params terms found,
        validate_term_dict name f term_parameters = Ok params →
        _terms dl !! o = Some terms →
        find_key name params terms = Ok found →
        ∃ uid dl'',
          add_parameters order name term_parameters None None dl' = (Ok uid, dl'').
Proof.
  intros Hrun.
  destruct (register_functional_forms_cases _ _ _ _ _ _ _ Hrun)
    as [[[e He] _]|(o & forms & f & _ & Horder & Hforms & _ & _ & ->)]; [done|].
  exists o, (<[name := f]> forms), f.
  split; [done|]. split; [apply lookup_insert_eq|].
  split; [apply lookup_insert_eq|]. split; [done|].
  intros term_parameters params terms found Hvalid Hterms Hfound.
  erewrite add_parameters_accepted;
    [| exact Horder | apply lookup_insert_eq | apply lookup_insert_eq
     | reflexivity | exact Hvalid | exact Hterms].
  rewrite Hfound. destruct found as [k|]; [by eexists _, _|].
  destruct (new_key_spec terms) as (k & -> & _). by eexists _, _.
Qed.

(** * Further properties of the atom functions *)

(** ** What [add_atoms] may do to the index *)

(** The three ways the atom functions change the object: the backend
    changes the store, [_check_atoms_dict] gives a property without a
    dictionary a new one, and the indexing loop replaces the dictionary of
    a property by its update. A predicate closed under the three is kept
    by [add_atoms]. *)
Section AtomSteps.
Variable P : DataLayer → Prop.
Hypotheses
  (P_store : ∀ dl s, P dl → P (set_store s dl))
  (P_new : ∀ dl p,
     P dl → _atom_metadata dl !! p = None →
     P (set_atom_metadata (<[p := new_param_dict]> (_atom_metadata dl)) dl))
  (P_update : ∀ dl p pd gb_idx,
     P dl → _atom_metadata dl !! p = Some pd →
     P (set_atom_metadata (<[p := update_param_dict gb_idx pd]> (_atom_metadata dl)) dl)).

Lemma _check_atoms_dict_keeps p : keeps P (_check_atoms_dict p).
Proof.
  intros dl r dl' HP. unfold _check_atoms_dict. rewrite bind_get.
  destruct (_atom_metadata dl !! p) as [pd|] eqn:E.
  - rewrite bool_decide_eq_true_2 by (by eexists). by intros [= _ <-].
  - rewrite bool_decide_eq_false_2 by (by intros [? ?]).
    unfold get_field_data, bind, subscript.
    destruct (atom_metadata !! p); simpl; intros [= _ <-]; [by apply P_new | done].
Qed.

Lemma find_unique_loop_keeps p groups ret_df :
  keeps P (find_unique_loop p groups ret_df).
Proof.
  revert ret_df. induction groups as [|[gb_idx udf] groups IH]; intros ret_df; simpl.
  - apply keeps_ret.
  - intros dl r dl' Hdl. unfold bind at 1. unfold get_param_dict at 1.
    rewrite bind_get.
    destruct (_atom_metadata dl !! p) as [pd|] eqn:Hpd; simpl.
    2:{ intros [= _ <-]. done. }
    unfold bind at 1. unfold put_param_dict, modify.
    pose proof (P_update dl p pd gb_idx Hdl Hpd) as Hdl1.
    revert Hdl1. generalize (set_atom_metadata
      (<[p := update_param_dict gb_idx pd]> (_atom_metadata dl)) dl).
    intros dl1 Hdl1.
    apply keeps_bind; [apply keeps_subscript| |done].
    intros uidx. apply keeps_bind; [apply keeps_lift | intros; apply IH].
Qed.

Lemma _store_atom_table_keeps table_name df p by_value utype :
  keeps P (_store_atom_table table_name df p by_value utype).
Proof.
  unfold _store_atom_table, get_field_data.
  apply keeps_bind; [apply _check_atoms_dict_keeps | intro].
  apply keeps_bind; [apply keeps_subscript | intro].
  apply keeps_bind; [repeat keeps_step | intro].
  apply keeps_bind.
  - destruct (by_value && negb _).
    + unfold _find_unqiue_atom_values, get_field_data. repeat keeps_step.
      apply find_unique_loop_keeps.
    + repeat keeps_step.
  - intro. by apply keeps_add_table.
Qed.

Lemma add_atoms_keeps atom_df by_value utype :
  keeps P (add_atoms atom_df by_value utype).
Proof.
  unfold add_atoms, normalise_utype.
  apply keeps_bind; [repeat keeps_step | intro].
  apply keeps_bind; [apply keeps_raise_if | intro].
  apply keeps_bind; [repeat keeps_step | intro].
  apply keeps_bind; [|intro; repeat keeps_step].
  generalize false.
  induction APC_DICT as [|[k v] items IH]; intros found_one; simpl.
  - apply keeps_ret.
  - destruct (columns_present v _); [|apply IH].
    apply keeps_bind; [apply _store_atom_table_keeps | intro; apply IH].
Qed.

End AtomSteps.

(** The ids given so far, seen from a later state. *)
Definition ids_kept (dl0 dl : DataLayer) : Prop :=
  ∀ p pd v i,
    _atom_metadata dl0 !! p = Some pd → uvals pd !! v = Some i →
    ∃ pd', _atom_metadata dl !! p = Some pd' ∧ uvals pd' !! v = Some i.

Lemma update_param_dict_keeps_id gb_idx pd v i :
  uvals pd !! v = Some i → uvals (update_param_dict gb_idx pd) !! v = Some i.
Proof.
  intros Hv. destruct (uvals pd !! gb_idx) as [j|] eqn:E.
  - by rewrite (update_param_dict_known _ _ _ E).
  - rewrite (update_param_dict_fresh _ _ E). simpl.
    rewrite lookup_insert_ne; [done | congruence].
Qed.

(** Whatever [add_atoms] does, returning or raising: every value that had
    an id before the call has the same id after it, and if the
    dictionaries were built by the indexing loop, the id still resolves to
    the value. Ids handed out earlier stay valid over later additions. *)
Theorem add_atoms_keeps_ids atom_df by_value utype dl r dl' p pd v i :
  add_atoms atom_df by_value utype dl = (r, dl') →
  _atom_metadata dl !! p = Some pd →
  uvals pd !! v = Some i →
  ∃ pd', _atom_metadata dl' !! p = Some pd'
         ∧ uvals pd' !! v = Some i
         ∧ (dl_indexed dl → inv_uvals pd' !! i = Some v).
Proof.
  intros Hrun Hpd Hv.
  assert (ids_kept dl dl') as Hkept.
  { eapply (add_atoms_keeps (ids_kept dl)); [| | | |exact Hrun].
    - intros dl1 s Hk. exact Hk.
    - intros dl1 q Hk Hq q' pd0 v0 i0 Hq' Hv0.
      destruct (Hk _ _ _ _ Hq' Hv0) as (pd1 & Hpd1 & Hv1).
      exists pd1. split; [|done]. simpl. rewrite lookup_insert_ne; [done|].
      intros <-. congruence.
    - intros dl1 q pdq gb_idx Hk Hq q' pd0 v0 i0 Hq' Hv0.
      destruct (Hk _ _ _ _ Hq' Hv0) as (pd1 & Hpd1 & Hv1). simpl.
      destruct (decide (q = q')) as [<-|Hne].
      + rewrite lookup_insert_eq. eexists; split; [done|].
        apply update_param_dict_keeps_id. congruence.
      + rewrite lookup_insert_ne by done. by exists pd1.
    - intros q pd0 v0 i0 Hq Hv0. by exists pd0. }
  destruct (Hkept _ _ _ _ Hpd Hv) as (pd' & Hpd' & Hv').
  exists pd'. split; [done|]. split; [done|].
  intros Hdl. apply (inv_of_uvals pd'); [|done]. apply indexed_inv.
  eapply add_atoms_keeps_indexed; [exact Hdl | exact Hrun | exact Hpd'].
Qed.

(** After [add_atoms], returning or raising, on an object whose
    dictionaries were built by the indexing loop: in every dictionary the
    two directions are inverse to each other and the ids in use are
    exactly [0 .. counter]. *)
Theorem add_atoms_index_consistent atom_df by_value utype dl r dl' p pd :
  dl_indexed dl →
  add_atoms atom_df by_value utype dl = (r, dl') →
  _atom_metadata dl' !! p = Some pd →
  (∀ v i, uvals pd !! v = Some i ↔ inv_uvals pd !! i = Some v)
  ∧ (∀ i, is_Some (inv_uvals pd !! i) ↔ 0 ≤ i ≤ counter pd).
Proof.
  intros Hdl Hrun Hpd.
  assert (index_inv pd) as [Hiu Hui Hb Hd _].
  { apply indexed_inv. eapply add_atoms_keeps_indexed; eauto. }
  split.
  - intros v i. split; [apply Hiu | apply Hui].
  - intros i. split; [intros [v Hv]; by eapply Hb | apply Hd].
Qed.

(** ** [add_atoms]: what is checked before anything is stored *)

(** [add_atoms] checks its arguments in this order and raises before the
    first table is stored, leaving the object as it was: an argument that
    is not a table ([KeyError]); a table whose index, after the column
    [atom_index] became the index, is not named [atom_index] ([KeyError]
    naming the index found); a unit map that is neither [None] nor a
    dict ([TypeError]). *)
Theorem add_atoms_rejects by_value utype dl :
  (∀ type_repr,
     add_atoms (AtomOther type_repr) by_value utype dl
     = (Raise (KeyError (msg_not_understood type_repr)), dl))
  ∧ (∀ df,
       df_index_name (indexed_frame df) ≠ Some index →
       add_atoms (AtomFrame df) by_value utype dl
       = (Raise (KeyError (msg_index_name (df_index_name (indexed_frame df)))), dl))
  ∧ (∀ df,
       df_index_name (indexed_frame df) = Some index →
       add_atoms (AtomFrame df) by_value UtOther dl
       = (Raise (TypeError "utype type not understood"), dl)).
Proof.
  split; [done|]. split.
  - intros df Hname. unfold add_atoms. unfold bind at 1, ret at 1.
    fold (indexed_frame df).
    rewrite bind_raise_if_true; [done|]. by rewrite bool_decide_eq_false_2.
  - intros df Hname. unfold add_atoms. unfold bind at 1, ret at 1.
    fold (indexed_frame df).
    rewrite bind_raise_if_false by (by rewrite bool_decide_eq_true_2).
    done.
Qed.

(** ** The unit map of the atom functions *)

Lemma lower_keys_snoc d k u :
  lower_keys (d ++ [(k, u)]) = PyDict.set (lower k) u (lower_keys d).
Proof. unfold lower_keys. by rewrite foldl_app. Qed.

(** The unit map is read without regard to case: the unit found for a
    lowercase name [k] is the one given last under a spelling of [k],
    and there is none exactly when no key of the map is a spelling of
    [k]. *)
Theorem lower_keys_lookup (d : list (string * PyObj)) (k : string) :
  PyDict.get k (lower_keys d)
  = snd <$> last (filter (λ kv, lower kv.1 = k) d).
Proof.
  induction d as [|[k' u] d IH] using rev_ind; [done|].
  rewrite lower_keys_snoc, filter_app.
  destruct (decide (lower k' = k)) as [<-|Hne].
  - rewrite PyDict.get_set_eq.
    rewrite filter_cons_True by done. rewrite filter_nil.
    by rewrite last_snoc.
  - rewrite PyDict.get_set_ne by done.
    rewrite filter_cons_False by done. rewrite filter_nil, app_nil_r. exact IH.
Qed.

(** ** [get_atoms] only reads *)

(** Everything of the object but the store. *)
Definition registries (dl : DataLayer) :=
  (_functional_forms dl, _terms dl, _atom_metadata dl).

Lemma build_loop_keeps P p pd groups ret_df : keeps P (build_loop p pd groups ret_df).
Proof.
  revert ret_df. induction groups as [|[gb_idx udf] groups IH]; intros ret_df; simpl.
  - apply keeps_ret.
  - apply keeps_bind; [apply keeps_subscript | intro].
    apply keeps_bind; [apply keeps_lift | intro; apply IH].
Qed.

Lemma _get_atom_table_keeps P table_name p by_value utype :
  (∀ dl s, P dl → P (set_store s dl)) →
  keeps P (_get_atom_table table_name p by_value utype).
Proof.
  intros HP. unfold _get_atom_table, _build_atom_values, get_field_data.
  apply keeps_bind; [by apply keeps_read_table | intro].
  apply keeps_bind; [repeat keeps_step | intro].
  apply keeps_bind; [|intro; repeat keeps_step].
  destruct (by_value && negb _); [|apply keeps_ret].
  repeat keeps_step. apply build_loop_keeps.
Qed.

(** [get_atoms], returning or raising, leaves the registry of forms, the
    term tables and the index of every property as they were; only the
    backend's store can differ. *)
Theorem get_atoms_reads_only properties by_value utype dl r dl' :
  get_atoms properties by_value utype dl = (r, dl') →
  registries dl' = registries dl.
Proof.
  intros Hrun.
  assert (keeps (λ dl1, registries dl1 = registries dl)
            (get_atoms properties by_value utype)) as Hkeeps;
    [|exact (Hkeeps dl r dl' eq_refl Hrun)].
  clear Hrun. unfold get_atoms, normalise_utype.
  apply keeps_bind; [apply keeps_raise_if | intro].
  apply keeps_bind; [repeat keeps_step | intro].
  apply keeps_bind; [|intro; apply keeps_lift].
  generalize (@nil DataFrame).
  induction (lower <$> _) as [|prop props IH]; intros df_data; simpl.
  - apply keeps_ret.
  - apply keeps_bind; [|intro; apply IH].
    apply _get_atom_table_keeps. by intros dl1 s.
Qed.

(** * Properties of the connectivity tables *)

(** For an order of the registry whose index columns the catalog gives:
    [add_terms] raises the "Missing required columns" [KeyError] when a
    required column is absent, and the "NYI" exception when all are there
    but [term_index] is not; in both cases nothing is stored. Otherwise it
    hands the backend the table cut down to the index columns followed by
    [term_index], under the name ["term" + str(order)]. *)
Theorem add_terms_cases order o df dl forms req_cols :
  sanitize_term_order_name order = Ok (OInt o) →
  _functional_forms dl !! o = Some forms →
  get_term_metadata_index_columns (OInt o) = Ok req_cols →
  let missing := elements (list_to_set req_cols ∖ list_to_set (df_columns df)
                           : gset string) in
  (missing ≠ [] →
     add_terms order df dl
     = (Raise (KeyError (msg_missing_columns missing (OInt o))), dl))
  ∧ (missing = [] → "term_index" ∉ df_columns df →
     add_terms order df dl = (Raise (Exception_ msg_nyi_terms), dl))
  ∧ (missing = [] → "term_index" ∈ df_columns df →
     ∀ cut, df_getitem df (req_cols ++ ["term_index"]) = Ok cut →
     add_terms order df dl = add_table ("term" +:+ pretty o) cut dl).
Proof.
  intros Horder Hforms Hcols missing.
  assert (add_terms order df dl
          = bind (raise_if (negb (bool_decide (missing = [])))
                    (KeyError (msg_missing_columns missing (OInt o))))
              (λ _, bind (if bool_decide ("term_index" ∈ df_columns df)
                          then lift (df_getitem df (req_cols ++ ["term_index"]))
                          else raise (Exception_ msg_nyi_terms))
                      (λ df, add_table (term_table (OInt o)) df)) dl) as ->.
  { unfold add_terms. rewrite (bind_lift_Ok _ _ _ _ Horder), bind_get.
    rewrite bind_raise_if_false by (by eapply order_in_Some).
    by rewrite (bind_lift_Ok _ _ _ _ Hcols). }
  split; [|split].
  - intros Hmiss. rewrite bind_raise_if_true; [done|].
    by rewrite bool_decide_eq_false_2.
  - intros Hnone Hnoidx.
    rewrite bind_raise_if_false by (by rewrite bool_decide_eq_true_2).
    by rewrite bool_decide_eq_false_2.
  - intros Hnone Hidx cut Hcut.
    rewrite bind_raise_if_false by (by rewrite bool_decide_eq_true_2).
    rewrite bool_decide_eq_true_2 by done.
    by rewrite (bind_lift_Ok _ _ _ _ Hcut).
Qed.

(** With a backend that gives back the table it was given under a name:
    after [add_bonds] returned, [get_bonds] returns the table that was
    added, cut down to the index columns of the order and [term_index],
    and changes nothing. *)
Theorem add_bonds_get_bonds bonds dl r dl' :
  (∀ s name df s',
     store_add_table s name df = (Ok (), s') →
     store_read_table s' name = (Ok df, s')) →
  add_bonds bonds dl = (Ok r, dl') →
  ∃ o req_cols cut,
    r = true
    ∧ sanitize_term_order_name (OStr "bonds") = Ok (OInt o)
    ∧ get_term_metadata_index_columns (OInt o) = Ok req_cols
    ∧ df_getitem bonds (req_cols ++ ["term_index"]) = Ok cut
    ∧ get_bonds dl' = (Ok cut, dl').
Proof.
  intros Hstore Hrun. unfold add_bonds in Hrun.
  destruct (add_terms (OStr "bonds") bonds dl) as [[[]|e] dl1] eqn:Hadd;
    [|by rewrite (bind_Raise _ _ _ _ _ Hadd) in Hrun].
  rewrite (bind_Ok _ _ _ _ _ Hadd) in Hrun. injection Hrun as <- <-.
  unfold add_terms in Hadd.
  destruct (sanitize_term_order_name (OStr "bonds")) as [[o|name]|e] eqn:Horder;
    [|done..].
  rewrite (bind_lift_Ok _ _ _ _ eq_refl), bind_get in Hadd.
  destruct (_functional_forms dl !! o) as [forms|] eqn:Hforms.
  2:{ rewrite bind_raise_if_true in Hadd; [done|].
      unfold order_in, at_order. rewrite Hforms.
      rewrite bool_decide_eq_false_2; [done | by intros [? ?]]. }
  rewrite bind_raise_if_false in Hadd by (by eapply order_in_Some).
  destruct (get_term_metadata_index_columns (OInt o)) as [req_cols|e] eqn:Hcols;
    [|done].
  rewrite (bind_lift_Ok _ _ _ _ eq_refl) in Hadd.
  destruct (bool_decide (elements _ = [])) eqn:Hmissing in Hadd; [|done].
  rewrite bind_raise_if_false in Hadd by done.
  destruct (bool_decide ("term_index" ∈ df_columns bonds)); [|done].
  destruct (df_getitem bonds (req_cols ++ ["term_index"])) as [cut|e] eqn:Hcut;
    [|done].
  rewrite (bind_lift_Ok _ _ _ _ eq_refl) in Hadd.
  unfold add_table in Hadd.
  destruct (store_add_table (store dl) (term_table (OInt o)) cut) as [[[]|e] s']
    eqn:Hput; [|done].
  injection Hadd as <-.
  exists o, req_cols, cut. repeat split; try done.
  unfold get_bonds, read_terms.
  rewrite (bind_lift_Ok _ _ _ _ Horder), bind_get.
  rewrite bind_raise_if_false by (by eapply order_in_Some).
  unfold read_table. simpl. rewrite (Hstore _ _ _ _ Hput). by destruct dl.
Qed.

(** * Properties of the table listings *)

Lemma is_prefix_app (p s : string) : is_prefix p (p +:+ s) = true.
Proof.
  induction p as [|c p IH]; simpl; [done|].
  by rewrite bool_decide_eq_true_2, IH.
Qed.

Lemma is_prefix_length (p s : string) :
  is_prefix p s = true → (String.length p ≤ String.length s)%nat.
Proof.
  revert s. induction p as [|c p IH]; intros [|d s]; simpl; try done; [lia|].
  intros [_ Hp]%andb_prop. specialize (IH _ Hp). lia.
Qed.

Lemma py_contains_prefix (sub s : string) :
  is_prefix sub s = true → py_contains sub s = true.
Proof. intros Hp. destruct s; simpl; by rewrite Hp. Qed.

Lemma drop_chars_length (n : nat) (s : string) :
  String.length (drop_chars n s) = (String.length s - n)%nat.
Proof.
  revert s. induction n as [|n IH]; intros [|c s]; simpl; auto with lia.
Qed.

Lemma drop_chars_app (p s : string) : drop_chars (String.length p) (p +:+ s) = s.
Proof. induction p as [|c p IH]; simpl; [done | exact IH]. Qed.

Lemma length_append (a b : string) :
  String.length (a +:+ b) = (String.length a + String.length b)%nat.
Proof. induction a as [|c a IH]; simpl; [done | by rewrite IH]. Qed.

(** More fuel than the length of the text changes nothing. *)
Lemma remove_all_fuel_enough (old s : string) (n m : nat) :
  old ≠ "" →
  (String.length s < n)%nat → (String.length s < m)%nat →
  remove_all_fuel n old s = remove_all_fuel m old s.
Proof.
  intros Hold. revert s m. induction n as [|n IH]; intros s m Hn Hm; [lia|].
  destruct m as [|m]; [lia|]. simpl.
  destruct (is_prefix old s) eqn:Hp.
  - pose proof (is_prefix_length _ _ Hp) as Hlen.
    assert (0 < String.length old)%nat by (destruct old; [done | simpl; lia]).
    apply IH; rewrite drop_chars_length; lia.
  - destruct s as [|c s]; [done|]. simpl in Hn, Hm. f_equal. apply IH; lia.
Qed.

Lemma py_remove_all_prefix (old s : string) :
  old ≠ "" → py_remove_all old (old +:+ s) = py_remove_all old s.
Proof.
  intros Hold. unfold py_remove_all.
  change (remove_all_fuel (S (String.length (old +:+ s))) old (old +:+ s))
    with (if is_prefix old (old +:+ s)
          then remove_all_fuel (String.length (old +:+ s)) old
                 (drop_chars (String.length old) (old +:+ s))
          else match old +:+ s with
               | EmptyString => EmptyString
               | String c s' =>
                   String c (remove_all_fuel (String.length (old +:+ s)) old s')
               end).
  rewrite is_prefix_app, drop_chars_app.
  assert (0 < String.length old)%nat by (destruct old; [done | simpl; lia]).
  apply remove_all_fuel_enough; [done | rewrite length_append; lia | lia].
Qed.

Lemma py_remove_all_absent (old s : string) :
  py_contains old s = false → py_remove_all old s = s.
Proof.
  unfold py_remove_all. generalize (S (String.length s)) at 1.
  intros n. revert s. induction n as [|n IH]; intros s Hs; [done|].
  simpl. destruct s as [|c s]; simpl in Hs.
  - apply orb_false_elim in Hs as [-> _]. done.
  - apply orb_false_elim in Hs as [-> Hs]. by rewrite IH.
Qed.

(** A table stored under ["other_" + key] (as [add_other] does) is never
    in [list_tables] and is listed by [list_other_tables] under the key
    with every ["other_"] taken out of it, the key itself if it has none.
    What [list_tables] shows are the names of the store that do not
    contain ["other"]. *)
Theorem other_tables_listing names s' dl key :
  store_list_tables (store dl) = (Ok names, s') →
  "other_" +:+ key ∈ names →
  ∃ visible others,
    list_tables dl = (Ok visible, set_store s' dl)
    ∧ list_other_tables dl = (Ok others, set_store s' dl)
    ∧ ("other_" +:+ key ∉ visible)
    ∧ (∀ x, x ∈ visible ↔ x ∈ names ∧ py_contains "other" x = false)
    ∧ py_remove_all "other_" key ∈ others
    ∧ (py_contains "other_" key = false → key ∈ others).
Proof.
  intros Hlist Hin.
  assert (py_contains "other" ("other_" +:+ key) = true) as Hother
    by (by apply py_contains_prefix).
  eexists _, _. unfold list_tables, list_other_tables, bind, list_store_tables.
  rewrite Hlist. split; [reflexivity|]. split; [reflexivity|].
  split; [|split; [|split]].
  - intros [Hvis _]%list_elem_of_filter. congruence.
  - intros x. by rewrite list_elem_of_filter, (comm and).
  - rewrite <- (py_remove_all_prefix "other_" key) by done.
    apply list_elem_of_fmap. exists ("other_" +:+ key). split; [done|].
    by apply list_elem_of_filter.
  - intros Hnone. rewrite <- (py_remove_all_absent "other_" key Hnone).
    rewrite <- (py_remove_all_prefix "other_" key) by done.
    apply list_elem_of_fmap. exists ("other_" +:+ key). split; [done|].
    by apply list_elem_of_filter.
Qed.

(** With a backend that gives back the table it was given under a name:
    after [add_other(key, df)], [get_other(key)] hands exactly [[df]] to
    [pd.concat] and changes nothing; the table is kept under
    ["other_" + key]. *)
Theorem add_other_get_other key df dl r dl' :
  (∀ s name df s',
     store_add_table s name df = (Ok (), s') →
     store_read_table s' name = (Ok df, s')) →
  add_other key df dl = (Ok r, dl') →
  r = true
  ∧ store_read_table (store dl') ("other_" +:+ key) = (Ok df, store dl')
  ∧ get_other (PropOne key) dl' = (pd_concat [df], dl').
Proof.
  intros Hstore Hrun. unfold add_other, bind, add_table, ret in Hrun.
  destruct (store_add_table (store dl) ("other_" +:+ key) df) as [[[]|e] s'] eqn:Hput;
    [|done].
  injection Hrun as <- <-. pose proof (Hstore _ _ _ _ Hput) as Hread.
  split; [done|]. split; [exact Hread|].
  unfold get_other, get_other_loop, bind, read_table, ret, lift. simpl.
  rewrite Hread. by destruct dl.
Qed.

(** An order that is not in the registry: [add_terms] and [read_terms]
    raise the same [KeyError], spelling the order as
    [sanitize_term_order_name] returned it, before the catalog or the
    store is consulted; the object is unchanged. *)
Theorem terms_unknown_order order order' df dl :
  sanitize_term_order_name order = Ok order' →
  at_order order' (_functional_forms dl) = None →
  add_terms order df dl = (Raise (KeyError (msg_add_terms_order order')), dl)
  ∧ read_terms order dl = (Raise (KeyError (msg_add_terms_order order')), dl).
Proof.
  intros Horder Hnone.
  assert (negb (order_in order' (_functional_forms dl)) = true) as Hout.
  { unfold order_in. rewrite Hnone.
    rewrite bool_decide_eq_false_2; [done | by intros [? ?]]. }
  split.
  - unfold add_terms. rewrite (bind_lift_Ok _ _ _ _ Horder), bind_get.
    by rewrite (bind_raise_if_true _ _ _ _ Hout).
  - unfold read_terms. rewrite (bind_lift_Ok _ _ _ _ Horder), bind_get.
    by rewrite (bind_raise_if_true _ _ _ _ Hout).
Qed.

(** * More on the search for an existing entry *)

(** An accepted call of [add_parameters] without a uid returns the uid of
    the entry that was stored first among those that match the parameters,
    and changes nothing: the tests of the entries stored before it
    returned false, and the entries stored after it are not tested at all,
    so neither a later match nor a later entry on which [np.allclose]
    raises plays a part. The closeness test is not transitive, so several
    entries can match: the oldest wins. *)
Theorem add_parameters_oldest_match
    order o term_name term_parameters utype dl forms mdata params before k v after :
  sanitize_term_order_name order = Ok (OInt o) →
  _functional_forms dl !! o = Some forms →
  forms !! term_name = Some mdata →
  truthy utype = false →
  validate_term_dict term_name mdata term_parameters = Ok params →
  _terms dl !! o = Some (before ++ (k, v) :: after) →
  Forall (λ kv, entry_matches term_name params kv.2 = Ok false) before →
  entry_matches term_name params v = Ok true →
  add_parameters order term_name term_parameters None utype dl = (Ok k, dl).
Proof.
  intros Horder Hforms Hname Hutype Hvalid Hterms Hbefore Hv.
  rewrite (add_parameters_accepted _ _ _ _ _ _ _ _ _ _
             Horder Hforms Hname Hutype Hvalid Hterms).
  assert (find_key term_name params (before ++ (k, v) :: after) = Ok (Some k))
    as ->; [|done].
  apply find_key_Some. by exists before, v, after.
Qed.

Lemma add_parameters_appends
    order o term_name tp utype dl forms mdata params terms :
  sanitize_term_order_name order = Ok (OInt o) →
  _functional_forms dl !! o = Some forms →
  forms !! term_name = Some mdata →
  truthy utype = false →
  validate_term_dict term_name mdata tp = Ok params →
  _terms dl !! o = Some terms →
  Forall (λ kv, entry_matches term_name params kv.2 = Ok false) terms →
  ∃ uid, add_parameters order term_name tp None utype dl
           = (Ok uid, with_term o term_name dl params terms uid)
         ∧ (uid ∉ PyDict.keys terms).
Proof.
  intros Horder Hforms Hname Hutype Hvalid Hterms Hnew.
  rewrite (add_parameters_accepted _ _ _ _ _ _ _ _ _ _
             Horder Hforms Hname Hutype Hvalid Hterms).
  apply find_key_None in Hnew. rewrite Hnew.
  destruct (new_key_fresh_set term_name params terms)
    as (k & -> & -> & _ & Hfresh & _).
  by exists k.
Qed.

(** Two accepted calls in a row without uid, for the same form: when the
    first call's parameters match no entry, and the second call's match
    neither an old entry nor the first call's, the two uids differ and
    both entries are stored, the second after the first. *)
Theorem add_parameters_distinct
    order o term_name tp1 tp2 utype dl forms mdata params1 params2 terms :
  sanitize_term_order_name order = Ok (OInt o) →
  _functional_forms dl !! o = Some forms →
  forms !! term_name = Some mdata →
  truthy utype = false →
  validate_term_dict term_name mdata tp1 = Ok params1 →
  validate_term_dict term_name mdata tp2 = Ok params2 →
  _terms dl !! o = Some terms →
  Forall (λ kv, entry_matches term_name params1 kv.2 = Ok false) terms →
  Forall (λ kv, entry_matches term_name params2 kv.2 = Ok false) terms →
  allclose params1 params2 = Ok false →
  ∃ uid1 uid2 dl1 dl2,
    add_parameters order term_name tp1 None utype dl = (Ok uid1, dl1)
    ∧ add_parameters order term_name tp2 None utype dl1 = (Ok uid2, dl2)
    ∧ uid1 ≠ uid2
    ∧ _terms dl2 !! o
      = Some (terms ++ [(uid1, (term_name, params1)); (uid2, (term_name, params2))]).
Proof.
  intros Horder Hforms Hname Hutype Hv1 Hv2 Hterms Hnew1 Hnew2 Hfar.
  destruct (add_parameters_appends _ _ _ _ _ _ _ _ _ _
              Horder Hforms Hname Hutype Hv1 Hterms Hnew1)
    as (uid1 & Hrun1 & _).
  set (terms1 := terms ++ [(uid1, (term_name, params1))]).
  assert (_terms (with_term o term_name dl params1 terms uid1) !! o = Some terms1)
    as Hterms1 by apply lookup_insert_eq.
  assert (Forall (λ kv, entry_matches term_name params2 kv.2 = Ok false) terms1)
    as Hnew2'.
  { apply Forall_app. split; [done|]. constructor; [|constructor].
    unfold entry_matches; simpl. by rewrite bool_decide_eq_true_2, Hfar. }
  destruct (add_parameters_appends order o term_name tp2 utype
              (with_term o term_name dl params1 terms uid1) forms mdata params2 terms1
              Horder Hforms Hname Hutype Hv2 Hterms1 Hnew2')
    as (uid2 & Hrun2 & Hfresh).
  eexists uid1, uid2, _, _. split; [exact Hrun1|]. split; [exact Hrun2|]. split.
  - intros <-. apply Hfresh. unfold terms1, PyDict.keys.
    rewrite fmap_app. apply elem_of_app. right. simpl. left.
  - unfold with_term at 1. simpl. rewrite lookup_insert_eq.
    unfold terms1. by rewrite <- app_assoc.
Qed.

(** * The result of an indexing pass *)

Lemma update_param_dict_has gb_idx pd : is_Some (uvals (update_param_dict gb_idx pd) !! gb_idx).
Proof.
  destruct (uvals pd !! gb_idx) as [i|] eqn:E.
  - rewrite (update_param_dict_known _ _ _ E). by exists i.
  - rewrite (update_param_dict_fresh _ _ E). simpl. rewrite lookup_insert_eq. by eexists.
Qed.

Lemma foldl_update_keeps (groups : list (K * DataFrame)) pd v :
  is_Some (uvals pd !! v) →
  is_Some (uvals (foldl (λ pd g, update_param_dict g.1 pd) pd groups) !! v).
Proof.
  revert pd. induction groups as [|g groups IH]; intros pd [i Hi]; simpl; [by exists i|].
  apply IH. exists i. by apply update_param_dict_keeps_id.
Qed.

(** When the loop of [_find_unqiue_atom_values] runs to its end, the
    dictionary of the property is the old one updated with the key of
    each group in turn, nothing else of the object has changed, and every
    key of the table has an id. *)
Theorem find_unique_loop_indexes p groups ret_df dl res dl' pd :
  _atom_metadata dl !! p = Some pd →
  find_unique_loop p groups ret_df dl = (Ok res, dl') →
  let pd' := foldl (λ pd g, update_param_dict g.1 pd) pd groups in
  dl' = set_atom_metadata (<[p := pd']> (_atom_metadata dl)) dl
  ∧ ∀ gb_idx udf, (gb_idx, udf) ∈ groups → is_Some (uvals pd' !! gb_idx).
Proof.
  revert ret_df dl pd.
  induction groups as [|[gb udf] groups IH]; intros ret_df dl pd Hpd Hrun; simpl.
  - injection Hrun as _ <-. split.
    + rewrite insert_id by done. by destruct dl.
    + by intros ? ? ?%elem_of_nil.
  - simpl in Hrun. unfold bind at 1 in Hrun. unfold get_param_dict at 1 in Hrun.
    rewrite bind_get, Hpd in Hrun. simpl in Hrun.
    unfold bind at 1 in Hrun. unfold put_param_dict, modify in Hrun.
    set (pd1 := update_param_dict gb pd) in *.
    set (dl1 := set_atom_metadata (<[p := pd1]> (_atom_metadata dl)) dl) in *.
    destruct (update_param_dict_has gb pd) as [i Hi]. fold pd1 in Hi.
    unfold grab_unique in Hrun. rewrite Hi in Hrun. simpl in Hrun.
    unfold bind at 1, ret at 1 in Hrun. unfold bind at 1, lift at 1 in Hrun.
    destruct (df_loc_setitem ret_df (df_index udf) p (CInt i)) as [ret1|e]; [|done].
    assert (_atom_metadata dl1 !! p = Some pd1) as Hpd1 by apply lookup_insert_eq.
    destruct (IH ret1 dl1 pd1 Hpd1 Hrun) as [-> Hall]. split.
    + unfold dl1. simpl. by rewrite insert_insert_eq.
    + intros gb' udf' [[= -> ->]|Hin]%elem_of_cons.
      * apply foldl_update_keeps. by exists i.
      * by eapply Hall.
Qed.

(** * [add_atoms] on a table with matched properties *)

(** The unit given for a property, as [add_atoms] looks it up: the unit
    map is read with its keys in lowercase. *)
Definition unit_given (utype : py_utype PyObj) (k : string) : option PyObj :=
  match utype with
  | UtDict d => PyDict.get k (lower_keys d)
  | UtNone | UtOther => None
  end.

(** What is taken of the collaborators: the column table is the catalog's
    and, being a dict, has each key once; selecting columns that are there,
    scaling and rounding return a table with the columns asked for;
    grouping by the columns of an indexed property that are there returns;
    an assignment to a column that is there returns and adds no column;
    and the backend accepts a table. *)
Section StoreAtoms.
Hypotheses
  (APC_catalog : ∀ k v, (k, v) ∈ APC_DICT →
     ∃ fd, atom_metadata !! k = Some fd ∧ required_columns fd = v)
  (APC_keys : NoDup (PyDict.keys APC_DICT))
  (getitem_present : ∀ d cols, cols ⊆ df_columns d →
     ∃ d', df_getitem d cols = Ok d' ∧ df_columns d' = cols)
  (mul_columns : ∀ d s, ∃ d', df_mul d s = Ok d' ∧ df_columns d' = df_columns d)
  (round_columns : ∀ d t, ∃ d', df_round d t = Ok d' ∧ df_columns d' = df_columns d)
  (groupby_present : ∀ d k fd,
     atom_metadata !! k = Some fd → unique fd = false →
     required_columns fd ⊆ df_columns d →
     ∃ groups, groupby_values d (required_columns fd) = Ok groups)
  (setitem_column : ∀ d c v, c ∈ df_columns (df_setitem d c v))
  (loc_setitem_present : ∀ d idx c v, c ∈ df_columns d →
     ∃ d', df_loc_setitem d idx c v = Ok d' ∧ df_columns d' = df_columns d)
  (store_accepts : ∀ s name d, ∃ s', store_add_table s name d = (Ok (), s')).

Lemma add_table_succeeds name d dl : ∃ dl', add_table name d dl = (Ok (), dl').
Proof.
  unfold add_table. destruct (store_accepts (store dl) name d) as [s' ->].
  by eexists.
Qed.

Lemma find_unique_loop_succeeds p groups ret_df dl :
  is_Some (_atom_metadata dl !! p) → p ∈ df_columns ret_df →
  ∃ res dl', find_unique_loop p groups ret_df dl = (Ok res, dl').
Proof.
  revert ret_df dl.
  induction groups as [|[gb udf] groups IH]; intros ret_df dl [pd Hpd] Hcol; simpl.
  - by eexists _, _.
  - unfold bind at 1. unfold get_param_dict at 1. rewrite bind_get, Hpd. simpl.
    unfold bind at 1. unfold put_param_dict, modify.
    destruct (update_param_dict_has gb pd) as [i Hi].
    unfold grab_unique. rewrite Hi. simpl.
    destruct (loc_setitem_present ret_df (df_index udf) p (CInt i) Hcol)
      as (ret1 & Hloc & Hcols).
    unfold bind at 1, ret at 1. rewrite (bind_lift_Ok _ _ _ _ Hloc).
    apply IH.
    + simpl. rewrite lookup_insert_eq. by eexists.
    + by rewrite Hcols.
Qed.

Lemma _find_unqiue_atom_values_succeeds df p fd dl :
  atom_metadata !! p = Some fd → unique fd = false →
  required_columns fd ⊆ df_columns df →
  is_Some (_atom_metadata dl !! p) →
  ∃ res dl', _find_unqiue_atom_values df p dl = (Ok res, dl').
Proof.
  intros Hfd Huniq Hcols [pd Hpd]. unfold _find_unqiue_atom_values, get_field_data.
  rewrite (bind_subscript_Some _ _ _ _ _ Hfd).
  unfold get_param_dict. unfold bind at 1. unfold bind at 1. unfold get at 1.
  rewrite Hpd. simpl.
  assert (∀ d, required_columns fd ⊆ df_columns d →
            ∃ res dl',
              bind (lift (groupby_values d (required_columns fd)))
                (λ groups, find_unique_loop p groups
                             (df_setitem (pd_DataFrame (df_index d)) p (CInt 0))) dl
              = (Ok res, dl')) as Hrest.
  { intros d Hd. destruct (groupby_present d p fd Hfd Huniq Hd) as [groups Hg].
    rewrite (bind_lift_Ok _ _ _ _ Hg).
    apply find_unique_loop_succeeds; [by eexists | apply setitem_column]. }
  destruct (dtype_is_float fd).
  - destruct (getitem_present df (required_columns fd) Hcols) as (d1 & Hd1 & Hc1).
    destruct (round_columns d1 (tol fd)) as (d2 & Hd2 & Hc2).
    erewrite bind_Ok.
    2:{ rewrite (bind_lift_Ok _ _ _ _ Hd1). unfold lift. by rewrite Hd2. }
    apply Hrest. by rewrite Hc2, Hc1.
  - erewrite bind_Ok by reflexivity. by apply Hrest.
Qed.

(** The table of a property whose columns are all in the table is
    stored, provided the unit given for it, where one is used, converts
    to the unit of the catalog. *)
Lemma _store_atom_table_succeeds k v fd df by_value uval dl :
  (k, v) ∈ APC_DICT → atom_metadata !! k = Some fd → required_columns fd = v →
  v ⊆ df_columns df →
  (by_value = true → is_Some (fd_units fd) →
   ∀ u, uval = Some u → ∃ s, conversion_factor u (fd_utype fd) = Ok s) →
  ∃ dl', _store_atom_table k df k by_value uval dl = (Ok (), dl').
Proof.
  intros Hin Hfd Hreq Hcols Hconv. unfold _store_atom_table.
  assert (∃ b dl1, _check_atoms_dict k dl = (Ok b, dl1)
                   ∧ is_Some (_atom_metadata dl1 !! k)) as (b & dl1 & Hcheck & Hdict).
  { unfold _check_atoms_dict. rewrite bind_get. case_bool_decide as Hk.
    - by exists false, dl.
    - unfold get_field_data. rewrite (bind_subscript_Some _ _ _ _ _ Hfd).
      eexists true, _. split; [reflexivity|].
      simpl. rewrite lookup_insert_eq. by eexists. }
  rewrite (bind_Ok _ _ _ _ _ Hcheck). clear Hcheck dl.
  unfold get_field_data at 1. rewrite (bind_subscript_Some _ _ _ _ _ Hfd).
  assert (∀ sdf, v ⊆ df_columns sdf →
            ∃ dl',
              bind (if by_value && negb (unique fd)
                    then _find_unqiue_atom_values sdf k
                    else bind (subscript (PyDict.get k APC_DICT) k)
                           (λ cols, lift (df_getitem sdf cols)))
                (λ tmp_df, add_table k tmp_df) dl1 = (Ok (), dl')) as Htail.
  { intros sdf Hsdf. destruct (by_value && negb (unique fd)) eqn:Hway.
    - apply andb_prop in Hway as [_ Huniq]. apply negb_true_iff in Huniq.
      destruct (_find_unqiue_atom_values_succeeds sdf k fd dl1)
        as (res & dl2 & Hfind); [done | done | by rewrite Hreq | done |].
      rewrite (bind_Ok _ _ _ _ _ Hfind). apply add_table_succeeds.
    - destruct (getitem_present sdf v Hsdf) as (tmp & Htmp & _).
      erewrite bind_Ok.
      2:{ rewrite (bind_subscript_Some _ _ _ _ _ (PyDict.get_NoDup _ _ _ APC_keys Hin)).
          unfold lift. by rewrite Htmp. }
      apply add_table_succeeds. }
  destruct by_value; [|by apply Htail].
  destruct (fd_units fd) as [units|] eqn:Hunits; [|by apply Htail].
  destruct uval as [u|]; [|by apply Htail].
  destruct (Hconv eq_refl (ltac:(by eexists)) u eq_refl) as [scale Hscale].
  destruct (getitem_present df (required_columns fd)) as (d1 & Hd1 & Hc1);
    [by rewrite Hreq|].
  destruct (mul_columns d1 scale) as (d2 & Hd2 & Hc2).
  erewrite bind_Ok.
  2:{ rewrite (bind_lift_Ok _ _ _ _ Hscale), (bind_lift_Ok _ _ _ _ Hd1).
      unfold lift. by rewrite Hd2. }
  apply Htail. by rewrite Hc2, Hc1, Hreq.
Qed.

(** A property other than the one a table is stored for keeps the
    dictionary it has, or none. *)
Lemma find_unique_loop_frame q m p groups ret_df :
  p ≠ q →
  keeps (λ dl, _atom_metadata dl !! q = m) (find_unique_loop p groups ret_df).
Proof.
  intros Hne. revert ret_df.
  induction groups as [|[gb udf] groups IH]; intros ret_df; simpl.
  - apply keeps_ret.
  - apply keeps_bind; [apply keeps_get_param_dict | intro pd].
    apply keeps_bind.
    { apply keeps_modify. intros dl Hdl. simpl. by rewrite lookup_insert_ne. }
    intros _. apply keeps_bind; [apply keeps_subscript | intro].
    apply keeps_bind; [apply keeps_lift | intro; apply IH].
Qed.

Lemma _store_atom_table_frame q m table_name df p by_value uval :
  p ≠ q →
  keeps (λ dl, _atom_metadata dl !! q = m)
    (_store_atom_table table_name df p by_value uval).
Proof.
  intros Hne. unfold _store_atom_table, _check_atoms_dict, get_field_data.
  apply keeps_bind.
  { repeat keeps_step. apply keeps_modify. intros dl Hdl. simpl.
    by rewrite lookup_insert_ne. }
  intros _. apply keeps_bind; [apply keeps_subscript | intro fd].
  apply keeps_bind; [repeat keeps_step | intro sdf].
  apply keeps_bind; [|intro; by apply keeps_add_table].
  destruct (by_value && negb _); [|repeat keeps_step].
  unfold _find_unqiue_atom_values, get_field_data. repeat keeps_step.
  by apply find_unique_loop_frame.
Qed.

Lemma add_atoms_loop_frame q m items atom_df set_cols by_value utype found_one :
  (∀ v, (q, v) ∈ items → columns_present v set_cols = false) →
  keeps (λ dl, _atom_metadata dl !! q = m)
    (add_atoms_loop items atom_df set_cols by_value utype found_one).
Proof.
  revert found_one. induction items as [|[k v] items IH]; intros found_one Hq; simpl.
  - apply keeps_ret.
  - assert (∀ v', (q, v') ∈ items → columns_present v' set_cols = false) as Hq'
      by (intros v' Hin; apply Hq; by right).
    destruct (columns_present v set_cols) eqn:Hv; [|by apply IH].
    apply keeps_bind; [|intro; by apply IH].
    apply _store_atom_table_frame. intros ->.
    rewrite Hq in Hv; [done | left].
Qed.

(** C7. For a table whose index is [atom_index] (after the column of that
    name, if any, became the index) and a unit map that is [None] or a
    dict: if no property has all its columns in the table, the call raises
    the "No data was added" exception and changes nothing. If some
    property has, the call returns [True], whatever other columns the
    table has, provided each unit that is given for a matched property and
    used (the data is passed by value and the catalog has units for the
    property) converts to the unit of the catalog; and a property that
    does not have all its columns in the table is left as it was in the
    index: the columns that are there for it play no part. *)
Theorem add_atoms_matches df by_value utype dl :
  let atom_df := indexed_frame df in
  let set_cols : gset string := list_to_set (df_columns atom_df) in
  df_index_name atom_df = Some index →
  utype ≠ UtOther →
  (Forall (λ kv, columns_present kv.2 set_cols = false) APC_DICT →
     add_atoms (AtomFrame df) by_value utype dl
       = (Raise (Exception_ (msg_no_key_matched (df_columns atom_df))), dl))
  ∧ (Exists (λ kv, columns_present kv.2 set_cols = true) APC_DICT →
     (by_value = true →
      ∀ k v fd u, (k, v) ∈ APC_DICT → columns_present v set_cols = true →
        atom_metadata !! k = Some fd → is_Some (fd_units fd) →
        unit_given utype k = Some u →
        ∃ s, conversion_factor u (fd_utype fd) = Ok s) →
     ∃ dl', add_atoms (AtomFrame df) by_value utype dl = (Ok true, dl')
            ∧ ∀ q, (∀ v, (q, v) ∈ APC_DICT → columns_present v set_cols = false) →
                   _atom_metadata dl' !! q = _atom_metadata dl !! q).
Proof.
  intros atom_df set_cols Hindex Hutype.
  assert (∃ u, normalise_utype utype = ret u
               ∧ ∀ k, PyDict.get k u = unit_given utype k) as (u & Hu & Hget).
  { destruct utype; [by eexists | by eexists | done]. }
  assert (add_atoms (AtomFrame df) by_value utype dl
            = bind (add_atoms_loop APC_DICT atom_df set_cols by_value u false)
                (λ found_one,
                   bind (raise_if (negb found_one)
                           (Exception_ (msg_no_key_matched (df_columns atom_df))))
                     (λ _, ret true)) dl) as Hrun.
  { unfold add_atoms. unfold bind at 1. unfold ret at 1.
    fold (indexed_frame df). fold atom_df.
    rewrite bind_raise_if_false by (by rewrite bool_decide_eq_true_2).
    rewrite Hu. done. }
  rewrite Hrun. clear Hrun. split.
  - intros Hnone.
    by rewrite (bind_Ok _ _ _ _ _ (add_atoms_loop_no_match _ _ _ _ _ _ _ Hnone)).
  - intros Hsome Hconv.
    destruct (add_atoms_loop_match APC_DICT atom_df set_cols by_value u false dl)
      as [dl' Hloop].
    { intros k v dl1 Hin Hv.
      destruct (APC_catalog k v Hin) as (fd & Hfd & Hreq).
      apply (_store_atom_table_succeeds k v fd); try done.
      - intros c Hc. unfold columns_present in Hv.
        apply bool_decide_eq_true_1 in Hv.
        apply (elem_of_list_to_set (C:=gset string)). apply Hv.
        by apply elem_of_list_to_set.
      - intros Hby Hunits unit Hunit. apply (Hconv Hby k v fd unit); try done.
        by rewrite <- Hget. }
    rewrite (bind_Ok _ _ _ _ _ Hloop). exists dl'.
    assert (existsb (λ kv, columns_present kv.2 set_cols) APC_DICT = true) as ->.
    { apply existsb_exists. apply Exists_exists in Hsome as (kv & Hin & Hkv).
      exists kv. split; [by apply list_elem_of_In | done]. }
    split; [done|]. intros q Hq.
    by apply (add_atoms_loop_frame q (_atom_metadata dl !! q) _ _ _ _ _ _ Hq
                dl _ dl' eq_refl Hloop).
Qed.

End StoreAtoms.

End DataLayer.

(** * A reference implementation of the collaborators

    Small executable stand-ins for NumPy, pandas, [filelayer], [units] and
    [metadata], on which the definitions above run. They serve to evaluate
    the data layer on concrete inputs; no theorem above depends on them. *)

Module Ref.

(** Opaque objects: a string, a list of names, or a dict of strings. *)
Inductive pyobj : Type :=
  | PyStr (s : string)
  | PyList (l : list string)
  | PyMap (d : list (string * string)).

(** [np.isclose(a, b)] with the default [rtol=1e-05] and [atol=1e-08], over
    the rationals: [|a - b| <= atol + rtol * |b|]. *)
Definition isclose (a b : Q) : bool :=
  Qle_bool (Qabs (a - b)) ((1 # 100000000) + (1 # 100000) * Qabs b).

Fixpoint all_isclose (a b : list Q) : bool :=
  match a, b with
  | x :: a', y :: b' => isclose x y && all_isclose a' b'
  | _, _ => true
  end.

(** [np.allclose(a, b)] on two vectors: at every position when the
    lengths agree; a vector of length one is broadcast against the other;
    any other pair of lengths is the [ValueError] "operands could not be
    broadcast together". *)
Definition allclose (a b : list Q) : Result bool :=
  if bool_decide (length a = length b) then Ok (all_isclose a b)
  else
    match a, b with
    | [x], _ => Ok (forallb (λ y, isclose x y) b)
    | _, [y] => Ok (forallb (λ x, isclose x y) a)
    | _, _ => Raise (ValueError "operands could not be broadcast together")
    end.

(** Modelled from the spec: [metadata.sanitize_term_order_name] is not in
    the sources; the names are those [add_bonds], [add_angles] and
    [add_dihedrals] pass, an integer is returned as it is. *)
Definition sanitize_term_order_name (order : py_order) : Result py_order :=
  match order with
  | OInt z => Ok (OInt z)
  | OStr s =>
      if bool_decide (lower s = "bonds") then Ok (OInt 2)
      else if bool_decide (lower s = "angles") then Ok (OInt 3)
      else if bool_decide (lower s = "dihedrals") then Ok (OInt 4)
      else Ok (OStr s)
  end.

(** The form of the docstring of [register_functional_forms]. *)
Definition harmonic : gmap string pyobj :=
  list_to_map
    [("form", PyStr "K*(r-R0) ** 2");
     ("parameters", PyList ["K"; "R0"]);
     ("units", PyMap [("K", "kcal * mol ** 2"); ("R0", "picometers")]);
     ("description", PyStr "This is a harmonic bond")].

(** Modelled from the spec: the built-in catalog of [metadata] is not in
    the sources; this one has the harmonic bond of order 2 only. *)
Definition get_term_metadata_forms (order : py_order) (name : string)
    : Result (gmap string pyobj) :=
  match order with
  | OInt 2 => if bool_decide (name = "harmonic") then Ok harmonic
              else Raise (KeyError name)
  | _ => Raise (KeyError name)
  end.

(** Modelled from the spec: "a structural validator checks the registered
    form's shape (parameter name list, units keys)". *)
Definition validate_functional_form_dict (name : string)
    (form : gmap string pyobj) : Result bool :=
  match form !! "parameters", form !! "units" with
  | Some (PyList ps), Some (PyMap us) =>
      Ok (bool_decide (us.*1 ⊆ ps))
  | Some (PyList _), Some _ => Raise (TypeError "units")
  | Some (PyList _), None => Raise (KeyError "units")
  | Some _, _ => Raise (TypeError "parameters")
  | None, _ => Raise (KeyError "parameters")
  end.

(** Modelled from the spec: "validate [parameter_values] against the
    registered form's expected parameter count/names (list/tuple
    positional, or named-mapping form); produces an ordered numeric
    parameter vector". *)
Definition validate_term_dict (name : string) (form : gmap string pyobj)
    (parameters : @term_params Q) : Result (list Q) :=
  match form !! "parameters" with
  | Some (PyList ps) =>
      match parameters with
      | TPList l =>
          if bool_decide (length l = length ps) then Ok l
          else Raise (ValueError "wrong number of parameters")
      | TPDict d =>
          match mapM (λ p, PyDict.get p d) ps with
          | Some l => Ok l
          | None => Raise (KeyError "missing parameter")
          end
      end
  | _ => Raise (KeyError "parameters")
  end.

(** *** Tables

    A table has a named index, column names and one row of integers per
    index label. Values, ids and indexed keys are all integers here. *)

Record Frame : Type := mk_Frame {
  fr_index_name : option string;
  fr_columns : list string;
  fr_rows : list (Z * list Z)        (* label, cells in column order *)
}.

Definition FrameIndex : Type := option string * list Z.

Definition cell_value (c : @cell Z) : Z :=
  match c with
  | CInt z => z
  | CZero => 0
  | CKey k => k
  end.

(** Position of a column. *)
Fixpoint col_pos (c : string) (cols : list string) : option nat :=
  match cols with
  | [] => None
  | c' :: cols' => if bool_decide (c' = c) then Some 0%nat
                   else S <$> col_pos c cols'
  end.

Definition row_get (c : string) (fr : Frame) (row : Z * list Z) : Z :=
  default 0 (pos ← col_pos c (fr_columns fr); row.2 !! pos).

Definition df_columns (fr : Frame) : list string := fr_columns fr.
Definition df_index_name (fr : Frame) : option string := fr_index_name fr.
Definition df_index (fr : Frame) : FrameIndex :=
  (fr_index_name fr, (fr_rows fr).*1).

(** [df[cols]]: a missing column is a [KeyError]. *)
Definition df_getitem (fr : Frame) (cols : list string) : Result Frame :=
  if bool_decide (cols ⊆ fr_columns fr) then
    Ok (mk_Frame (fr_index_name fr) cols
          ((λ row : Z * list Z, (row.1, (λ c, row_get c fr row) <$> cols)) <$> fr_rows fr))
  else Raise (KeyError "not in index").

(** [df.set_index(c, drop=True)]. *)
Definition df_set_index (fr : Frame) (c : string) : Frame :=
  let rest := filter (λ c', c' ≠ c) (fr_columns fr) in
  mk_Frame (Some c) rest
    ((λ row : Z * list Z, (row_get c fr row, (λ c', row_get c' fr row) <$> rest)) <$> fr_rows fr).

Definition df_mul (fr : Frame) (scale : Z) : Result Frame :=
  Ok (mk_Frame (fr_index_name fr) (fr_columns fr)
        ((λ row : Z * list Z, (row.1, (λ x, x * scale) <$> row.2)) <$> fr_rows fr)).

(** Integers are their own rounding. *)
Definition df_round (fr : Frame) (tol : pyobj) : Result Frame := Ok fr.

Definition pd_DataFrame (idx : FrameIndex) : Frame :=
  mk_Frame idx.1 [] ((λ l, (l, [])) <$> idx.2).

(** [df[c] = v] and [df.loc[labels, c] = v]. *)
Definition set_cell (fr : Frame) (c : string) (v : Z) (row : Z * list Z) : Z * list Z :=
  match col_pos c (fr_columns fr) with
  | Some pos => (row.1, <[pos := v]> row.2)
  | None => (row.1, row.2 ++ [v])
  end.

Definition with_column (fr : Frame) (c : string) : list string :=
  if bool_decide (c ∈ fr_columns fr) then fr_columns fr else fr_columns fr ++ [c].

Definition df_setitem (fr : Frame) (c : string) (v : @cell Z) : Frame :=
  mk_Frame (fr_index_name fr) (with_column fr c)
    (set_cell fr c (cell_value v) <$> fr_rows fr).

Definition df_loc_setitem (fr : Frame) (idx : FrameIndex) (c : string)
    (v : @cell Z) : Result Frame :=
  if bool_decide (c ∈ fr_columns fr) then
    Ok (mk_Frame (fr_index_name fr) (fr_columns fr)
          ((λ row : Z * list Z, if bool_decide (row.1 ∈ idx.2)
                   then set_cell fr c (cell_value v) row else row) <$> fr_rows fr))
  else Raise (KeyError c).

(** [df.groupby([c])]: the distinct values of the column in increasing
    order, each with its rows. Only one grouping column is supported. *)
Definition groupby (fr : Frame) (cols : list string) : Result (list (Z * Frame)) :=
  match cols with
  | [c] =>
      if bool_decide (c ∈ fr_columns fr) then
        let keys := merge_sort Z.le (remove_dups ((row_get c fr) <$> fr_rows fr)) in
        Ok ((λ k, (k, mk_Frame (fr_index_name fr) (fr_columns fr)
                        (filter (λ row : Z * list Z, row_get c fr row = k) (fr_rows fr)))) <$> keys)
      else Raise (KeyError c)
  | _ => Raise (ValueError "one grouping column only")
  end.

Definition df_imul (fr : Frame) (cols : list string) (scale : Z) : Result Frame :=
  if bool_decide (cols ⊆ fr_columns fr) then
    Ok (mk_Frame (fr_index_name fr) (fr_columns fr)
          ((λ row : Z * list Z, (row.1,
                    (λ c, if bool_decide (c ∈ cols) then row_get c fr row * scale
                          else row_get c fr row) <$> fr_columns fr)) <$> fr_rows fr))
  else Raise (KeyError "not in index").

(** [pd.concat(frames, axis=1)] for frames over the same index. *)
Definition concat2 (a b : Frame) : Frame :=
  mk_Frame (fr_index_name a) (fr_columns a ++ fr_columns b)
    ((λ row : Z * list Z, (row.1, row.2 ++ default [] (PyDict.get row.1 (fr_rows b)))) <$> fr_rows a).

Definition pd_concat (frames : list Frame) : Result Frame :=
  match frames with
  | [] => Raise (ValueError "No objects to concatenate")
  | fr :: frames' => Ok (foldl concat2 fr frames')
  end.

(** *** The memory store and the units *)

Definition MemoryStore : Type := PyDict.t string Frame.

Definition store_add_table (st : MemoryStore) (name : string) (fr : Frame)
    : Result () * MemoryStore :=
  (Ok (), PyDict.set name fr st).

Definition store_read_table (st : MemoryStore) (name : string)
    : Result Frame * MemoryStore :=
  match PyDict.get name st with
  | Some fr => (Ok fr, st)
  | None => (Raise (KeyError name), st)
  end.

(** Units are names; equal units convert with factor 1. *)
Definition conversion_factor (u1 u2 : pyobj) : Result Z :=
  match u1, u2 with
  | PyStr a, PyStr b =>
      if bool_decide (a = b) then Ok 1 else Raise (ValueError "incompatible units")
  | _, _ => Raise (TypeError "unit")
  end.

(** Modelled from the spec: the atom catalog of [metadata] is not in the
    sources; these are the properties the callers in the sources request
    ([get_atoms] in [lammps_write.py] and the tests), mass and charge
    being indexed by value. *)
Definition field (cols : list string) (uniq : bool) : @field_data pyobj :=
  mk_field_data cols false (PyStr "8") uniq None (PyStr "").

(** The charge has a unit, the elementary charge. *)
Definition charge_field : @field_data pyobj :=
  mk_field_data ["charge"] false (PyStr "8") false (Some (PyStr "e")) (PyStr "e").

Definition atom_metadata : gmap string (@field_data pyobj) :=
  list_to_map
    [("molecule_index", field ["molecule_index"] true);
     ("atom_type", field ["atom_type"] true);
     ("charge", charge_field);
     ("xyz", field ["X"; "Y"; "Z"] true);
     ("mass", field ["mass"] false)].

Definition APC_DICT : PyDict.t string (list string) :=
  [("molecule_index", ["molecule_index"]);
   ("atom_type", ["atom_type"]);
   ("charge", ["charge"]);
   ("xyz", ["X"; "Y"; "Z"]);
   ("mass", ["mass"])].

(** *** The data layer on these collaborators *)

Definition DL : Type := @DataLayer pyobj Q Z _ _ MemoryStore.

Definition new : DL := init [].

Definition register_functional_forms :=
  @register_functional_forms pyobj Q Z _ _ MemoryStore
    sanitize_term_order_name get_term_metadata_forms validate_functional_form_dict.

Definition add_parameters :=
  @add_parameters pyobj Q allclose Z _ _ MemoryStore
    sanitize_term_order_name validate_term_dict.

Definition add_atoms :=
  @add_atoms pyobj Q Z _ _ Frame MemoryStore atom_metadata APC_DICT
    Z conversion_factor FrameIndex df_columns df_set_index df_index_name df_index
    df_getitem df_mul df_round pd_DataFrame df_setitem df_loc_setitem groupby
    store_add_table.

Definition get_atoms :=
  @get_atoms pyobj Q Z _ _ Frame MemoryStore atom_metadata APC_DICT
    Z conversion_factor FrameIndex df_index pd_DataFrame df_setitem df_loc_setitem
    groupby df_imul pd_concat store_read_table.

(** The state after a method, whatever it returned. *)
Definition after {A} (m : M A) (dl : DL) : DL := (m dl).2.

(** *** States used in the examples *)

Definition units : pyobj :=
  PyMap [("K", "(kcal / mol) / angstrom ** 2"); ("R0", "picometers")].

Definition harmonic_with_units : gmap string pyobj := <["units" := units]> harmonic.

Definition registered_forms : gmap string (gmap string pyobj) :=
  {[ "harmonic" := harmonic_with_units ]}.

(** After [dl.register_functional_forms(2, "harmonic", utype=units)]. *)
Definition registered : DL :=
  after (register_functional_forms (OInt 2) "harmonic" None (Some units)) new.

(** ... then [dl.add_parameters(2, "harmonic", [4.0, 5.0])]. *)
Definition one_term : DL :=
  after (add_parameters (OInt 2) "harmonic" (TPList [4%Q; 5%Q]) None None) registered.

(** ... then [dl.add_parameters(2, "harmonic", [4.0, 6.0], uid=2)]. *)
Definition two_terms : DL :=
  after (add_parameters (OInt 2) "harmonic" (TPList [4%Q; 6%Q])
           (Some (UidInt 2)) None) one_term.

Definition two_terms_entries : PyDict.t Z (@term_entry Q) :=
  [(0, ("harmonic", [4%Q; 5%Q])); (2, ("harmonic", [4%Q; 6%Q]))].

(** A form with three parameters, registered under the name [harmonic]
    by hand; one term is added, then the name is registered again from
    the catalog, with two parameters. *)
Definition harmonic3 : gmap string pyobj :=
  <["parameters" := PyList ["K"; "R0"; "R1"]]> harmonic.

Definition rearranged : DL :=
  after (register_functional_forms (OInt 2) "harmonic" None (Some units))
    (after (add_parameters (OInt 2) "harmonic" (TPList [1%Q; 2%Q; 3%Q]) None None)
       (after (register_functional_forms (OInt 2) "harmonic" (Some harmonic3) None)
          new)).

(** After [dl.register_functional_forms(2, "custom_harmonic", form=harmonic)]. *)
Definition custom : DL :=
  after (register_functional_forms (OInt 2) "custom_harmonic" (Some harmonic) None) new.

Definition other_units : pyobj :=
  PyMap [("K", "(kJ / mol) / nm ** 2"); ("R0", "nm")].

(** Three atoms with their masses and a column no property knows. *)
Definition atoms : Frame :=
  mk_Frame None ["atom_index"; "mass"; "junk"]
    [(0, [10; 16; 7]); (1, [11; 1; 7]); (2, [12; 1; 7])].

(** Two atoms with their charges and masses and a column no property
    knows. *)
Definition charged_atoms : Frame :=
  mk_Frame None ["atom_index"; "charge"; "junk"; "mass"]
    [(0, [10; -1; 7; 16]); (1, [11; 1; 7; 1])].

Definition junk_atoms : Frame :=
  mk_Frame None ["atom_index"; "junk"] [(0, [10; 7])].

(** After [dl.add_atoms(atoms, by_value=True)]. *)
Definition with_masses : DL :=
  after (add_atoms (AtomFrame atoms) true UtNone) new.

(** The index of the masses: 1 has id 0 and 16 has id 1. *)
Definition mass_index : @param_dict Z _ _ :=
  mk_param_dict 1 (<[16 := 1]> {[ 1 := 0 ]}) (<[1 := 16]> {[ 0 := 1 ]}).

(** Modelled from the spec: the index columns of an order are not in the
    sources; [lammps_write.py] reads them as [atom1 .. atomN]. *)
Definition get_term_metadata_index_columns (order : py_order) : Result (list string) :=
  match order with
  | OInt z =>
      if bool_decide (2 ≤ z ≤ 7) then Ok ((λ d, "atom" +:+ pretty d) <$> seqZ 1 z)
      else Raise (KeyError (pretty z))
  | OStr s => Raise (KeyError s)
  end.

Definition store_list_tables (st : MemoryStore) : Result (list string) * MemoryStore :=
  (Ok (PyDict.keys st), st).

Definition add_bonds :=
  @add_bonds pyobj Q Z _ _ Frame MemoryStore sanitize_term_order_name df_columns
    df_getitem store_add_table get_term_metadata_index_columns.

Definition get_bonds :=
  @get_bonds pyobj Q Z _ _ Frame MemoryStore sanitize_term_order_name store_read_table.

Definition add_terms :=
  @add_terms pyobj Q Z _ _ Frame MemoryStore sanitize_term_order_name df_columns
    df_getitem store_add_table get_term_metadata_index_columns.

Definition read_terms :=
  @read_terms pyobj Q Z _ _ Frame MemoryStore sanitize_term_order_name store_read_table.

Definition add_other :=
  @add_other pyobj Q Z _ _ Frame MemoryStore store_add_table.

Definition get_other :=
  @get_other pyobj Q Z _ _ Frame MemoryStore pd_concat store_read_table.

Definition list_tables :=
  @list_tables pyobj Q Z _ _ MemoryStore store_list_tables.

Definition list_other_tables :=
  @list_other_tables pyobj Q Z _ _ MemoryStore store_list_tables.

(** Two bonds, with a column the bond table does not keep. *)
Definition bonds : Frame :=
  mk_Frame None ["term_index"; "atom1"; "extra"; "atom2"]
    [(0, [1; 10; 99; 11]); (1, [1; 10; 99; 12])].

Definition bonds_cut : Frame :=
  mk_Frame None ["atom1"; "atom2"; "term_index"]
    [(0, [10; 11; 1]); (1, [10; 12; 1])].

Definition no_term_index : Frame :=
  mk_Frame None ["atom1"; "atom2"] [(0, [10; 11])].

Definition one_atom : Frame := mk_Frame None ["atom1"] [(0, [10])].

Definition notes : Frame := mk_Frame None ["note"] [(0, [42])].

(** After [dl.add_bonds(bonds)], and after [dl.add_other("other_box", notes)]
    on top of the masses. *)
Definition with_bonds : DL := after (add_bonds bonds) new.

Definition with_notes : DL := after (add_other "other_box" notes) with_masses.

(** Two more atoms, one with a mass not seen before. *)
Definition more_atoms : Frame :=
  mk_Frame None ["atom_index"; "mass"] [(3, [13; 12]); (4, [14; 1])].

Definition with_more_masses : DL :=
  after (add_atoms (AtomFrame more_atoms) true UtNone) with_masses.

(** A table that is not indexed by [atom_index]. *)
Definition unindexed : Frame := mk_Frame (Some "row") ["mass"] [(0, [16])].

(** Two stored entries, [4, 5] under 0 and [4, 5.00004] under 1, both
    close to [4, 5.00002]: the call returns 0. *)
Definition near_terms : DL :=
  after (add_parameters (OInt 2) "harmonic" (TPList [4%Q; 500004 # 100000])
           (Some (UidInt 1)) None) one_term.

End Ref.

(** * Worked examples *)

Ltac by_computation := reflexivity.

(** Three calls in a row with the same parameters: the second and the
    third both return uid 0, and the order has one entry before the second
    call and one entry after the third. *)
Lemma add_parameters_twice_count_unchanged :
  (length <$> _terms Ref.one_term !! 2) = Some 1%nat
  ∧ (Ref.add_parameters (OInt 2) "harmonic" (TPList [4%Q; 5%Q]) None None
       Ref.one_term).1 = Ok 0
  ∧ (Ref.add_parameters (OInt 2) "harmonic" (TPList [4%Q; 5%Q]) None None
       (Ref.after (Ref.add_parameters (OInt 2) "harmonic" (TPList [4%Q; 5%Q])
                     None None) Ref.one_term)).1 = Ok 0
  ∧ (length <$> _terms
       (Ref.after (Ref.add_parameters (OInt 2) "harmonic" (TPList [4%Q; 5%Q]) None None)
          (Ref.after (Ref.add_parameters (OInt 2) "harmonic" (TPList [4%Q; 5%Q])
                        None None) Ref.one_term)) !! 2) = Some 1%nat.
Proof. repeat split; reflexivity. Qed.

Lemma add_parameters_twice_witness :
  Ref.sanitize_term_order_name (OInt 2) = Ok (OInt 2)
  ∧ _functional_forms Ref.two_terms !! 2 = Some Ref.registered_forms
  ∧ Ref.registered_forms !! "harmonic" = Some Ref.harmonic_with_units
  ∧ truthy (None : option (list Ref.pyobj)) = false
  ∧ Ref.validate_term_dict "harmonic" Ref.harmonic_with_units (TPList [7%Q; 8%Q])
    = Ok [7%Q; 8%Q]
  ∧ _terms Ref.two_terms !! 2 = Some Ref.two_terms_entries
  ∧ Ref.allclose [7%Q; 8%Q] [7%Q; 8%Q] = Ok true
  ∧ find_key Ref.allclose "harmonic" [7%Q; 8%Q] Ref.two_terms_entries = Ok None
  ∧ ∃ uid dl1 terms1,
      Ref.add_parameters (OInt 2) "harmonic" (TPList [7%Q; 8%Q]) None None
        Ref.two_terms = (Ok uid, dl1)
      ∧ Ref.add_parameters (OInt 2) "harmonic" (TPList [7%Q; 8%Q]) None None
          dl1 = (Ok uid, dl1)
      ∧ _terms dl1 !! 2 = Some terms1
      ∧ (Forall (λ kv, entry_matches Ref.allclose "harmonic" [7%Q; 8%Q] kv.2 = Ok false)
           Ref.two_terms_entries → length terms1 = 3%nat)
      ∧ (Exists (λ kv, entry_matches Ref.allclose "harmonic" [7%Q; 8%Q] kv.2 = Ok true)
           Ref.two_terms_entries → length terms1 = 2%nat).
Proof.
  split; [reflexivity|]. split; [reflexivity|].
  split; [reflexivity|]. split; [reflexivity|].
  split; [reflexivity|]. split; [reflexivity|].
  split; [reflexivity|]. split; [reflexivity|].
  apply (add_parameters_twice Ref.allclose Ref.sanitize_term_order_name
           Ref.validate_term_dict (OInt 2) 2 "harmonic" (TPList [7%Q; 8%Q]) None
           Ref.two_terms Ref.registered_forms Ref.harmonic_with_units
           [7%Q; 8%Q] Ref.two_terms_entries None);
    reflexivity.
Defined.

Lemma add_parameters_auto_uid_witness :
  Ref.sanitize_term_order_name (OInt 2) = Ok (OInt 2)
  ∧ _functional_forms Ref.two_terms !! 2 = Some Ref.registered_forms
  ∧ Ref.registered_forms !! "harmonic" = Some Ref.harmonic_with_units
  ∧ truthy (None : option (list Ref.pyobj)) = false
  ∧ Ref.validate_term_dict "harmonic" Ref.harmonic_with_units (TPList [7%Q; 8%Q])
    = Ok [7%Q; 8%Q]
  ∧ _terms Ref.two_terms !! 2 = Some Ref.two_terms_entries
  ∧ Forall (λ kv, entry_matches Ref.allclose "harmonic" [7%Q; 8%Q] kv.2 = Ok false)
      Ref.two_terms_entries
  ∧ (Ref.add_parameters (OInt 2) "harmonic" (TPList [7%Q; 8%Q]) None None
       Ref.two_terms).1 = Ok 1
  ∧ ∃ uid,
      Ref.add_parameters (OInt 2) "harmonic" (TPList [7%Q; 8%Q]) None None
        Ref.two_terms
      = (Ok uid, with_term 2 "harmonic" Ref.two_terms [7%Q; 8%Q]
                   Ref.two_terms_entries uid)
      ∧ (0 ≤ uid) ∧ (uid ∉ PyDict.keys Ref.two_terms_entries)
      ∧ (∀ j, 0 ≤ j < uid → j ∈ PyDict.keys Ref.two_terms_entries).
Proof.
  assert (Forall (λ kv, entry_matches Ref.allclose "harmonic" [7%Q; 8%Q] kv.2 = Ok false)
            Ref.two_terms_entries) as Hnew
    by (repeat constructor).
  split; [reflexivity|]. split; [by_computation|]. split; [by_computation|].
  split; [reflexivity|]. split; [by_computation|]. split; [by_computation|].
  split; [exact Hnew|]. split; [by_computation|].
  apply (add_parameters_auto_uid_smallest_unused Ref.allclose
           Ref.sanitize_term_order_name Ref.validate_term_dict
           (OInt 2) 2 "harmonic" (TPList [7%Q; 8%Q]) None Ref.two_terms
           Ref.registered_forms Ref.harmonic_with_units [7%Q; 8%Q]
           Ref.two_terms_entries);
    first [exact Hnew | by_computation].
Defined.

Lemma add_parameters_explicit_uid_witness :
  Ref.sanitize_term_order_name (OInt 2) = Ok (OInt 2)
  ∧ _functional_forms Ref.two_terms !! 2 = Some Ref.registered_forms
  ∧ Ref.registered_forms !! "harmonic" = Some Ref.harmonic_with_units
  ∧ truthy (None : option (list Ref.pyobj)) = false
  ∧ Ref.validate_term_dict "harmonic" Ref.harmonic_with_units (TPList [4%Q; 5%Q])
    = Ok [4%Q; 5%Q]
  ∧ _terms Ref.two_terms !! 2 = Some Ref.two_terms_entries
  (* the search ends at uid 0 *)
  ∧ find_key Ref.allclose "harmonic" [4%Q; 5%Q] Ref.two_terms_entries = Ok (Some 0)
  (* uid 5 is free: stored, although uid 0 holds the same parameters *)
  ∧ Ref.add_parameters (OInt 2) "harmonic" (TPList [4%Q; 5%Q]) (Some (UidInt 5)) None
      Ref.two_terms
    = (Ok 5, with_term 2 "harmonic" Ref.two_terms [4%Q; 5%Q] Ref.two_terms_entries 5)
  (* uid 2 holds other parameters *)
  ∧ Ref.add_parameters (OInt 2) "harmonic" (TPList [4%Q; 5%Q]) (Some (UidInt 2)) None
      Ref.two_terms
    = (Raise (KeyError msg_uid_conflict), Ref.two_terms)
  (* uid 0 holds these parameters *)
  ∧ Ref.add_parameters (OInt 2) "harmonic" (TPList [4%Q; 5%Q]) (Some (UidInt 0)) None
      Ref.two_terms
    = (Ok 0, Ref.two_terms).
Proof.
  pose proof (λ uid, add_parameters_explicit_uid Ref.allclose
           Ref.sanitize_term_order_name Ref.validate_term_dict
           (OInt 2) 2 "harmonic" (TPList [4%Q; 5%Q]) None Ref.two_terms
           Ref.registered_forms Ref.harmonic_with_units [4%Q; 5%Q]
           Ref.two_terms_entries (Some 0) uid
           eq_refl eq_refl eq_refl eq_refl eq_refl eq_refl eq_refl) as Hthm.
  split; [reflexivity|]. split; [by_computation|]. split; [by_computation|].
  split; [reflexivity|]. split; [by_computation|]. split; [by_computation|].
  split; [by_computation|].
  split; [|split].
  - apply (Hthm 5). apply (bool_decide_unpack _). by_computation.
  - apply (Hthm 2) with (old := ("harmonic", [4%Q; 6%Q])); [by_computation|].
    right. by_computation.
  - apply (Hthm 0) with (old := ("harmonic", [4%Q; 5%Q])); [by_computation|].
    split; by_computation.
Defined.

(** A form name registered first with three parameters, used once, and
    then registered again from the catalog with two: the stored entry has
    another length than any new parameter vector, [np.allclose] raises on
    it, and [add_parameters] raises with or without a uid. *)
Lemma add_parameters_after_arity_change :
  _terms Ref.rearranged !! 2 = Some [(0, ("harmonic", [1%Q; 2%Q; 3%Q]))]
  ∧ Ref.validate_term_dict "harmonic" Ref.harmonic_with_units (TPList [4%Q; 5%Q])
    = Ok [4%Q; 5%Q]
  ∧ Ref.add_parameters (OInt 2) "harmonic" (TPList [4%Q; 5%Q]) None None
      Ref.rearranged
    = (Raise (ValueError "operands could not be broadcast together"), Ref.rearranged)
  ∧ Ref.add_parameters (OInt 2) "harmonic" (TPList [4%Q; 5%Q]) (Some (UidInt 7)) None
      Ref.rearranged
    = (Raise (ValueError "operands could not be broadcast together"), Ref.rearranged).
Proof. repeat split; reflexivity. Qed.

Lemma add_parameters_units_witness :
  Ref.sanitize_term_order_name (OStr "bonds") = Ok (OInt 2)
  ∧ _functional_forms Ref.registered !! 2 = Some Ref.registered_forms
  ∧ Ref.registered_forms !! "harmonic" = Some Ref.harmonic_with_units
  ∧ truthy (Some [Ref.PyStr "kcal / mol"]) = true
  ∧ Ref.add_parameters (OStr "bonds") "harmonic" (TPList [4%Q; 5%Q]) None
      (Some [Ref.PyStr "kcal / mol"]) Ref.registered
    = (Raise (TypeError msg_units_nyi), Ref.registered).
Proof.
  split; [by_computation|]. split; [by_computation|]. split; [by_computation|].
  split; [reflexivity|].
  apply (add_parameters_units_not_supported Ref.allclose
           Ref.sanitize_term_order_name Ref.validate_term_dict
           (OStr "bonds") 2 "harmonic" (TPList [4%Q; 5%Q]) None
           (Some [Ref.PyStr "kcal / mol"]) Ref.registered
           Ref.registered_forms Ref.harmonic_with_units);
    by_computation.
Defined.

(** A name registered with an explicit form and not in the built-in
    catalog: registering it again through the built-in path raises, and
    the registration is not replaced. *)
Lemma register_builtin_over_custom_raises :
  (∃ forms, _functional_forms Ref.custom !! 2 = Some forms
            ∧ forms !! "custom_harmonic" = Some Ref.harmonic)
  ∧ Ref.register_functional_forms (OInt 2) "custom_harmonic" None (Some Ref.units)
      Ref.custom
    = (Raise (KeyError (msg_no_builtin (OInt 2) "custom_harmonic")), Ref.custom).
Proof. split; [eexists; split; reflexivity | reflexivity]. Qed.

Lemma register_functional_forms_again_witness :
  Ref.sanitize_term_order_name (OInt 2) = Ok (OInt 2)
  ∧ _functional_forms Ref.registered !! 2 = Some Ref.registered_forms
  ∧ is_Some (Ref.registered_forms !! "harmonic")
  (* an explicit form under the registered name *)
  ∧ Ref.register_functional_forms (OInt 2) "harmonic" (Some Ref.harmonic) None
      Ref.registered
    = (Raise (KeyError (msg_already_registered "harmonic")), Ref.registered)
  (* the built-in form again, with other units *)
  ∧ Ref.get_term_metadata_forms (OInt 2) "harmonic" = Ok Ref.harmonic
  ∧ Ref.validate_functional_form_dict "harmonic"
      (<["units" := Ref.other_units]> Ref.harmonic) = Ok true
  ∧ Ref.register_functional_forms (OInt 2) "harmonic" None (Some Ref.other_units)
      Ref.registered
    = (Ok (),
       set_functional_forms
         (<[2 := <["harmonic" := <["units" := Ref.other_units]> Ref.harmonic]>
                   Ref.registered_forms]>
            (_functional_forms Ref.registered)) Ref.registered)
  (* a registered name the catalog does not have *)
  ∧ _functional_forms Ref.custom !! 2 = Some {[ "custom_harmonic" := Ref.harmonic ]}
  ∧ Ref.get_term_metadata_forms (OInt 2) "custom_harmonic"
    = Raise (KeyError "custom_harmonic")
  ∧ Ref.register_functional_forms (OInt 2) "custom_harmonic" None
      (Some Ref.other_units) Ref.custom
    = (Raise (KeyError (msg_no_builtin (OInt 2) "custom_harmonic")), Ref.custom).
Proof.
  pose proof (register_functional_forms_again Ref.sanitize_term_order_name
                Ref.get_term_metadata_forms Ref.validate_functional_form_dict
                (OInt 2) 2 "harmonic" Ref.registered Ref.registered_forms
                eq_refl eq_refl) as (Hexplicit & Hbuiltin & _).
  pose proof (register_functional_forms_again Ref.sanitize_term_order_name
                Ref.get_term_metadata_forms Ref.validate_functional_form_dict
                (OInt 2) 2 "custom_harmonic" Ref.custom
                {[ "custom_harmonic" := Ref.harmonic ]}
                eq_refl eq_refl) as (_ & _ & Hmissing).
  split; [reflexivity|]. split; [reflexivity|]. split; [by eexists|].
  split; [apply Hexplicit; by eexists|].
  split; [reflexivity|]. split; [reflexivity|].
  split; [apply Hbuiltin; reflexivity|].
  split; [reflexivity|]. split; [reflexivity|].
  eapply Hmissing. reflexivity.
Defined.

Lemma with_masses_indexed : dl_indexed Ref.with_masses.
Proof.
  eapply add_atoms_keeps_indexed; [apply (init_indexed [])|].
  apply surjective_pairing.
Qed.

Lemma unique_index_witness :
  dl_indexed Ref.with_masses
  ∧ _atom_metadata Ref.with_masses !! "mass" = Some Ref.mass_index
  ∧ uvals Ref.mass_index !! 16 = Some 1
  ∧ inv_uvals Ref.mass_index !! 1 = Some 16
  ∧ find_unique_loop Ref.df_index Ref.df_loc_setitem "mass"
      [(16, Ref.atoms)] Ref.atoms Ref.with_masses
    = (Ref.df_loc_setitem Ref.atoms (Ref.df_index Ref.atoms) "mass" (CInt 1),
       Ref.with_masses).
Proof.
  split; [apply with_masses_indexed|]. split; [reflexivity|]. split; [reflexivity|].
  apply (unique_index_inverse_and_stable Ref.df_index Ref.df_loc_setitem
           "mass" Ref.mass_index 16 1 Ref.atoms Ref.atoms Ref.with_masses);
    [apply with_masses_indexed | reflexivity | reflexivity].
Defined.

Lemma mass_index_indexed : indexed Ref.mass_index.
Proof.
  change Ref.mass_index
    with (update_param_dict 16 (update_param_dict 1 new_param_dict)).
  repeat constructor.
Qed.

Lemma unique_index_ids_witness :
  Ref.atom_metadata !! "mass" = Some (Ref.field ["mass"] false)
  (* no mass was ever indexed: the first one gets id 0 *)
  ∧ _atom_metadata Ref.new !! "mass" = None
  ∧ (∀ r dl',
       find_unique_loop Ref.df_index Ref.df_loc_setitem "mass"
         [(16, Ref.atoms); (1, Ref.atoms)] Ref.atoms
         (set_atom_metadata (<["mass" := new_param_dict]> (_atom_metadata Ref.new))
            Ref.new) = (r, dl') →
       ∃ pd', _atom_metadata dl' !! "mass" = Some pd' ∧ uvals pd' !! 16 = Some 0)
  (* the masses 1 and 16 have the ids 0 and 1 *)
  ∧ _atom_metadata Ref.with_masses !! "mass" = Some Ref.mass_index
  ∧ _check_atoms_dict Ref.atom_metadata "mass" Ref.with_masses
    = (Ok false, Ref.with_masses)
  ∧ uvals Ref.mass_index !! 5 = None
  ∧ ∃ pd',
      find_unique_loop Ref.df_index Ref.df_loc_setitem "mass" [(5, Ref.atoms)]
        Ref.atoms Ref.with_masses
      = (Ref.df_loc_setitem Ref.atoms (Ref.df_index Ref.atoms) "mass" (CInt 2),
         set_atom_metadata (<["mass" := pd']> (_atom_metadata Ref.with_masses))
           Ref.with_masses)
      ∧ counter pd' = 2
      ∧ uvals pd' !! 5 = Some 2
      ∧ inv_uvals pd' !! 2 = Some 5.
Proof.
  destruct (unique_index_ids_sequential Ref.atom_metadata Ref.df_index
              Ref.df_loc_setitem "mass" (Ref.field ["mass"] false) Ref.new
              eq_refl (init_indexed []))
    as [Hfirst _].
  destruct (unique_index_ids_sequential Ref.atom_metadata Ref.df_index
              Ref.df_loc_setitem "mass" (Ref.field ["mass"] false) Ref.with_masses
              eq_refl with_masses_indexed)
    as [_ Hlater].
  destruct (Hfirst eq_refl) as [_ Hzero].
  destruct (Hlater Ref.mass_index eq_refl) as (Hguard & _ & _ & Hfresh & _).
  split; [reflexivity|]. split; [reflexivity|].
  split; [intros r dl'; apply Hzero|].
  split; [reflexivity|]. split; [exact Hguard|]. split; [reflexivity|].
  exact (Hfresh 5 Ref.atoms Ref.atoms eq_refl).
Defined.

(** The reference collaborators do what [add_atoms] takes of them. *)
Lemma ref_APC_catalog k v :
  (k, v) ∈ Ref.APC_DICT →
  ∃ fd, Ref.atom_metadata !! k = Some fd ∧ required_columns fd = v.
Proof.
  intros Hin.
  repeat (apply elem_of_cons in Hin as [[= -> ->]|Hin];
          [eexists; split; reflexivity|]).
  by apply elem_of_nil in Hin.
Qed.

Lemma ref_APC_keys : NoDup (PyDict.keys Ref.APC_DICT).
Proof. apply (bool_decide_unpack _). reflexivity. Qed.

Lemma ref_getitem_present (d : Ref.Frame) cols :
  cols ⊆ Ref.df_columns d →
  ∃ d', Ref.df_getitem d cols = Ok d' ∧ Ref.df_columns d' = cols.
Proof.
  intros Hcols. unfold Ref.df_getitem.
  rewrite bool_decide_eq_true_2 by done. by eexists.
Qed.

Lemma ref_mul_columns (d : Ref.Frame) s :
  ∃ d', Ref.df_mul d s = Ok d' ∧ Ref.df_columns d' = Ref.df_columns d.
Proof. by eexists. Qed.

Lemma ref_round_columns (d : Ref.Frame) t :
  ∃ d', Ref.df_round d t = Ok d' ∧ Ref.df_columns d' = Ref.df_columns d.
Proof. by eexists. Qed.

Lemma ref_groupby_present (d : Ref.Frame) k fd :
  Ref.atom_metadata !! k = Some fd → unique fd = false →
  required_columns fd ⊆ Ref.df_columns d →
  ∃ groups, Ref.groupby d (required_columns fd) = Ok groups.
Proof.
  intros Hfd Huniq Hcols. apply elem_of_list_to_map_2 in Hfd.
  repeat (apply elem_of_cons in Hfd as [[= -> ->]|Hfd]; [try discriminate Huniq|]);
    [| |by apply elem_of_nil in Hfd].
  all: simpl in *; unfold Ref.groupby;
    rewrite bool_decide_eq_true_2 by (apply Hcols; left); by eexists.
Qed.

Lemma ref_setitem_column (d : Ref.Frame) c v :
  c ∈ Ref.df_columns (Ref.df_setitem d c v).
Proof.
  unfold Ref.df_setitem, Ref.df_columns, Ref.with_column. simpl.
  case_bool_decide; [done|]. apply elem_of_app. right. left.
Qed.

Lemma ref_loc_setitem_present (d : Ref.Frame) idx c v :
  c ∈ Ref.df_columns d →
  ∃ d', Ref.df_loc_setitem d idx c v = Ok d' ∧ Ref.df_columns d' = Ref.df_columns d.
Proof.
  intros Hc. unfold Ref.df_loc_setitem.
  rewrite bool_decide_eq_true_2 by done. by eexists.
Qed.

Lemma ref_store_accepts (s : Ref.MemoryStore) name d :
  ∃ s', Ref.store_add_table s name d = (Ok (), s').
Proof. by eexists. Qed.

Lemma add_atoms_matches_witness :
  Ref.df_index_name (indexed_frame Ref.df_columns Ref.df_set_index Ref.junk_atoms)
    = Some index
  ∧ Ref.df_index_name (indexed_frame Ref.df_columns Ref.df_set_index Ref.charged_atoms)
    = Some index
  (* only a column no property knows *)
  ∧ Ref.add_atoms (AtomFrame Ref.junk_atoms) false UtNone Ref.new
    = (Raise (Exception_ (msg_no_key_matched ["junk"])), Ref.new)
  (* charges and masses by value, the charges with their unit, and a column
     no property knows *)
  ∧ unit_given (UtDict [("Charge", Ref.PyStr "e")]) "charge" = Some (Ref.PyStr "e")
  ∧ Ref.conversion_factor (Ref.PyStr "e") (fd_utype Ref.charge_field) = Ok 1
  ∧ ∃ dl',
      Ref.add_atoms (AtomFrame Ref.charged_atoms) true
        (UtDict [("Charge", Ref.PyStr "e")]) Ref.new = (Ok true, dl')
      ∧ ∀ q, (∀ v, (q, v) ∈ Ref.APC_DICT →
                columns_present v
                  (list_to_set (Ref.df_columns
                     (indexed_frame Ref.df_columns Ref.df_set_index
                        Ref.charged_atoms))) = false) →
             _atom_metadata dl' !! q = _atom_metadata Ref.new !! q.
Proof.
  pose proof (λ df by_value utype,
    add_atoms_matches Ref.atom_metadata Ref.APC_DICT Ref.conversion_factor
      Ref.df_columns Ref.df_set_index Ref.df_index_name Ref.df_index
      Ref.df_getitem Ref.df_mul Ref.df_round Ref.pd_DataFrame Ref.df_setitem
      Ref.df_loc_setitem Ref.groupby Ref.store_add_table
      ref_APC_catalog ref_APC_keys ref_getitem_present ref_mul_columns
      ref_round_columns ref_groupby_present ref_setitem_column
      ref_loc_setitem_present ref_store_accepts
      df by_value utype Ref.new) as Hthm.
  split; [reflexivity|]. split; [reflexivity|]. split.
  - apply (Hthm Ref.junk_atoms false UtNone);
      [reflexivity | discriminate | repeat constructor].
  - split; [reflexivity|]. split; [reflexivity|].
    apply (Hthm Ref.charged_atoms true (UtDict [("Charge", Ref.PyStr "e")]));
      [reflexivity | discriminate | |].
    + do 2 apply Exists_cons_tl. apply Exists_cons_hd. reflexivity.
    + intros _ k v fd u Hin _ Hfd [x Hx] Hu.
      repeat (apply elem_of_cons in Hin as [[= -> ->]|Hin];
              [injection Hfd as <-;
               first [discriminate Hx | injection Hu as <-; by eexists]|]).
      by apply elem_of_nil in Hin.
Defined.

Lemma get_atoms_unknown_witness :
  (∃ x, x ∈ requested_names (PropList ["mass"; "Bogus1"; "bogus2"])
        ∧ x ∉ PyDict.keys Ref.APC_DICT)
  ∧ Ref.get_atoms (PropList ["mass"; "Bogus1"; "bogus2"]) false UtNone Ref.with_masses
    = (Raise (KeyError
         "DataLayer:add_atoms: Property name(s) '['bogus1', 'bogus2']' not recognized."),
       Ref.with_masses)
  ∧ ∃ msg,
      Ref.get_atoms (PropList ["mass"; "Bogus1"; "bogus2"]) false UtNone Ref.with_masses
      = (Raise (KeyError msg), Ref.with_masses)
      ∧ ∀ x, x ∈ requested_names (PropList ["mass"; "Bogus1"; "bogus2"]) →
             x ∉ PyDict.keys Ref.APC_DICT →
             ∃ pre post, msg = pre +:+ py_repr x +:+ post.
Proof.
  assert (∃ x, x ∈ requested_names (PropList ["mass"; "Bogus1"; "bogus2"])
               ∧ x ∉ PyDict.keys Ref.APC_DICT) as Hunknown.
  { exists "bogus1". split.
    - apply (bool_decide_unpack _). reflexivity.
    - apply (bool_decide_unpack _). reflexivity. }
  split; [exact Hunknown|]. split; [reflexivity|].
  exact (get_atoms_reports_all_unknown Ref.atom_metadata Ref.APC_DICT
           Ref.conversion_factor Ref.df_index Ref.pd_DataFrame Ref.df_setitem
           Ref.df_loc_setitem Ref.groupby Ref.df_imul Ref.pd_concat
           Ref.store_read_table (PropList ["mass"; "Bogus1"; "bogus2"]) false UtNone
           Ref.with_masses Hunknown).
Defined.

Lemma get_atoms_case_witness :
  "mass" ∈ PyDict.keys Ref.APC_DICT
  ∧ lower "mass" = "mass"
  ∧ Ref.get_atoms (PropOne "MASS") true UtNone Ref.with_masses
    = Ref.get_atoms (PropOne "mass") true UtNone Ref.with_masses
  ∧ (Ref.get_atoms (PropOne "MASS") true UtNone Ref.with_masses).1
    = Ok (Ref.mk_Frame (Some "atom_index") ["mass"]
            [(10, [16]); (11, [1]); (12, [1])])
  ∧ Ref.get_atoms (PropOne (upper "mass")) true UtNone Ref.with_masses
    = bind (normalise_utype UtNone)
        (λ utype,
           bind (get_atoms_loop Ref.atom_metadata Ref.conversion_factor Ref.df_index
                   Ref.pd_DataFrame Ref.df_setitem Ref.df_loc_setitem Ref.groupby
                   Ref.df_imul Ref.store_read_table ["mass"] true utype [])
             (λ df_data, lift (Ref.pd_concat df_data))) Ref.with_masses.
Proof.
  destruct (get_atoms_case_insensitive Ref.atom_metadata Ref.APC_DICT
              Ref.conversion_factor Ref.df_index Ref.pd_DataFrame Ref.df_setitem
              Ref.df_loc_setitem Ref.groupby Ref.df_imul Ref.pd_concat
              Ref.store_read_table true UtNone Ref.with_masses)
    as (_ & Hone & Hknown).
  assert ("mass" ∈ PyDict.keys Ref.APC_DICT) as Hin
    by (apply (bool_decide_unpack _); reflexivity).
  split; [exact Hin|]. split; [reflexivity|].
  split; [exact (Hone "mass")|]. split; [reflexivity|].
  exact (Hknown "mass" Hin eq_refl).
Defined.

(** * Worked examples for the further properties *)

Lemma ref_store_gives_back (s : Ref.MemoryStore) name df s' :
  Ref.store_add_table s name df = (Ok (), s') →
  Ref.store_read_table s' name = (Ok df, s').
Proof.
  unfold Ref.store_add_table, Ref.store_read_table. intros [= <-].
  by rewrite PyDict.get_set_eq.
Qed.

Lemma add_parameters_outcome_witness :
  Ref.add_parameters (OInt 2) "harmonic" (TPList [4%Q; 5%Q]) None None Ref.registered
    = (Ok 0, Ref.one_term)
  ∧ (Ref.one_term = Ref.registered
     ∨ ∃ o terms k forms mdata params,
         Ok 0 = Ok k
         ∧ Ref.sanitize_term_order_name (OInt 2) = Ok (OInt o)
         ∧ _functional_forms Ref.registered !! o = Some forms
         ∧ forms !! "harmonic" = Some mdata
         ∧ Ref.validate_term_dict "harmonic" mdata (TPList [4%Q; 5%Q]) = Ok params
         ∧ _terms Ref.registered !! o = Some terms
         ∧ (k ∉ PyDict.keys terms)
         ∧ Ref.one_term = with_term o "harmonic" Ref.registered params terms k).
Proof.
  split; [reflexivity|].
  apply (add_parameters_outcome Ref.allclose Ref.sanitize_term_order_name
           Ref.validate_term_dict (OInt 2) "harmonic" (TPList [4%Q; 5%Q]) None None
           Ref.registered (Ok 0) Ref.one_term).
  reflexivity.
Defined.

Lemma add_parameters_on_new_layer_witness :
  Ref.sanitize_term_order_name (OStr "Bonds") = Ok (OInt 2)
  ∧ Ref.sanitize_term_order_name (OInt 9) = Ok (OInt 9)
  ∧ Ref.add_parameters (OStr "Bonds") "harmonic" (TPList [4%Q; 5%Q]) None None Ref.new
    = (Raise (KeyError (msg_not_registered "harmonic")), Ref.new)
  ∧ Ref.add_parameters (OInt 9) "harmonic" (TPList [4%Q; 5%Q]) None None Ref.new
    = (Raise (KeyError (msg_order_key (OInt 9))), Ref.new).
Proof.
  split; [reflexivity|]. split; [reflexivity|]. split.
  - exact (add_parameters_on_new_layer Ref.allclose Ref.sanitize_term_order_name
             Ref.validate_term_dict [] (OStr "Bonds") 2 "harmonic"
             (TPList [4%Q; 5%Q]) None None eq_refl).
  - exact (add_parameters_on_new_layer Ref.allclose Ref.sanitize_term_order_name
             Ref.validate_term_dict [] (OInt 9) 9 "harmonic"
             (TPList [4%Q; 5%Q]) None None eq_refl).
Defined.

Lemma register_outcome_witness :
  Ref.register_functional_forms (OInt 2) "harmonic" None (Some Ref.units) Ref.new
    = (Ok (), Ref.registered)
  ∧ (((∃ e, Ok () = Raise e) ∧ Ref.registered = Ref.new)
     ∨ ∃ o forms f,
         Ok () = Ok ()
         ∧ Ref.sanitize_term_order_name (OInt 2) = Ok (OInt o)
         ∧ _functional_forms Ref.new !! o = Some forms
         ∧ Ref.validate_functional_form_dict "harmonic" f = Ok true
         ∧ ((None = Some f ∧ forms !! "harmonic" = None)
            ∨ (∃ builtin u, (None : option (gmap string Ref.pyobj)) = None
                 ∧ Some Ref.units = Some u
                 ∧ Ref.get_term_metadata_forms (OInt o) "harmonic" = Ok builtin
                 ∧ f = <["units" := u]> builtin))
         ∧ Ref.registered
           = set_functional_forms
               (<[o := <["harmonic" := f]> forms]> (_functional_forms Ref.new)) Ref.new).
Proof.
  split; [reflexivity|].
  apply (register_functional_forms_outcome Ref.sanitize_term_order_name
           Ref.get_term_metadata_forms Ref.validate_functional_form_dict
           (OInt 2) "harmonic" None (Some Ref.units) Ref.new (Ok ()) Ref.registered).
  reflexivity.
Defined.

Lemma register_then_add_witness :
  Ref.register_functional_forms (OInt 2) "harmonic" None (Some Ref.other_units)
    Ref.one_term
    = (Ok (), Ref.after (Ref.register_functional_forms (OInt 2) "harmonic" None
                           (Some Ref.other_units)) Ref.one_term)
  ∧ find_key Ref.allclose "harmonic" [4%Q; 6%Q] [(0, ("harmonic", [4%Q; 5%Q]))]
    = Ok None
  ∧ ∃ o forms' f,
      Ref.sanitize_term_order_name (OInt 2) = Ok (OInt o)
      ∧ _functional_forms
          (Ref.after (Ref.register_functional_forms (OInt 2) "harmonic" None
                        (Some Ref.other_units)) Ref.one_term) !! o = Some forms'
      ∧ forms' !! "harmonic" = Some f
      ∧ _terms (Ref.after (Ref.register_functional_forms (OInt 2) "harmonic" None
                             (Some Ref.other_units)) Ref.one_term)
        = _terms Ref.one_term
      ∧ ∀ term_parameters params terms found,
          Ref.validate_term_dict "harmonic" f term_parameters = Ok params →
          _terms Ref.one_term !! o = Some terms →
          find_key Ref.allclose "harmonic" params terms = Ok found →
          ∃ uid dl'',
            Ref.add_parameters (OInt 2) "harmonic" term_parameters None None
              (Ref.after (Ref.register_functional_forms (OInt 2) "harmonic" None
                            (Some Ref.other_units)) Ref.one_term) = (Ok uid, dl'').
Proof.
  split; [reflexivity|]. split; [reflexivity|].
  apply (register_then_add_parameters Ref.allclose Ref.sanitize_term_order_name
           Ref.get_term_metadata_forms Ref.validate_functional_form_dict
           Ref.validate_term_dict (OInt 2) "harmonic" None (Some Ref.other_units)
           Ref.one_term).
  reflexivity.
Defined.

Lemma add_atoms_keeps_ids_witness :
  Ref.add_atoms (AtomFrame Ref.more_atoms) true UtNone Ref.with_masses
    = (Ok true, Ref.with_more_masses)
  ∧ _atom_metadata Ref.with_masses !! "mass" = Some Ref.mass_index
  ∧ uvals Ref.mass_index !! 16 = Some 1
  ∧ ∃ pd', _atom_metadata Ref.with_more_masses !! "mass" = Some pd'
           ∧ uvals pd' !! 16 = Some 1
           ∧ uvals pd' !! 12 = Some 2
           ∧ (dl_indexed Ref.with_masses → inv_uvals pd' !! 1 = Some 16).
Proof.
  split; [reflexivity|]. split; [reflexivity|]. split; [reflexivity|].
  destruct (add_atoms_keeps_ids Ref.atom_metadata Ref.APC_DICT Ref.conversion_factor
              Ref.df_columns Ref.df_set_index Ref.df_index_name Ref.df_index
              Ref.df_getitem Ref.df_mul Ref.df_round Ref.pd_DataFrame Ref.df_setitem
              Ref.df_loc_setitem Ref.groupby Ref.store_add_table
              (AtomFrame Ref.more_atoms) true UtNone Ref.with_masses (Ok true)
              Ref.with_more_masses "mass" Ref.mass_index 16 1
              eq_refl eq_refl eq_refl) as (pd' & Hpd' & Hid & Hinv).
  exists pd'. split; [exact Hpd'|]. split; [exact Hid|]. split; [|exact Hinv].
  assert (_atom_metadata Ref.with_more_masses !! "mass"
          = Some (update_param_dict 12 Ref.mass_index)) as Hnow by reflexivity.
  rewrite Hnow in Hpd'. injection Hpd' as <-. reflexivity.
Defined.

Lemma add_atoms_index_consistent_witness :
  dl_indexed Ref.with_masses
  ∧ Ref.add_atoms (AtomFrame Ref.more_atoms) true UtNone Ref.with_masses
    = (Ok true, Ref.with_more_masses)
  ∧ _atom_metadata Ref.with_more_masses !! "mass"
    = Some (update_param_dict 12 Ref.mass_index)
  ∧ (∀ v i, uvals (update_param_dict 12 Ref.mass_index) !! v = Some i
            ↔ inv_uvals (update_param_dict 12 Ref.mass_index) !! i = Some v)
  ∧ (∀ i, is_Some (inv_uvals (update_param_dict 12 Ref.mass_index) !! i)
          ↔ 0 ≤ i ≤ counter (update_param_dict 12 Ref.mass_index)).
Proof.
  split; [apply with_masses_indexed|]. split; [reflexivity|]. split; [reflexivity|].
  apply (add_atoms_index_consistent Ref.atom_metadata Ref.APC_DICT
           Ref.conversion_factor Ref.df_columns Ref.df_set_index Ref.df_index_name
           Ref.df_index Ref.df_getitem Ref.df_mul Ref.df_round Ref.pd_DataFrame
           Ref.df_setitem Ref.df_loc_setitem Ref.groupby Ref.store_add_table
           (AtomFrame Ref.more_atoms) true UtNone Ref.with_masses (Ok true)
           Ref.with_more_masses "mass" (update_param_dict 12 Ref.mass_index)
           with_masses_indexed eq_refl eq_refl).
Defined.

Lemma add_atoms_rejects_witness :
  Ref.add_atoms (AtomOther "<class 'list'>") false UtNone Ref.new
    = (Raise (KeyError (msg_not_understood "<class 'list'>")), Ref.new)
  ∧ Ref.df_index_name (indexed_frame Ref.df_columns Ref.df_set_index Ref.unindexed)
      ≠ Some index
  ∧ Ref.add_atoms (AtomFrame Ref.unindexed) false UtNone Ref.new
    = (Raise (KeyError (msg_index_name (Some "row"))), Ref.new)
  ∧ Ref.df_index_name (indexed_frame Ref.df_columns Ref.df_set_index Ref.atoms)
      = Some index
  ∧ Ref.add_atoms (AtomFrame Ref.atoms) false UtOther Ref.new
    = (Raise (TypeError "utype type not understood"), Ref.new).
Proof.
  assert (Ref.df_index_name (indexed_frame Ref.df_columns Ref.df_set_index Ref.unindexed)
            ≠ Some index) as Hrow by discriminate.
  split; [|split; [exact Hrow|split; [|split; [reflexivity|]]]].
  - apply (add_atoms_rejects Ref.atom_metadata Ref.APC_DICT Ref.conversion_factor
             Ref.df_columns Ref.df_set_index Ref.df_index_name Ref.df_index
             Ref.df_getitem Ref.df_mul Ref.df_round Ref.pd_DataFrame Ref.df_setitem
             Ref.df_loc_setitem Ref.groupby Ref.store_add_table false UtNone Ref.new).
  - apply (add_atoms_rejects Ref.atom_metadata Ref.APC_DICT Ref.conversion_factor
             Ref.df_columns Ref.df_set_index Ref.df_index_name Ref.df_index
             Ref.df_getitem Ref.df_mul Ref.df_round Ref.pd_DataFrame Ref.df_setitem
             Ref.df_loc_setitem Ref.groupby Ref.store_add_table false UtNone Ref.new).
    exact Hrow.
  - apply (add_atoms_rejects Ref.atom_metadata Ref.APC_DICT Ref.conversion_factor
             Ref.df_columns Ref.df_set_index Ref.df_index_name Ref.df_index
             Ref.df_getitem Ref.df_mul Ref.df_round Ref.pd_DataFrame Ref.df_setitem
             Ref.df_loc_setitem Ref.groupby Ref.store_add_table false UtOther Ref.new).
    reflexivity.
Defined.

Lemma get_atoms_reads_only_witness :
  (Ref.get_atoms (PropList ["mass"]) true UtNone Ref.with_masses).1
    = Ok (Ref.mk_Frame (Some "atom_index") ["mass"] [(10, [16]); (11, [1]); (12, [1])])
  ∧ registries (Ref.get_atoms (PropList ["mass"]) true UtNone Ref.with_masses).2
    = registries Ref.with_masses.
Proof.
  split; [reflexivity|].
  apply (get_atoms_reads_only Ref.atom_metadata Ref.APC_DICT Ref.conversion_factor
           Ref.df_index Ref.pd_DataFrame Ref.df_setitem Ref.df_loc_setitem Ref.groupby
           Ref.df_imul Ref.pd_concat Ref.store_read_table (PropList ["mass"]) true
           UtNone Ref.with_masses
           (Ref.get_atoms (PropList ["mass"]) true UtNone Ref.with_masses).1).
  apply surjective_pairing.
Defined.

Lemma add_terms_cases_witness :
  Ref.sanitize_term_order_name (OStr "bonds") = Ok (OInt 2)
  ∧ _functional_forms Ref.new !! 2 = Some ∅
  ∧ Ref.get_term_metadata_index_columns (OInt 2) = Ok ["atom1"; "atom2"]
  (* [atom2] is missing *)
  ∧ elements (list_to_set ["atom1"; "atom2"] ∖ list_to_set (Ref.df_columns Ref.one_atom)
              : gset string) = ["atom2"]
  ∧ Ref.add_terms (OStr "bonds") Ref.one_atom Ref.new
    = (Raise (KeyError
         (msg_missing_columns
            (elements (list_to_set ["atom1"; "atom2"]
                       ∖ list_to_set (Ref.df_columns Ref.one_atom) : gset string))
            (OInt 2))), Ref.new)
  (* no [term_index] *)
  ∧ Ref.add_terms (OStr "bonds") Ref.no_term_index Ref.new
    = (Raise (Exception_ msg_nyi_terms), Ref.new)
  (* the table is cut down and stored as [term2] *)
  ∧ Ref.df_getitem Ref.bonds (["atom1"; "atom2"] ++ ["term_index"]) = Ok Ref.bonds_cut
  ∧ Ref.add_terms (OStr "bonds") Ref.bonds Ref.new
    = add_table Ref.store_add_table ("term" +:+ pretty 2) Ref.bonds_cut Ref.new.
Proof.
  pose proof (λ df, add_terms_cases Ref.sanitize_term_order_name Ref.df_columns
                Ref.df_getitem Ref.store_add_table Ref.get_term_metadata_index_columns
                (OStr "bonds") 2 df Ref.new ∅ ["atom1"; "atom2"]
                eq_refl eq_refl eq_refl) as Hcases.
  assert (elements (list_to_set ["atom1"; "atom2"]
                    ∖ list_to_set (Ref.df_columns Ref.one_atom) : gset string)
          = ["atom2"]) as Hone by reflexivity.
  split; [reflexivity|]. split; [reflexivity|]. split; [reflexivity|].
  split; [exact Hone|].
  split; [|split; [|split; [reflexivity|]]].
  - destruct (Hcases Ref.one_atom) as (Hmissing & _ & _).
    apply Hmissing. rewrite Hone. discriminate.
  - destruct (Hcases Ref.no_term_index) as (_ & Hnyi & _).
    apply Hnyi; [reflexivity|]. apply (bool_decide_unpack _). reflexivity.
  - destruct (Hcases Ref.bonds) as (_ & _ & Hstore).
    apply Hstore; [reflexivity | | reflexivity].
    apply (bool_decide_unpack _). reflexivity.
Defined.

Lemma add_bonds_get_bonds_witness :
  Ref.add_bonds Ref.bonds Ref.new = (Ok true, Ref.with_bonds)
  ∧ Ref.get_bonds Ref.with_bonds = (Ok Ref.bonds_cut, Ref.with_bonds)
  ∧ ∃ o req_cols cut,
      true = true
      ∧ Ref.sanitize_term_order_name (OStr "bonds") = Ok (OInt o)
      ∧ Ref.get_term_metadata_index_columns (OInt o) = Ok req_cols
      ∧ Ref.df_getitem Ref.bonds (req_cols ++ ["term_index"]) = Ok cut
      ∧ Ref.get_bonds Ref.with_bonds = (Ok cut, Ref.with_bonds).
Proof.
  split; [reflexivity|]. split; [reflexivity|].
  apply (add_bonds_get_bonds Ref.sanitize_term_order_name Ref.df_columns
           Ref.df_getitem Ref.store_add_table Ref.store_read_table
           Ref.get_term_metadata_index_columns Ref.bonds Ref.new true Ref.with_bonds
           ref_store_gives_back).
  reflexivity.
Defined.

Lemma other_tables_listing_witness :
  Ref.store_list_tables (store Ref.with_notes)
    = (Ok ["mass"; "other_other_box"], store Ref.with_notes)
  ∧ (Ref.list_tables Ref.with_notes).1 = Ok ["mass"]
  ∧ (Ref.list_other_tables Ref.with_notes).1 = Ok ["box"]
  ∧ ∃ visible others,
      Ref.list_tables Ref.with_notes
        = (Ok visible, set_store (store Ref.with_notes) Ref.with_notes)
      ∧ Ref.list_other_tables Ref.with_notes
        = (Ok others, set_store (store Ref.with_notes) Ref.with_notes)
      ∧ ("other_" +:+ "other_box" ∉ visible)
      ∧ (∀ x, x ∈ visible
              ↔ x ∈ ["mass"; "other_other_box"] ∧ py_contains "other" x = false)
      ∧ py_remove_all "other_" "other_box" ∈ others
      ∧ (py_contains "other_" "other_box" = false → "other_box" ∈ others).
Proof.
  split; [reflexivity|]. split; [reflexivity|]. split; [reflexivity|].
  apply (other_tables_listing Ref.store_list_tables ["mass"; "other_other_box"]
           (store Ref.with_notes) Ref.with_notes "other_box" eq_refl).
  apply (bool_decide_unpack _). reflexivity.
Defined.

Lemma add_other_get_other_witness :
  Ref.add_other "box" Ref.notes Ref.with_masses
    = (Ok true, Ref.after (Ref.add_other "box" Ref.notes) Ref.with_masses)
  ∧ true = true
  ∧ Ref.store_read_table
      (store (Ref.after (Ref.add_other "box" Ref.notes) Ref.with_masses))
      ("other_" +:+ "box")
    = (Ok Ref.notes, store (Ref.after (Ref.add_other "box" Ref.notes) Ref.with_masses))
  ∧ Ref.get_other (PropOne "box")
      (Ref.after (Ref.add_other "box" Ref.notes) Ref.with_masses)
    = (Ref.pd_concat [Ref.notes],
       Ref.after (Ref.add_other "box" Ref.notes) Ref.with_masses).
Proof.
  split; [reflexivity|].
  apply (add_other_get_other Ref.pd_concat Ref.store_add_table Ref.store_read_table
           "box" Ref.notes Ref.with_masses true
           (Ref.after (Ref.add_other "box" Ref.notes) Ref.with_masses)
           ref_store_gives_back).
  reflexivity.
Defined.

Lemma terms_unknown_order_witness :
  Ref.sanitize_term_order_name (OStr "impropers") = Ok (OStr "impropers")
  ∧ at_order (OStr "impropers") (_functional_forms Ref.new) = None
  ∧ Ref.add_terms (OStr "impropers") Ref.bonds Ref.new
    = (Raise (KeyError (msg_add_terms_order (OStr "impropers"))), Ref.new)
  ∧ Ref.read_terms (OStr "impropers") Ref.new
    = (Raise (KeyError (msg_add_terms_order (OStr "impropers"))), Ref.new).
Proof.
  split; [reflexivity|]. split; [reflexivity|].
  apply (terms_unknown_order Ref.sanitize_term_order_name Ref.df_columns
           Ref.df_getitem Ref.store_add_table Ref.store_read_table
           Ref.get_term_metadata_index_columns (OStr "impropers") (OStr "impropers")
           Ref.bonds Ref.new eq_refl eq_refl).
Defined.

Lemma add_parameters_oldest_match_witness :
  _terms Ref.near_terms !! 2
  = Some ([] ++ (0, ("harmonic", [4%Q; 5%Q]))
             :: [(1, ("harmonic", [4%Q; 500004 # 100000]))])
  ∧ entry_matches Ref.allclose "harmonic" [4%Q; 500002 # 100000]
      ("harmonic", [4%Q; 5%Q]) = Ok true
  ∧ entry_matches Ref.allclose "harmonic" [4%Q; 500002 # 100000]
      ("harmonic", [4%Q; 500004 # 100000]) = Ok true
  ∧ Ref.add_parameters (OInt 2) "harmonic" (TPList [4%Q; 500002 # 100000]) None None
      Ref.near_terms = (Ok 0, Ref.near_terms).
Proof.
  split; [reflexivity|]. split; [reflexivity|]. split; [reflexivity|].
  apply (add_parameters_oldest_match Ref.allclose Ref.sanitize_term_order_name
           Ref.validate_term_dict (OInt 2) 2 "harmonic" (TPList [4%Q; 500002 # 100000])
           None Ref.near_terms Ref.registered_forms Ref.harmonic_with_units
           [4%Q; 500002 # 100000] [] 0 ("harmonic", [4%Q; 5%Q])
           [(1, ("harmonic", [4%Q; 500004 # 100000]))]
           eq_refl eq_refl eq_refl eq_refl eq_refl eq_refl);
    [constructor | reflexivity].
Defined.

Lemma add_parameters_distinct_witness :
  Ref.allclose [4%Q; 5%Q] [4%Q; 6%Q] = Ok false
  ∧ (Ref.add_parameters (OInt 2) "harmonic" (TPList [4%Q; 5%Q]) None None
       Ref.registered).1 = Ok 0
  ∧ (Ref.add_parameters (OInt 2) "harmonic" (TPList [4%Q; 6%Q]) None None
       Ref.one_term).1 = Ok 1
  ∧ ∃ uid1 uid2 dl1 dl2,
      Ref.add_parameters (OInt 2) "harmonic" (TPList [4%Q; 5%Q]) None None
        Ref.registered = (Ok uid1, dl1)
      ∧ Ref.add_parameters (OInt 2) "harmonic" (TPList [4%Q; 6%Q]) None None dl1
        = (Ok uid2, dl2)
      ∧ uid1 ≠ uid2
      ∧ _terms dl2 !! 2
        = Some ([] ++ [(uid1, ("harmonic", [4%Q; 5%Q]));
                       (uid2, ("harmonic", [4%Q; 6%Q]))]).
Proof.
  split; [reflexivity|]. split; [reflexivity|]. split; [reflexivity|].
  apply (add_parameters_distinct Ref.allclose Ref.sanitize_term_order_name
           Ref.validate_term_dict (OInt 2) 2 "harmonic" (TPList [4%Q; 5%Q])
           (TPList [4%Q; 6%Q]) None Ref.registered Ref.registered_forms
           Ref.harmonic_with_units [4%Q; 5%Q] [4%Q; 6%Q] []);
    first [reflexivity | constructor].
Defined.

Lemma find_unique_loop_indexes_witness :
  _atom_metadata Ref.with_masses !! "mass" = Some Ref.mass_index
  ∧ ∃ res dl',
      find_unique_loop Ref.df_index Ref.df_loc_setitem "mass"
        [(12, Ref.atoms); (16, Ref.atoms)] Ref.atoms Ref.with_masses = (Ok res, dl')
      ∧ dl' = set_atom_metadata
                (<["mass" := foldl (λ pd g, update_param_dict g.1 pd) Ref.mass_index
                                [(12, Ref.atoms); (16, Ref.atoms)]]>
                   (_atom_metadata Ref.with_masses)) Ref.with_masses
      ∧ ∀ gb_idx udf, (gb_idx, udf) ∈ [(12, Ref.atoms); (16, Ref.atoms)] →
          is_Some (uvals (foldl (λ pd g, update_param_dict g.1 pd) Ref.mass_index
                            [(12, Ref.atoms); (16, Ref.atoms)]) !! gb_idx).
Proof.
  split; [reflexivity|].
  pose (run := find_unique_loop Ref.df_index Ref.df_loc_setitem "mass"
                 [(12, Ref.atoms); (16, Ref.atoms)] Ref.atoms Ref.with_masses).
  exists (match run.1 with Ok res => res | Raise _ => Ref.atoms end), run.2.
  assert (run = (Ok (match run.1 with Ok res => res | Raise _ => Ref.atoms end), run.2))
    as Hrun by reflexivity.
  split; [exact Hrun|].
  exact (find_unique_loop_indexes Ref.df_index Ref.df_loc_setitem "mass"
           [(12, Ref.atoms); (16, Ref.atoms)] Ref.atoms Ref.with_masses _ _
           Ref.mass_index eq_refl Hrun).
Defined.
